(** * Archive service and profile-data deletion of the Sunbird mobile SDK

    A shallow embedding of [ArchiveServiceImpl] (export / import of data
    archives) and of [DeleteProfileDataHandler.delete], together with the
    small part of RxJS both are written in.

    Layout: the definitions come first (errors, the stream operators, the
    join operators, the archive service, the deletion handler), the lemmas
    and theorems follow. *)

From Stdlib Require Import String List Bool Arith ZArith Lia.
Import ListNotations.
Local Open Scope string_scope.
Local Open Scope list_scope.

Set Implicit Arguments.

(* ================================================================== *)
(** ** Errors and results of callbacks *)

(** The values that travel on the error channel.  [InvalidRequestError]
    and [InvalidArchiveError] are the two error classes the archive
    service constructs itself; [PlainError] is [new Error(message)];
    [TypeError] is what the runtime raises when a property of [undefined]
    is read; [CollaboratorError] is a failure handed over by a
    collaborator (file service, zip service, database, a delegate). *)
Inductive JsError : Type :=
| InvalidRequestError (message : string)
| InvalidArchiveError (message : string)
| PlainError (message : string)
| TypeError (message : string)
| CollaboratorError (origin : string) (message : string).

(** The class name and the message of an error. *)
Definition error_name (e : JsError) : string :=
  match e with
  | InvalidRequestError _ => "InvalidRequestError"
  | InvalidArchiveError _ => "InvalidArchiveError"
  | PlainError _ => "Error"
  | TypeError _ => "TypeError"
  | CollaboratorError origin _ => origin
  end.

Definition error_message (e : JsError) : string :=
  match e with
  | InvalidRequestError m | InvalidArchiveError m | PlainError m | TypeError m
  | CollaboratorError _ m => m
  end.

(** [hay.includes(needle)] *)
Definition includes (needle hay : string) : bool :=
  match String.index 0 needle hay with
  | Some _ => true
  | None => false
  end.

(** What a callback hands back: a value, or a thrown error. *)
Inductive Result (A : Type) : Type :=
| Ok (a : A)
| Throw (e : JsError).
Arguments Throw {A} e.

(** How a subscription ends. *)
Inductive Terminal : Type :=
| Completed
| Errored (e : JsError).

(** A collaborator's stream seen from outside: the values it delivers and
    how it ends ([None]: it completes). *)
Definition Source (A : Type) : Type := (list A * option JsError)%type.

(** The stream of a collaborator that settles once: one value and
    completion, or an error. *)
Definition settled (outcome : option JsError) : Source unit :=
  match outcome with
  | None => ([tt], None)
  | Some e => ([], Some e)
  end.

Definition terminal_of (end_ : option JsError) : Terminal :=
  match end_ with
  | None => Completed
  | Some e => Errored e
  end.

(* ================================================================== *)
(** ** The RxJS operators the two files use

    A subscribed observable is a resumption over the mutable state [S] of
    the call (closure variables, heap, log of collaborator calls): it has
    either delivered a value and waits to be resumed, or it has ended.
    Whatever sits downstream works on the state between two deliveries,
    and a downstream that fails just never resumes: that is the
    unsubscription. *)
Module Rx.
Section Operators.
Variable S : Type.

Inductive Stream (A : Type) : Type :=
| Next (a : A) (s : S) (k : S -> Stream A)
| Complete (s : S)
| Error (e : JsError) (s : S).
Arguments Complete {A} s.
Arguments Error {A} e s.

Definition Observable (A : Type) : Type := S -> Stream A.

(** A callback: reads and writes the state, returns or throws. *)
Definition Callback (A B : Type) : Type := A -> S -> Result B * S.

(** [of(a)] *)
Definition of_ {A} (a : A) : Observable A :=
  fun s => Next a s (fun s' => Complete s').

(** [throwError(e)] *)
Definition throwError {A} (e : JsError) : Observable A :=
  fun s => Error e s.

(** [from(promise)], the promise being known by its outcome. *)
Definition from {A} (promise : Result A) : Observable A :=
  match promise with
  | Ok a => of_ a
  | Throw e => throwError e
  end.

(** A collaborator's stream replayed: its values, then its end. *)
Fixpoint replay {A} (values : list A) (end_ : option JsError) : Observable A :=
  fun s =>
    match values with
    | [] => match end_ with
            | None => Complete s
            | Some e => Error e s
            end
    | a :: rest => Next a s (replay rest end_)
    end.

Definition fromSource {A} (src : Source A) : Observable A :=
  replay (fst src) (snd src).

(** [defer(factory)]: the factory runs at subscription, and may throw. *)
Definition defer {A} (factory : S -> Result (Observable A) * S) : Observable A :=
  fun s =>
    match factory s with
    | (Ok o, s') => o s'
    | (Throw e, s') => Error e s'
    end.

(** Sequencing: when [st] completes, [rest] is subscribed. *)
Fixpoint andThen {A} (st : Stream A) (rest : Observable A) : Stream A :=
  match st with
  | Next a s k => Next a s (fun s' => andThen (k s') rest)
  | Complete s => rest s
  | Error e s => Error e s
  end.

(** [concat(o1, o2, ...)] *)
Fixpoint concat {A} (os : list (Observable A)) : Observable A :=
  fun s =>
    match os with
    | [] => Complete s
    | o :: rest => andThen (o s) (concat rest)
    end.

Fixpoint mapS {A B} (f : Callback A B) (st : Stream A) : Stream B :=
  match st with
  | Next a s k =>
      match f a s with
      | (Ok b, s') => Next b s' (fun s'' => mapS f (k s''))
      | (Throw e, s') => Error e s'
      end
  | Complete s => Complete s
  | Error e s => Error e s
  end.

(** [map(f)], for a callback that may throw and may touch the state. *)
Definition map {A B} (f : Callback A B) (o : Observable A) : Observable B :=
  fun s => mapS f (o s).

(** [mapTo(b)] *)
Definition mapTo {A B} (b : B) (o : Observable A) : Observable B :=
  map (fun _ s => (Ok b, s)) o.

(** [tap(f)]: the effect of [f], the value passed on unchanged. *)
Definition tap {A} (f : A -> S -> S) (o : Observable A) : Observable A :=
  map (fun a s => (Ok a, f a s)) o.

(** [tap(f)] for a callback that may throw: a throw becomes the stream's
    error. *)
Definition tapping {A} (f : Callback A unit) (o : Observable A) : Observable A :=
  map (fun a s =>
         match f a s with
         | (Ok _, s') => (Ok a, s')
         | (Throw e, s') => (Throw e, s')
         end) o.

(** [concatMap] taken stream by stream: the inner stream of a value runs
    to its end before the outer stream goes on.  For an outer stream that
    completes, and for one that fails while no inner stream runs (a
    promise, a stream that fails before its first value), this is what
    rxjs does.  An outer stream that fails while an inner stream still
    runs ends rxjs's [concatMap] at once and drops the inner stream; here
    its error comes once the inner stream has ended.  What is stated of a
    failing inner stream is therefore stated for an outer stream that
    completes. *)
Fixpoint concatMapS {A B} (project : Callback A (Observable B)) (st : Stream A)
  : Stream B :=
  match st with
  | Next a s k =>
      match project a s with
      | (Ok inner, s') => andThen (inner s') (fun s'' => concatMapS project (k s''))
      | (Throw e, s') => Error e s'
      end
  | Complete s => Complete s
  | Error e s => Error e s
  end.

(** [concatMap(project)]; a throwing [project] becomes the stream's error.
    [mergeMap] over a source that delivers one value is the same
    operator. *)
Definition concatMap {A B} (project : Callback A (Observable B))
  (o : Observable A) : Observable B :=
  fun s => concatMapS project (o s).

Definition mergeMap {A B} := @concatMap A B.

Fixpoint catchErrorS {A} (selector : Callback JsError (Observable A))
  (st : Stream A) : Stream A :=
  match st with
  | Next a s k => Next a s (fun s' => catchErrorS selector (k s'))
  | Complete s => Complete s
  | Error e s =>
      match selector e s with
      | (Ok o, s') => o s'
      | (Throw e', s') => Error e' s'
      end
  end.

(** [catchError(selector)] *)
Definition catchError {A} (selector : Callback JsError (Observable A))
  (o : Observable A) : Observable A :=
  fun s => catchErrorS selector (o s).

(** An observer's [next]: it works on the state and may fail, which ends
    the subscription with that error. *)
Definition Observer (A : Type) : Type := A -> S -> option JsError * S.

(** Driving a stream with an observer, to its end. *)
Fixpoint drive {A} (next : Observer A) (st : Stream A) : Terminal * S :=
  match st with
  | Next a s k =>
      match next a s with
      | (None, s') => drive next (k s')
      | (Some e, s') => (Errored e, s')
      end
  | Complete s => (Completed, s)
  | Error e s => (Errored e, s)
  end.

(** Feeding a list of values to an observer, up to its first failure. *)
Fixpoint feed {A} (next : Observer A) (values : list A) (s : S)
  : option JsError * S :=
  match values with
  | [] => (None, s)
  | a :: rest =>
      match next a s with
      | (None, s') => feed next rest s'
      | (Some e, s') => (Some e, s')
      end
  end.

(** The final subscriber: [note] is what it does with each value. *)
Definition noting {A} (note : A -> S -> S) : Observer A :=
  fun a s => (None, note a s).

Definition subscribe {A} (note : A -> S -> S) (o : Observable A) (s : S)
  : Terminal * S :=
  drive (noting note) (o s).

(** [new Observable(subscriber)] for a subscriber function that calls a
    collaborator and forwards what it answers. *)
Definition create {A} (subscriber : S -> Source A * S) : Observable A :=
  fun s => let (src, s') := subscriber s in fromSource src s'.

End Operators.

Arguments Complete {S A} s.
Arguments Error {S A} e s.
End Rx.

(* ================================================================== *)
(** ** Joining collaborator streams: [combineLatest] and [zip]

    The joined streams belong to collaborators and run concurrently.  A
    schedule (the indices of the sources in the order in which they get to
    deliver their next notification) fixes one interleaving; whatever the
    schedule leaves undelivered is delivered afterwards, source by
    source, so every source is always heard to its end. *)
Module Join.
Section Join.
Variable A : Type.

Inductive Notification : Type :=
| N (a : A)
| C
| E (e : JsError).

Definition notifications (src : Source A) : list Notification :=
  List.map N (fst src) ++ [match snd src with None => C | Some e => E e end].

(** Source [i] delivers its next notification, if it has one left. *)
Fixpoint take_at (i : nat) (pending : list (list Notification)) {struct pending}
  : option (Notification * list (list Notification)) :=
  match pending with
  | [] => None
  | p :: rest =>
      match i with
      | 0 => match p with
             | [] => None
             | n :: ns => Some (n, ns :: rest)
             end
      | S j => match take_at j rest with
               | Some (n, rest') => Some (n, p :: rest')
               | None => None
               end
      end
  end.

Fixpoint deliver (schedule : list nat) (pending : list (list Notification))
  : list (nat * Notification) :=
  match schedule with
  | [] => []
  | i :: later =>
      match take_at i pending with
      | Some (n, pending') => (i, n) :: deliver later pending'
      | None => deliver later pending
      end
  end.

(** What a schedule leaves undelivered. *)
Fixpoint remaining (schedule : list nat) (pending : list (list Notification))
  : list (list Notification) :=
  match schedule with
  | [] => pending
  | i :: later =>
      match take_at i pending with
      | Some (_, pending') => remaining later pending'
      | None => remaining later pending
      end
  end.

(** The event lists that deliver everything that is pending, each
    source's notifications in their order. *)
Inductive Interleaving
  : list (list Notification) -> list (nat * Notification) -> Prop :=
| all_delivered pending :
    Forall (fun p => p = []) pending -> Interleaving pending []
| one_delivered i n pending pending' events :
    take_at i pending = Some (n, pending') ->
    Interleaving pending' events ->
    Interleaving pending ((i, n) :: events).

(** A notification is fine when the value it carries, if any, is. *)
Definition fine (P : A -> Prop) (n : Notification) : Prop :=
  match n with
  | N a => P a
  | _ => True
  end.

Definition drain (pending : list (list Notification)) : list nat :=
  flat_map (fun i => repeat i (length (nth i pending []))) (seq 0 (length pending)).

Definition interleave (schedule : list nat) (srcs : list (Source A))
  : list (nat * Notification) :=
  let pending := List.map notifications srcs in
  deliver (schedule ++ drain pending) pending.

(** Writing slot [i] of an array; out of range nothing is written. *)
Fixpoint put {X} (i : nat) (x : X) (l : list X) : list X :=
  match l with
  | [] => []
  | y :: rest =>
      match i with
      | 0 => x :: rest
      | S j => y :: put j x rest
      end
  end.

(** The array of latest values, once every slot is filled. *)
Fixpoint all_some {X} (l : list (option X)) : option (list X) :=
  match l with
  | [] => Some []
  | None :: _ => None
  | Some x :: rest =>
      match all_some rest with
      | Some xs => Some (x :: xs)
      | None => None
      end
  end.

(** [combineLatest]: each value of a source refreshes its slot, and once
    all slots are filled every refresh emits the array of latest values;
    the first error ends the join; it completes when all sources have
    completed. *)
Fixpoint combine (events : list (nat * Notification))
  (latest : list (option A)) (completed : list bool) : list (list A) * Terminal :=
  match events with
  | [] => ([], Completed)
  | (i, N a) :: later =>
      let latest' := put i (Some a) latest in
      match all_some latest' with
      | Some values =>
          let (out, t) := combine later latest' completed in (values :: out, t)
      | None => combine later latest' completed
      end
  | (i, C) :: later =>
      let completed' := put i true completed in
      if forallb (fun b => b) completed' then ([], Completed)
      else combine later latest completed'
  | (i, E e) :: _ => ([], Errored e)
  end.

Definition as_source {X} (r : list X * Terminal) : Source X :=
  (fst r, match snd r with Completed => None | Errored e => Some e end).

Definition combineLatest (schedule : list nat) (srcs : list (Source A))
  : Source (list A) :=
  as_source (combine (interleave schedule srcs)
               (List.map (fun _ => None) srcs) (List.map (fun _ => false) srcs)).

(** [zip]: each source has a buffer; when every buffer holds a value the
    heads are emitted together.  A source that completes with an empty
    buffer completes the join, at once or, when its buffer still holds
    something, as soon as the buffer runs empty. *)
Definition heads (buffers : list (list A)) : option (list A) :=
  all_some (List.map (fun b => hd_error b) buffers).

Definition exhausted (buffers : list (list A)) (completed : list bool) : bool :=
  existsb (fun bc => match fst bc with [] => snd bc | _ => false end)
    (List.combine buffers completed).

Fixpoint zipping (events : list (nat * Notification))
  (buffers : list (list A)) (completed : list bool) : list (list A) * Terminal :=
  match events with
  | [] => ([], Completed)
  | (i, N a) :: later =>
      let buffers' := put i (nth i buffers [] ++ [a]) buffers in
      match heads buffers' with
      | Some values =>
          let buffers'' := List.map (fun b => tl b) buffers' in
          if exhausted buffers'' completed then ([values], Completed)
          else let (out, t) := zipping later buffers'' completed in (values :: out, t)
      | None => zipping later buffers' completed
      end
  | (i, C) :: later =>
      match nth i buffers [] with
      | [] => ([], Completed)
      | _ :: _ =>
          let completed' := put i true completed in
          if forallb (fun b => b) completed' then ([], Completed)
          else zipping later buffers completed'
      end
  | (i, E e) :: _ => ([], Errored e)
  end.

Definition zip (schedule : list nat) (srcs : list (Source A)) : Source (list A) :=
  as_source (zipping (interleave schedule srcs)
               (List.map (fun _ => []) srcs) (List.map (fun _ => false) srcs)).

End Join.

Arguments C {A}.
Arguments E {A} e.

(** The sources of a [zip] that settle once (one value and completion, or
    an error): where one of them stands, by what it still has to deliver,
    what its buffer holds and whether it is marked complete. *)
Inductive Slot : list (Notification unit) -> list unit -> bool -> Prop :=
| fresh : Slot [N tt; C] [] false
| delivered : Slot [C] [tt] false
| finished : Slot [] [tt] true
| failing e : Slot [E e] [] false.

Definition Slots (n : nat) (pending : list (list (Notification unit)))
  (buffers : list (list unit)) (completed : list bool) : Prop :=
  length pending = n /\ length buffers = n /\ length completed = n /\
  forall i, i < n ->
    Slot (nth i pending []) (nth i buffers []) (nth i completed false).

(** A pure [map] piped onto a collaborator's stream. *)
Definition map_source {A B} (f : A -> B) (src : Source A) : Source B :=
  (List.map f (fst src), snd src).

End Join.

(* ================================================================== *)
(** ** The archive service: data *)
Module Archive.

Inductive ArchiveObjectType : Type := CONTENT | PROFILE | TELEMETRY.

(** [===] on object types *)
Definition type_eqb (a b : ArchiveObjectType) : bool :=
  match a, b with
  | CONTENT, CONTENT | PROFILE, PROFILE | TELEMETRY, TELEMETRY => true
  | _, _ => false
  end.

(** The specification's error for a type without delegate: an error of a
    class of its own whose message names the type, in upper or in lower
    case. *)
Definition type_names (t : ArchiveObjectType) : list string :=
  match t with
  | CONTENT => ["CONTENT"; "content"]
  | PROFILE => ["PROFILE"; "profile"]
  | TELEMETRY => ["TELEMETRY"; "telemetry"]
  end.

Definition NotSupported_naming (t : ArchiveObjectType) (e : JsError) : Prop :=
  error_name e = "NotSupportedError" /\
  existsb (fun name => includes name (error_message e)) (type_names t) = true.

Inductive ContentEncoding : Type := identity | gzip.

(** An item of [ArchiveManifest.archive.items].  The items a delegate
    reports as completed are written to the manifest as they are, and read
    back as the pending items of the import, so one type serves for all
    three. *)
Record ArchiveItem : Type := {
  objectType : ArchiveObjectType;
  file : string;
  contentEncoding : ContentEncoding;
  size : Z;
  explodedSize : Z
}.

(** Producer data is opaque to the service. *)
Definition ProducerData : Type := string.

Record Context : Type := { pdata : ProducerData }.

Record ArchiveContents : Type := {
  count : Z;
  items : list ArchiveItem
}.

Record ArchiveManifest : Type := {
  id : string;
  ver : string;
  ts : string;
  producer : ProducerData;
  archive : ArchiveContents
}.

Module ArchiveObjectExportProgress.
Record t : Type := { task : string; completed : list ArchiveItem }.
End ArchiveObjectExportProgress.

Module ArchiveObjectImportProgress.
Record t : Type := { task : string; pending : list ArchiveItem }.
End ArchiveObjectImportProgress.

Record ArchiveObject : Type := { type : ArchiveObjectType }.

(** [ArchiveExportRequest] and [ArchiveImportRequest] have the same two
    fields. *)
Module Request.
Record t : Type := { objects : list ArchiveObject; filePath : string }.
End Request.
Abbreviation ArchiveExportRequest := Request.t.
Abbreviation ArchiveImportRequest := Request.t.

(** A [Map] object is known by its reference into the heap. *)
Definition MapRef : Type := nat.

(** [ArchiveExportProgress] and [ArchiveImportProgress]: a task name, a
    reference to the per-type [Map], and an optional file path. *)
Record ArchiveProgress : Type := {
  task : string;
  progress : MapRef;
  filePath : option string
}.
Abbreviation ArchiveExportProgress := ArchiveProgress.
Abbreviation ArchiveImportProgress := ArchiveProgress.

(** The calls the service makes to its collaborators. *)
Inductive Call : Type :=
| createDir (path : string) (replace : bool)
| readAsText (path : string) (fileName : string)
| writeFile (path : string) (fileName : string) (data : string) (replace : bool)
| unzip (sourceZip : option string) (target : string)
| zip (sourceFolderPath : string) (target : string)
| buildContext
| telemetryExport (filePath : string) (workspacePath : string)
| telemetryImport (filePath : string) (workspacePath : string)
    (items : list ArchiveItem).

(** The calls that hand work to a delegate. *)
Definition delegate_call (c : Call) : Prop :=
  match c with
  | telemetryExport _ _ | telemetryImport _ _ _ => True
  | _ => False
  end.

(** What [JSON.parse] returns when it returns.  The code casts the value
    to [ArchiveManifest] without a check and reads nothing of it but
    [manifest.archive.items], so a parsed value is one of two things: a
    value that has an [archive.items] array of items, or any other JSON
    value ([{}], [null], [42], an [archive] without [items], ...), on
    which [manifest.archive.items.filter(...)] throws a [TypeError];
    [message] is the message of that error. *)
Inductive JsonValue : Type :=
| with_items (manifest : ArchiveManifest)
| without_items (message : string).

(** The items a parsed value lists. *)
Definition listed (parsed : JsonValue) : list ArchiveItem :=
  match parsed with
  | with_items manifest => items (archive manifest)
  | without_items _ => []
  end.

(** Everything outside the service.  [JSON_parse] answers [None] where
    [JSON.parse] throws.  The streams of the delegates and of
    [buildContext] are given by what they deliver. *)
(** In detail: the platform constants, what the
    collaborators answer to each call, the built-in JSON codec, and
    the interleaving of the delegates. *)
Record World : Type := {
  externalCacheDirectory : string;
  generateUniqueId : string;
  toISOString : string;
  createDir_outcome : string -> bool -> Result unit;
  readAsText_outcome : string -> string -> Result string;
  writeFile_outcome : string -> string -> string -> bool -> Result unit;
  unzip_outcome : option string -> string -> option JsError;
  zip_outcome : string -> string -> option JsError;
  buildContext_stream : Source Context;
  JSON_stringify : ArchiveManifest -> string;
  JSON_parse : string -> option JsonValue;
  telemetryExport_stream : string -> string -> Source ArchiveObjectExportProgress.t;
  telemetryImport_stream :
    string -> string -> list ArchiveItem -> Source ArchiveObjectImportProgress.t;
  schedule : list nat
}.

(* ------------------------------------------------------------------ *)
(** *** The state of one call *)
Section Machine.
Variable V : Type.

(** A JS [Map] keyed by object type: entries in insertion order. *)
Definition JsMap : Type := list (ArchiveObjectType * V).

(** [map.set(key, value)]: an existing key keeps its place. *)
Fixpoint Map_set (key : ArchiveObjectType) (value : V) (m : JsMap) : JsMap :=
  match m with
  | [] => [(key, value)]
  | (k, v) :: rest =>
      if type_eqb key k then (key, value) :: rest
      else (k, v) :: Map_set key value rest
  end.

(** [map.get(key)] *)
Fixpoint Map_get (key : ArchiveObjectType) (m : JsMap) : option V :=
  match m with
  | [] => None
  | (k, v) :: rest => if type_eqb key k then Some v else Map_get key rest
  end.

Definition Map_keys (m : JsMap) : list ArchiveObjectType := List.map fst m.

(** What the subscriber and the log see. *)
Inductive Event : Type :=
| Called (c : Call)                  (* a collaborator is called *)
| Settled (c : Call)                 (* its answer reaches the pipeline *)
| Subscribed (c : Call)              (* the stream it returned is subscribed *)
| Emitted (p : ArchiveProgress) (view : JsMap).
                                     (* a snapshot is delivered to the
                                        subscriber; [view] is the content of
                                        its [Map] at that moment *)

Record State : Type := {
  heap : list JsMap;
  log : list Event;
  lastResult : option ArchiveProgress
}.

Definition initial : State := {| heap := []; log := []; lastResult := None |}.

Definition record (e : Event) (s : State) : State :=
  {| heap := heap s; log := log s ++ [e]; lastResult := lastResult s |}.

Definition assign (r : ArchiveProgress) (s : State) : State :=
  {| heap := heap s; log := log s; lastResult := Some r |}.

(** Storing a freshly built [Map]. *)
Definition alloc (m : JsMap) (s : State) : MapRef * State :=
  (length (heap s),
   {| heap := heap s ++ [m]; log := log s; lastResult := lastResult s |}).

Definition deref (r : MapRef) (s : State) : JsMap := nth r (heap s) [].

(** Mutating the [Map] behind a reference. *)
Definition Map_set_at (r : MapRef) (key : ArchiveObjectType) (value : V)
  (s : State) : State :=
  {| heap := Join.put r (Map_set key value (deref r s)) (heap s);
     log := log s;
     lastResult := lastResult s |}.

(** The subscriber of a call: it looks at each snapshot when it gets it. *)
Definition observe (p : ArchiveProgress) (s : State) : State :=
  record (Emitted p (deref (progress p) s)) s.

(** [x!] *)
Definition nonNull {X} (x : option X) (what : string) : Result X :=
  match x with
  | Some v => Ok v
  | None => Throw (TypeError what)
  end.

(** A promise: the call that made it, and how it settles. *)
Record Promise (X : Type) : Type := { made_by : Call; outcome : Result X }.

(** [from(promise)]; the log notes when the outcome reaches the pipeline. *)
Definition fromPromise {X} (p : Promise X) : Rx.Observable State X :=
  fun s => Rx.from (outcome p) (record (Settled (made_by p)) s).

(** A collaborator's stream, subscribed. *)
Definition fromCollaborator {X} (c : Call) (src : Source X) : Rx.Observable State X :=
  Rx.create (fun s => (src, record (Subscribed c) s)).

Variable w : World.

Definition fileService_createDir (path : string) (replace : bool) (s : State)
  : Promise unit * State :=
  ({| made_by := createDir path replace; outcome := createDir_outcome w path replace |},
   record (Called (createDir path replace)) s).

Definition fileService_readAsText (path fileName : string) (s : State)
  : Promise string * State :=
  ({| made_by := readAsText path fileName; outcome := readAsText_outcome w path fileName |},
   record (Called (readAsText path fileName)) s).

Definition fileService_writeFile (path fileName data : string) (replace : bool)
  (s : State) : Promise unit * State :=
  ({| made_by := writeFile path fileName data replace;
      outcome := writeFile_outcome w path fileName data replace |},
   record (Called (writeFile path fileName data replace)) s).

(** [zipService.unzip(source, {target}, success, error)] inside
    [new Observable]: success is [next(); complete()], failure is [error(e)]. *)
Definition zipService_unzip (sourceZip : option string) (target : string)
  : Rx.Observable State unit :=
  Rx.create (fun s =>
    let s1 := record (Called (unzip sourceZip target)) s in
    (settled (unzip_outcome w sourceZip target), record (Settled (unzip sourceZip target)) s1)).

Definition zipService_zip (sourceFolderPath target : string)
  : Rx.Observable State unit :=
  Rx.create (fun s =>
    let s1 := record (Called (zip sourceFolderPath target)) s in
    (settled (zip_outcome w sourceFolderPath target), record (Settled (zip sourceFolderPath target)) s1)).

(** [array.map(callback)] for a callback that may throw: the elements are
    visited in order and the first throw ends the visit. *)
Fixpoint Array_map {X Y} (callback : X -> State -> Result Y * State)
  (xs : list X) (s : State) : Result (list Y) * State :=
  match xs with
  | [] => (Ok [], s)
  | x :: rest =>
      match callback x s with
      | (Ok y, s1) =>
          match Array_map callback rest s1 with
          | (Ok ys, s2) => (Ok (y :: ys), s2)
          | (Throw e, s2) => (Throw e, s2)
          end
      | (Throw e, s1) => (Throw e, s1)
      end
  end.

(** [combineLatest(streams)] of delegate streams: all are subscribed, in
    order, and joined. *)
Definition combineLatest {X} (streams : list (Call * Source X))
  : Rx.Observable State (list X) :=
  Rx.create (fun s =>
    (Join.combineLatest (schedule w) (List.map snd streams),
     fold_left (fun acc c => record (Subscribed c) acc) (List.map fst streams) s)).

(** A collaborator called, and its answer received. *)
Definition answered (c : Call) (s : State) : State :=
  record (Settled c) (record (Called c) s).

(** The content of the [Map] a list of (key, value) pairs builds when
    each pair is [set] in turn, starting from [start]. *)
Definition Map_of (pairs : list (ArchiveObjectType * V)) (start : JsMap) : JsMap :=
  fold_left (fun acc r => Map_set (fst r) (snd r) acc) pairs start.

(** [results.reduce((acc, {type, progress}) => acc.set(type, progress), new Map())] *)
Definition reduceObjectProgress (results : list (ArchiveObjectType * V))
  (s : State) : MapRef * State :=
  alloc (Map_of results []) s.

(** The keys of a [Map] are exactly the given types, each once. *)
Definition keys_exactly (types : list ArchiveObjectType) (m : JsMap) : Prop :=
  NoDup (Map_keys m) /\ forall t, In t (Map_keys m) <-> In t types.

(** What one joint report of the delegates does to the state: a fresh
    [Map] aggregates it, the snapshot is assigned to [lastResult] and
    delivered. *)
Definition aggregate (task_ : string) (results : list (ArchiveObjectType * V))
  (s : State) : State :=
  let (perType, s1) := reduceObjectProgress results s in
  let snapshot := {| task := task_; progress := perType; filePath := None |} in
  observe snapshot (assign snapshot s1).

End Machine.

Arguments Called {V} c.
Arguments Settled {V} c.
Arguments Subscribed {V} c.

(** The state of an export holds export progress in its [Map]s, the state
    of an import holds import progress. *)
Abbreviation ExportState := (State ArchiveObjectExportProgress.t).
Abbreviation ImportState := (State ArchiveObjectImportProgress.t).

(** [{...r, task: t}] *)
Definition retask (r : ArchiveProgress) (t : string) : ArchiveProgress :=
  {| task := t; progress := progress r; filePath := filePath r |}.

(* ------------------------------------------------------------------ *)
(** *** [ArchiveServiceImpl] *)
Section ArchiveServiceImpl.
Variable w : World.

Definition ARCHIVE_ID : string := "sunbird.data.archive".
Definition ARCHIVE_VERSION : string := "1.0".

Definition reduceObjectProgressToArchiveObjectExportProgress
  (results : list (ArchiveObjectType * ArchiveObjectExportProgress.t))
  : ExportState -> MapRef * ExportState :=
  reduceObjectProgress results.

Definition reduceObjectProgressToArchiveObjectImportProgress
  (results : list (ArchiveObjectType * ArchiveObjectImportProgress.t))
  : ImportState -> MapRef * ImportState :=
  reduceObjectProgress results.

(** The workspace of a call:
    [`${cordova.file.externalCacheDirectory}${UniqueId.generateUniqueId()}`] *)
Definition workspacePath : string :=
  String.append (externalCacheDirectory w) (generateUniqueId w).

(** The callback of [exportRequest.objects.map] in [export]. *)
Definition export_object (exportRequest : ArchiveExportRequest)
  (object : ArchiveObject) (s : ExportState)
  : Result (Call * Source (ArchiveObjectType * ArchiveObjectExportProgress.t))
    * ExportState :=
  match type object with
  | CONTENT => (Throw (PlainError "To be implemented"), s)
  | PROFILE => (Throw (PlainError "To be implemented"), s)
  | TELEMETRY =>
      let c := telemetryExport (Request.filePath exportRequest) workspacePath in
      (Ok (c, Join.map_source (fun progress => (TELEMETRY, progress))
                (telemetryExport_stream w (Request.filePath exportRequest)
                   workspacePath)),
       record (Called c) s)
  end.

(** [`${cordova.file.externalCacheDirectory}archive-${new Date().toISOString()}.zip`] *)
Definition zipFilePath : string :=
  String.append (externalCacheDirectory w)
    (String.append "archive-" (String.append (toISOString w) ".zip")).

Definition generateZipArchive (exportProgress : ArchiveExportProgress)
  : Rx.Observable ExportState ArchiveExportProgress :=
  Rx.mapTo
    {| task := "COMPLETE";
       progress := progress exportProgress;
       filePath := Some zipFilePath |}
    (zipService_zip w workspacePath zipFilePath).

(** [Array.from(progress.entries()).reduce((acc, [_, p]) => acc.concat(p.completed), [])] *)
Definition flattenedItems (entries : JsMap ArchiveObjectExportProgress.t)
  : list ArchiveItem :=
  fold_left
    (fun acc entry => acc ++ ArchiveObjectExportProgress.completed (snd entry))
    entries [].

Definition manifest_of (producerData : ProducerData) (flattened : list ArchiveItem)
  : ArchiveManifest :=
  {| id := ARCHIVE_ID;
     ver := ARCHIVE_VERSION;
     ts := toISOString w;
     producer := producerData;
     archive := {| count := Z.of_nat (length flattened); items := flattened |} |}.

(** What [generateManifestFile] does with one producer context: the
    manifest is built from the [Map] behind [perType] and written. *)
Definition write_manifest (perType : MapRef) (producerData : ProducerData)
  (s : ExportState) : Promise unit * ExportState :=
  fileService_writeFile w workspacePath "manifest.json"
    (JSON_stringify w (manifest_of producerData (flattenedItems (deref perType s))))
    true s.

Definition generateManifestFile (exportProgress : ArchiveExportProgress)
  (s : ExportState)
  : Rx.Observable ExportState ArchiveExportProgress * ExportState :=
  let perType := progress exportProgress in
  (Rx.mapTo {| task := "BUILDING_MANIFEST"; progress := perType; filePath := None |}
     (Rx.concatMap
        (fun producerData s1 =>
           let (promise, s2) := write_manifest perType producerData s1 in
           (Ok (fromPromise promise), s2))
        (Rx.map (fun c s1 => (Ok (pdata c), s1))
           (fromCollaborator buildContext (buildContext_stream w)))),
   record (Called buildContext) s).

(** The manifest stage seen from its subscriber, for one producer
    context: the manifest is written and, once the write has succeeded, a
    [BUILDING_MANIFEST] snapshot is delivered. *)
Definition manifest_step (exportProgress : ArchiveExportProgress)
  : Rx.Observer ExportState Context :=
  fun c s =>
    let (promise, s1) := write_manifest (progress exportProgress) (pdata c) s in
    let s2 := record (Settled (made_by promise)) s1 in
    match outcome promise with
    | Ok _ =>
        (None,
         observe {| task := "BUILDING_MANIFEST";
                    progress := progress exportProgress;
                    filePath := None |} s2)
    | Throw e => (Some e, s2)
    end.

(** The first argument of [concat] in [export]: the workspace, then the
    delegates joined, each joint report aggregated into a [BUILDING]
    snapshot that is kept in [lastResult]. *)
Definition export_objects (exportRequest : ArchiveExportRequest)
  (created : Promise unit) : Rx.Observable ExportState ArchiveExportProgress :=
  Rx.tap (fun results => assign results)
    (Rx.map
       (fun results s =>
          let (perType, s1) :=
            reduceObjectProgressToArchiveObjectExportProgress results s in
          (Ok {| task := "BUILDING"; progress := perType; filePath := None |}, s1))
       (Rx.concatMap
          (fun _ s =>
             match Array_map (export_object exportRequest)
                     (Request.objects exportRequest) s with
             | (Ok streams, s1) => (Ok (combineLatest w streams), s1)
             | (Throw e, s1) => (Throw e, s1)
             end)
          (fromPromise created))).

(** [defer(() => this.generateManifestFile(lastResult!, workspacePath))] *)
Definition export_manifest : Rx.Observable ExportState ArchiveExportProgress :=
  Rx.defer (fun s =>
    match nonNull (lastResult s)
            "Cannot destructure property 'progress' of undefined" with
    | Ok r => let (o, s1) := generateManifestFile r s in (Ok o, s1)
    | Throw e => (Throw e, s)
    end).

(** [defer(() => this.generateZipArchive(lastResult!, workspacePath))] *)
Definition export_zip : Rx.Observable ExportState ArchiveExportProgress :=
  Rx.defer (fun s =>
    match nonNull (lastResult s) "lastResult is undefined" with
    | Ok r => (Ok (generateZipArchive r), s)
    | Throw e => (Throw e, s)
    end).

(** [export(exportRequest)]: what the call returns, and the state it
    leaves behind.  [createDir] is called when [export] is called. *)
Definition export_ (exportRequest : ArchiveExportRequest)
  : Rx.Observable ExportState ArchiveExportProgress * ExportState :=
  let s := initial ArchiveObjectExportProgress.t in
  if Nat.eqb (length (Request.objects exportRequest)) 0 then
    (Rx.throwError (InvalidRequestError "No archive objects to export"), s)
  else
    let (created, s1) := fileService_createDir w workspacePath false s in
    (Rx.concat
       [ export_objects exportRequest created; export_manifest; export_zip ],
     s1).

Definition extractZipArchive (importProgress : ArchiveImportProgress)
  : Rx.Observable ImportState ArchiveImportProgress :=
  Rx.mapTo (retask importProgress "EXTRACTING")
    (zipService_unzip w (filePath importProgress) workspacePath).

(** [manifest.archive.items.filter((i) => i.objectType === type)] *)
Definition items_of (manifest : ArchiveManifest) (type_ : ArchiveObjectType)
  : list ArchiveItem :=
  filter (fun i => type_eqb (objectType i) type_) (items (archive manifest)).

(** [{task: 'INITIALISING', pending: items}] *)
Definition initialising (matching : list ArchiveItem) : ArchiveObjectImportProgress.t :=
  {| ArchiveObjectImportProgress.task := "INITIALISING";
     ArchiveObjectImportProgress.pending := matching |}.

(** The [objectTypes.forEach] of [readManifestFile]: the entries set
    before a throw stay set. *)
Fixpoint forEach_objectType (manifest : ArchiveManifest) (perType : MapRef)
  (objectTypes : list ArchiveObjectType) (s : ImportState)
  : Result unit * ImportState :=
  match objectTypes with
  | [] => (Ok tt, s)
  | type_ :: rest =>
      let matching := items_of manifest type_ in
      if Nat.eqb (length matching) 0 then
        (Throw (InvalidArchiveError "Nothing to import"), s)
      else
        forEach_objectType manifest perType rest
          (Map_set_at perType type_ (initialising matching) s)
  end.

(** The same [forEach] on whatever [JSON.parse] returned: on a value
    without an [archive.items] array the first visit throws when it
    evaluates [manifest.archive.items.filter], before anything is set. *)
Definition forEach_objectType_of (parsed : JsonValue) (perType : MapRef)
  (objectTypes : list ArchiveObjectType) (s : ImportState)
  : Result unit * ImportState :=
  match parsed with
  | with_items manifest => forEach_objectType manifest perType objectTypes s
  | without_items message =>
      match objectTypes with
      | [] => (Ok tt, s)
      | _ :: _ => (Throw (TypeError message), s)
      end
  end.

Definition readManifestFile (importProgress : ArchiveImportProgress)
  (objectTypes : list ArchiveObjectType) (s : ImportState)
  : Rx.Observable ImportState ArchiveImportProgress * ImportState :=
  let (content, s1) := fileService_readAsText w workspacePath "manifest.json" s in
  (Rx.map
     (fun manifest s2 =>
        match forEach_objectType_of manifest (progress importProgress) objectTypes s2 with
        | (Ok _, s3) =>
            (Ok {| task := "VALIDATING";
                   progress := progress importProgress;
                   filePath := filePath importProgress |}, s3)
        | (Throw e, s3) => (Throw e, s3)
        end)
     (Rx.map
        (fun text s2 =>
           (match JSON_parse w text with
            | Some manifest => Ok manifest
            | None => Throw (InvalidArchiveError "Invalid manfiest.json")
            end, s2))
        (fromPromise content)),
   s1).

(** The callback of [importRequest.objects.map] in [import]. *)
Definition import_object (importRequest : ArchiveImportRequest)
  (object : ArchiveObject) (s : ImportState)
  : Result (Call * Source (ArchiveObjectType * ArchiveObjectImportProgress.t))
    * ImportState :=
  match type object with
  | CONTENT => (Throw (PlainError "To be implemented"), s)
  | PROFILE => (Throw (PlainError "To be implemented"), s)
  | TELEMETRY =>
      match nonNull (lastResult s) "lastResult is undefined" with
      | Throw e => (Throw e, s)
      | Ok r =>
          match nonNull (Map_get TELEMETRY (deref (progress r) s))
                  "Cannot read property 'pending' of undefined" with
          | Throw e => (Throw e, s)
          | Ok entry =>
              let c := telemetryImport (Request.filePath importRequest) workspacePath
                         (ArchiveObjectImportProgress.pending entry) in
              (Ok (c, Join.map_source (fun progress => (TELEMETRY, progress))
                        (telemetryImport_stream w (Request.filePath importRequest)
                           workspacePath (ArchiveObjectImportProgress.pending entry))),
               record (Called c) s)
          end
      end
  end.

(** [defer(() => this.extractZipArchive(lastResult, workspacePath))] *)
Definition import_extract : Rx.Observable ImportState ArchiveImportProgress :=
  Rx.defer (fun s =>
    match nonNull (lastResult s) "lastResult is undefined" with
    | Ok r => (Ok (extractZipArchive r), s)
    | Throw e => (Throw e, s)
    end).

(** [defer(() => this.readManifestFile(lastResult, workspacePath,
    importRequest.objects.map(o => o.type)))] *)
Definition import_validate (importRequest : ArchiveImportRequest)
  : Rx.Observable ImportState ArchiveImportProgress :=
  Rx.defer (fun s =>
    match nonNull (lastResult s) "lastResult is undefined" with
    | Ok r =>
        let (o, s1) :=
          readManifestFile r (List.map type (Request.objects importRequest)) s in
        (Ok o, s1)
    | Throw e => (Throw e, s)
    end).

(** The third argument of [concat] in [import]: the workspace, then the
    delegates joined, each joint report aggregated into an [IMPORTING]
    snapshot that is assigned to [lastResult]. *)
Definition import_objects (importRequest : ArchiveImportRequest)
  (created : Promise unit) : Rx.Observable ImportState ArchiveImportProgress :=
  Rx.tap (fun results => assign results)
    (Rx.map
       (fun results s =>
          let (aggregated, s1) :=
            reduceObjectProgressToArchiveObjectImportProgress results s in
          (Ok {| task := "IMPORTING"; progress := aggregated; filePath := None |},
           s1))
       (Rx.concatMap
          (fun _ s =>
             match Array_map (import_object importRequest)
                     (Request.objects importRequest) s with
             | (Ok streams, s1) => (Ok (combineLatest w streams), s1)
             | (Throw e, s1) => (Throw e, s1)
             end)
          (fromPromise created))).

(** [of({...lastResult, task: 'COMPLETE'})], for the value [lastResult]
    has when the argument is evaluated. *)
Definition import_complete (captured : option ArchiveImportProgress)
  : Rx.Observable ImportState ArchiveImportProgress :=
  match captured with
  | Some r => Rx.of_ (retask r "COMPLETE")
  | None => Rx.throwError (TypeError "lastResult is undefined")
  end.

(** [import(importRequest)]: what the call returns, and the state it
    leaves behind.  The arguments of [concat] are evaluated when [import]
    is called: [createDir] is called then, and [{...lastResult, task:
    'COMPLETE'}] is built then. *)
Definition import_ (importRequest : ArchiveImportRequest)
  : Rx.Observable ImportState ArchiveImportProgress * ImportState :=
  let s := initial ArchiveObjectImportProgress.t in
  if Nat.eqb (length (Request.objects importRequest)) 0 then
    (Rx.throwError (InvalidRequestError "No archive objects to export"), s)
  else
    let (perType, s1) := alloc [] s in
    let s2 :=
      assign {| task := "";
                progress := perType;
                filePath := Some (Request.filePath importRequest) |} s1 in
    let (created, s3) := fileService_createDir w workspacePath false s2 in
    (Rx.concat
       [ import_extract;
         import_validate importRequest;
         import_objects importRequest created;
         import_complete (lastResult s3) ],
     s3).

(** A call followed by the subscription to what it returned. *)
Definition run_export (exportRequest : ArchiveExportRequest)
  : Terminal * ExportState :=
  let (o, s) := export_ exportRequest in Rx.subscribe (@observe _) o s.

Definition run_import (importRequest : ArchiveImportRequest)
  : Terminal * ImportState :=
  let (o, s) := import_ importRequest in Rx.subscribe (@observe _) o s.

(** The [Map] the validation stage leaves behind when it succeeds: every
    requested type set to the manifest's items of that type. *)
Definition validated (manifest : ArchiveManifest) (types : list ArchiveObjectType)
  : JsMap ArchiveObjectImportProgress.t :=
  Map_of (List.map (fun t => (t, initialising (items_of manifest t))) types) [].

(** The events the manifest stage of an export may log, for the snapshot
    [r] sealed before it and the state [s] it starts from. *)
Definition manifest_event (r : ArchiveExportProgress) (s : ExportState)
  (ev : Event ArchiveObjectExportProgress.t) : Prop :=
  (exists producerData,
      ev = Called (writeFile workspacePath "manifest.json"
                     (JSON_stringify w
                        (manifest_of producerData
                           (flattenedItems (deref (progress r) s)))) true)) \/
  (exists c, ev = Settled c) \/
  ev = Emitted {| task := "BUILDING_MANIFEST"; progress := progress r;
                  filePath := None |} (deref (progress r) s).

(** What holds of every event of an export, [final] being the state the
    run ends in. *)
Definition export_event_ok (exportRequest : ArchiveExportRequest)
  (final : ExportState) (ev : Event ArchiveObjectExportProgress.t) : Prop :=
  let types := List.map type (Request.objects exportRequest) in
  match ev with
  | Emitted p view => keys_exactly types view
  | Called (writeFile path fileName data replace) =>
      path = workspacePath /\ fileName = "manifest.json" /\ replace = true /\
      exists producerData r,
        lastResult final = Some r /\
        keys_exactly types (deref (progress r) final) /\
        data = JSON_stringify w
                 (manifest_of producerData
                    (flattenedItems (deref (progress r) final)))
  | Subscribed _ =>
      Forall (fun o => type o = TELEMETRY) (Request.objects exportRequest)
  | _ => True
  end.

(** What holds of every event of an import. *)
Definition import_event_ok (importRequest : ArchiveImportRequest)
  (ev : Event ArchiveObjectImportProgress.t) : Prop :=
  let types := List.map type (Request.objects importRequest) in
  let r0 := {| task := ""; progress := 0;
               filePath := Some (Request.filePath importRequest) |} in
  match ev with
  | Emitted p view =>
      (p = retask r0 "EXTRACTING" /\ view = []) \/
      (exists text manifest,
          readAsText_outcome w workspacePath "manifest.json" = Ok text /\
          JSON_parse w text = Some (with_items manifest) /\
          Forall (fun t => items_of manifest t <> []) types /\
          view = validated manifest types /\
          (p = retask r0 "VALIDATING" \/ p = retask r0 "COMPLETE")) \/
      (exists aggregated,
          p = {| task := "IMPORTING"; progress := aggregated; filePath := None |} /\
          0 < aggregated /\ keys_exactly types view)
  | Subscribed _ =>
      Forall (fun o => type o = TELEMETRY) (Request.objects importRequest)
  | _ => True
  end.

(** The two calls once more, in direct style: what the subscription to
    the pipeline does step by step.  [ArchiveStages.run_export_steps] and
    [ArchiveStages.run_import_steps] show that the pipelines above do
    exactly this. *)
Definition export_steps (exportRequest : ArchiveExportRequest)
  : Terminal * ExportState :=
  match Request.objects exportRequest with
  | [] =>
      (Errored (InvalidRequestError "No archive objects to export"),
       initial ArchiveObjectExportProgress.t)
  | _ :: _ =>
      let mkdir := createDir workspacePath false in
      let s0 := answered mkdir (initial ArchiveObjectExportProgress.t) in
      match createDir_outcome w workspacePath false with
      | Throw e => (Errored e, s0)
      | Ok _ =>
          match Array_map (export_object exportRequest)
                  (Request.objects exportRequest) s0 with
          | (Throw e, s1) => (Errored e, s1)
          | (Ok streams, s1) =>
              let joined :=
                Join.combineLatest (schedule w) (List.map snd streams) in
              let s2 :=
                fold_left (fun acc results => aggregate "BUILDING" results acc)
                  (fst joined)
                  (fold_left (fun acc c => record (Subscribed c) acc)
                     (List.map fst streams) s1) in
              match snd joined with
              | Some e => (Errored e, s2)
              | None =>
                  match lastResult s2 with
                  | None =>
                      (Errored
                         (TypeError
                            "Cannot destructure property 'progress' of undefined"),
                       s2)
                  | Some r =>
                      match Rx.feed (manifest_step r) (fst (buildContext_stream w))
                              (record (Subscribed buildContext)
                                 (record (Called buildContext) s2)) with
                      | (Some e, s3) => (Errored e, s3)
                      | (None, s3) =>
                          match snd (buildContext_stream w) with
                          | Some e => (Errored e, s3)
                          | None =>
                              match lastResult s3 with
                              | None =>
                                  (Errored (TypeError "lastResult is undefined"), s3)
                              | Some r' =>
                                  let z := zip workspacePath zipFilePath in
                                  match zip_outcome w workspacePath zipFilePath with
                                  | Some e => (Errored e, answered z s3)
                                  | None =>
                                      (Completed,
                                       observe
                                         {| task := "COMPLETE";
                                            progress := progress r';
                                            filePath := Some zipFilePath |}
                                         (answered z s3))
                                  end
                              end
                          end
                      end
                  end
              end
          end
      end
  end.

(** The per-type stage of an import and the [COMPLETE] snapshot after
    it, from the state [s] validation has left; [r0] is the value of
    [lastResult] captured by the call. *)
Definition import_objects_steps (importRequest : ArchiveImportRequest)
  (r0 : ArchiveImportProgress) (s : ImportState) : Terminal * ImportState :=
  let s3 := record (Settled (createDir workspacePath false)) s in
  match createDir_outcome w workspacePath false with
  | Throw e => (Errored e, s3)
  | Ok _ =>
      match Array_map (import_object importRequest)
              (Request.objects importRequest) s3 with
      | (Throw e, s4) => (Errored e, s4)
      | (Ok streams, s4) =>
          let joined :=
            Join.combineLatest (schedule w) (List.map snd streams) in
          let s5 :=
            fold_left (fun acc results => aggregate "IMPORTING" results acc)
              (fst joined)
              (fold_left (fun acc c => record (Subscribed c) acc)
                 (List.map fst streams) s4) in
          match snd joined with
          | Some e => (Errored e, s5)
          | None => (Completed, observe (retask r0 "COMPLETE") s5)
          end
      end
  end.

Definition import_steps (importRequest : ArchiveImportRequest)
  : Terminal * ImportState :=
  match Request.objects importRequest with
  | [] =>
      (Errored (InvalidRequestError "No archive objects to export"),
       initial ArchiveObjectImportProgress.t)
  | _ :: _ =>
      let r0 := {| task := "";
                   progress := 0;
                   filePath := Some (Request.filePath importRequest) |} in
      let mkdir := createDir workspacePath false in
      let s0 :=
        record (Called mkdir)
          (assign r0 (snd (alloc [] (initial ArchiveObjectImportProgress.t)))) in
      let u := unzip (Some (Request.filePath importRequest)) workspacePath in
      match unzip_outcome w (Some (Request.filePath importRequest)) workspacePath with
      | Some e => (Errored e, answered u s0)
      | None =>
          let s1 := observe (retask r0 "EXTRACTING") (answered u s0) in
          let read := readAsText workspacePath "manifest.json" in
          match readAsText_outcome w workspacePath "manifest.json" with
          | Throw e => (Errored e, answered read s1)
          | Ok text =>
              match JSON_parse w text with
              | None =>
                  (Errored (InvalidArchiveError "Invalid manfiest.json"),
                   answered read s1)
              | Some (without_items message) =>
                  (Errored (TypeError message), answered read s1)
              | Some (with_items manifest) =>
                  match forEach_objectType manifest 0
                          (List.map type (Request.objects importRequest))
                          (answered read s1) with
                  | (Throw e, s2) => (Errored e, s2)
                  | (Ok _, s2) =>
                      import_objects_steps importRequest r0
                        (observe (retask r0 "VALIDATING") s2)
                  end
              end
          end
      end
  end.

End ArchiveServiceImpl.
End Archive.

(* ================================================================== *)
(** ** [DeleteProfileDataHandler] *)
Module Profile.

(** The table and column names come from the schema modules of the other
    services; the handler only splices them into its queries. *)
Record Schema : Type := {
  ProfileEntry_TABLE_NAME : string;
  ProfileEntry_COLUMN_NAME_UID : string;
  ContentMarkerEntry_TABLE_NAME : string;
  ContentMarkerEntry_COLUMN_NAME_UID : string;
  ContentAccessEntry_TABLE_NAME : string;
  ContentAccessEntry_COLUMN_NAME_UID : string;
  LearnerAssessmentsEntry_TABLE_NAME : string;
  LearnerAssessmentsEntry_COLUMN_NAME_UID : string;
  LearnerSummaryEntry_TABLE_NAME : string;
  LearnerSummaryEntry_COLUMN_NAME_UID : string;
  ContentFeedbackEntry_TABLE_NAME : string;
  ContentFeedbackEntry_COLUMN_NAME_UID : string;
  SearchHistoryEntry_TABLE_NAME : string;
  SearchHistoryEntry_COLUMN_NAME_USER_ID : string;
  GroupProfileEntry_TABLE_NAME : string;
  GroupProfileEntry_COLUMN_NAME_UID : string;
  UserEntry_TABLE_NAME : string;
  UserEntry_COLUMN_NAME_UID : string;
  PlayerConfigEntry_TABLE_NAME : string;
  PlayerConfigEntry_COLUMN_NAME_USER_ID : string;
  KeyValueStoreEntry_TABLE_NAME : string;
  KeyValueStoreEntry_COLUMN_NAME_KEY : string
}.

(** The two kinds of statement the handler hands to the database
    service. *)
Inductive Statement : Type :=
| delete (table : string) (selection : string) (selectionArgs : list string)
| execute (query : string).

(** The database service: each statement settles once, with success or
    with an error; [settling] is the order in which the statements of one
    batch get to settle.  [beginTransaction] and [endTransaction] return
    nothing or throw ([Some e]: the call throws [e]); the log keeps when
    they are called. *)
Record DbService : Type := {
  beginTransaction_throws : option JsError;
  endTransaction_throws : bool -> option JsError;
  outcome_of : Statement -> option JsError;
  settling : list nat
}.

Inductive Event : Type :=
| beginTransaction
| endTransaction (isOperationSuccessful : bool)
| Called (q : Statement)         (* the statement is handed to the service *)
| Subscribed (q : Statement)     (* the stream it returned is subscribed *)
| console_log (e : JsError)
| Emitted (value : bool).        (* delivered to the subscriber *)

Definition State : Type := list Event.

Definition record (e : Event) (s : State) : State := s ++ [e].

Section DeleteProfileDataHandler.
Variable schema : Schema.
Variable dbService : DbService.

Definition newline : string := String (Ascii.ascii_of_nat 10) EmptyString.

(** [`${column} = ?`] *)
Definition equals_placeholder (column : string) : string :=
  String.append column " = ?".

(** The statements of [delete(uid)], in the order of the arguments of
    [zip]. *)
Definition statements (uid : string) : list Statement :=
  [ delete (ProfileEntry_TABLE_NAME schema)
      (equals_placeholder (ProfileEntry_COLUMN_NAME_UID schema)) [uid];
    delete (ContentMarkerEntry_TABLE_NAME schema)
      (equals_placeholder (ContentMarkerEntry_COLUMN_NAME_UID schema)) [uid];
    delete (ContentAccessEntry_TABLE_NAME schema)
      (equals_placeholder (ContentAccessEntry_COLUMN_NAME_UID schema)) [uid];
    delete (LearnerAssessmentsEntry_TABLE_NAME schema)
      (equals_placeholder (LearnerAssessmentsEntry_COLUMN_NAME_UID schema)) [uid];
    delete (LearnerSummaryEntry_TABLE_NAME schema)
      (equals_placeholder (LearnerSummaryEntry_COLUMN_NAME_UID schema)) [uid];
    delete (ContentFeedbackEntry_TABLE_NAME schema)
      (equals_placeholder (ContentFeedbackEntry_COLUMN_NAME_UID schema)) [uid];
    delete (SearchHistoryEntry_TABLE_NAME schema)
      (equals_placeholder (SearchHistoryEntry_COLUMN_NAME_USER_ID schema)) [uid];
    delete (GroupProfileEntry_TABLE_NAME schema)
      (equals_placeholder (GroupProfileEntry_COLUMN_NAME_UID schema)) [uid];
    delete (UserEntry_TABLE_NAME schema)
      (equals_placeholder (UserEntry_COLUMN_NAME_UID schema)) [uid];
    delete (PlayerConfigEntry_TABLE_NAME schema)
      (equals_placeholder (PlayerConfigEntry_COLUMN_NAME_USER_ID schema)) [uid];
    execute
      (String.concat ""
         [ "DELETE FROM "; KeyValueStoreEntry_TABLE_NAME schema; "     "; newline;
           "                                            WHERE ";
           KeyValueStoreEntry_COLUMN_NAME_KEY schema; " "; newline;
           "                                            LIKE '%%"; uid; "%%'" ]) ].

(** The stream the service returns for a statement. *)
Definition stream_of (q : Statement) : Source unit :=
  settled (outcome_of dbService q).

(** [zip(stream1, ..., stream11)]: all are subscribed, in order, and
    joined. *)
Definition zip (qs : list Statement) : Rx.Observable State (list unit) :=
  Rx.create (fun s =>
    (Join.zip (settling dbService) (List.map stream_of qs),
     fold_left (fun acc q => record (Subscribed q) acc) qs s)).

(** [this.dbService.beginTransaction()] and
    [this.dbService.endTransaction(isOperationSuccessful)] *)
Definition dbService_beginTransaction (s : State) : Result unit * State :=
  (match beginTransaction_throws dbService with
   | None => Ok tt
   | Some e => Throw e
   end,
   record beginTransaction s).

Definition dbService_endTransaction (isOperationSuccessful : bool) (s : State)
  : Result unit * State :=
  (match endTransaction_throws dbService isOperationSuccessful with
   | None => Ok tt
   | Some e => Throw e
   end,
   record (endTransaction isOperationSuccessful) s).

(** [delete(uid)] *)
Definition delete_ (uid : string) : Rx.Observable State bool :=
  Rx.catchError
    (fun e s =>
       match dbService_endTransaction false (record (console_log e) s) with
       | (Ok _, s') => (Ok (Rx.of_ false), s')
       | (Throw e', s') => (Throw e', s')
       end)
    (Rx.tapping (fun _ s => dbService_endTransaction true s)
       (Rx.mergeMap
          (fun _ s =>
             let qs := statements uid in
             (Ok (Rx.mapTo true (zip qs)),
              fold_left (fun acc q => record (Called q) acc) qs s))
          (Rx.defer
             (fun s =>
                match dbService_beginTransaction s with
                | (Ok began, s') => (Ok (Rx.of_ began), s')
                | (Throw e, s') => (Throw e, s')
                end)))).

(** The call followed by the subscription to what it returned. *)
Definition run_delete (uid : string) : Terminal * State :=
  Rx.subscribe (fun value s => record (Emitted value) s) (delete_ uid) [].

(** The log once every statement has been handed over and subscribed. *)
Definition issued (uid : string) : State :=
  [beginTransaction] ++ List.map Called (statements uid)
  ++ List.map Subscribed (statements uid).

(** What follows a failure [e] after the events [before]: the error is
    logged and the transaction is rolled back; the rollback may throw. *)
Definition rolled_back (e : JsError) (before : State) : Terminal * State :=
  match endTransaction_throws dbService false with
  | None => (Completed, before ++ [console_log e; endTransaction false; Emitted false])
  | Some e' => (Errored e', before ++ [console_log e; endTransaction false])
  end.

End DeleteProfileDataHandler.
End Profile.

(* ================================================================== *)
(** ** The archive service: what a run looks like

    Vocabulary for the statements about whole runs: the reducer described
    without a [Map], the snapshots a stage delivers, the events of one
    manifest write. *)
Module ArchiveShapes.
Import Archive.

Section Shapes.
Variable V : Type.

(** The last value reported for a type, if any. *)
Definition last_report (t : ArchiveObjectType)
  (results : list (ArchiveObjectType * V)) : option V :=
  fold_left (fun acc r => if type_eqb t (fst r) then Some (snd r) else acc)
    results None.

(** The types of a list in the order of their first occurrence. *)
Definition first_occurrences (types : list ArchiveObjectType)
  : list ArchiveObjectType :=
  fold_left (fun acc t => if existsb (type_eqb t) acc then acc else acc ++ [t])
    types [].

(** The snapshots a per-type stage delivers for the joint reports
    [arrays]: one per report, each with a fresh [Map], the first at
    reference [start]. *)
Fixpoint snapshots (task_ : string) (start : MapRef)
  (arrays : list (list (ArchiveObjectType * V))) : list (Event V) :=
  match arrays with
  | [] => []
  | results :: rest =>
      Emitted {| task := task_; progress := start; filePath := None |}
        (Map_of results [])
      :: snapshots task_ (S start) rest
  end.

(** A [COMPLETE] snapshot. *)
Definition completes (ev : Event V) : Prop :=
  match ev with
  | Emitted p _ => task p = "COMPLETE"
  | _ => False
  end.

(** An event of the last step of a call: the archive is packed, or the
    [COMPLETE] snapshot is delivered. *)
Definition closing (ev : Event V) : Prop :=
  match ev with
  | Emitted p _ => task p = "COMPLETE"
  | Called (zip _ _) => True
  | _ => False
  end.

End Shapes.

Section Service.
Variable w : World.

(** The stream of the export delegate as [export] joins it, and of the
    import delegate as [import] joins it. *)
Definition export_stream (exportRequest : ArchiveExportRequest)
  : Source (ArchiveObjectType * ArchiveObjectExportProgress.t) :=
  Join.map_source (fun progress => (TELEMETRY, progress))
    (telemetryExport_stream w (Request.filePath exportRequest) (workspacePath w)).

Definition import_stream (importRequest : ArchiveImportRequest)
  (pending_ : list ArchiveItem)
  : Source (ArchiveObjectType * ArchiveObjectImportProgress.t) :=
  Join.map_source (fun progress => (TELEMETRY, progress))
    (telemetryImport_stream w (Request.filePath importRequest) (workspacePath w)
       pending_).

(** The joint reports of the delegates of an export, and of an import
    whose delegates are handed [pending_]. *)
Definition export_reports (exportRequest : ArchiveExportRequest)
  : Source (list (ArchiveObjectType * ArchiveObjectExportProgress.t)) :=
  Join.combineLatest (schedule w)
    (repeat (export_stream exportRequest)
       (length (Request.objects exportRequest))).

Definition import_reports (importRequest : ArchiveImportRequest)
  (pending_ : list ArchiveItem)
  : Source (list (ArchiveObjectType * ArchiveObjectImportProgress.t)) :=
  Join.combineLatest (schedule w)
    (repeat (import_stream importRequest pending_)
       (length (Request.objects importRequest))).

(** The write of the manifest for the producer context [c] and the
    aggregation [view]. *)
Definition manifest_write (view : JsMap ArchiveObjectExportProgress.t)
  (c : Context) : Call :=
  writeFile (workspacePath w) "manifest.json"
    (JSON_stringify w (manifest_of w (pdata c) (flattenedItems view))) true.

(** The events of one manifest write that succeeds, [view] being kept
    behind [perType]. *)
Definition manifest_written (perType : MapRef)
  (view : JsMap ArchiveObjectExportProgress.t) (c : Context)
  : list (Event ArchiveObjectExportProgress.t) :=
  [ Called (manifest_write view c); Settled (manifest_write view c);
    Emitted {| task := "BUILDING_MANIFEST"; progress := perType; filePath := None |}
      view ].

End Service.
End ArchiveShapes.

(* ================================================================== *)
(** ** Concrete worlds, to run the two services on *)
Module Examples.
Import Archive.

Definition item1 : ArchiveItem :=
  {| objectType := TELEMETRY; file := "telemetry-1.gz"; contentEncoding := gzip;
     size := 120%Z; explodedSize := 900%Z |}.

Definition item2 : ArchiveItem :=
  {| objectType := TELEMETRY; file := "telemetry-2.gz"; contentEncoding := gzip;
     size := 80%Z; explodedSize := 640%Z |}.

(** The manifest an export of the two items writes. *)
Definition manifest_ok : ArchiveManifest :=
  {| id := "sunbird.data.archive";
     ver := "1.0";
     ts := "2020-05-01T10:00:00.000Z";
     producer := "prod.sunbird.app";
     archive := {| count := 2%Z; items := [item1; item2] |} |}.

(** A manifest that lists nothing. *)
Definition manifest_empty : ArchiveManifest :=
  {| id := "sunbird.data.archive";
     ver := "1.0";
     ts := "2020-05-01T10:00:00.000Z";
     producer := "prod.sunbird.app";
     archive := {| count := 0%Z; items := [] |} |}.

(** A world in which every collaborator succeeds.  The export delegate
    reports twice, the second time with both items completed; the import
    delegate reports twice, the second time that the import of its items
    is complete.  The manifest file reads back as what the export has
    written. *)
Definition world_ok : World :=
  {| externalCacheDirectory := "file:///cache/";
     generateUniqueId := "4f1c";
     toISOString := "2020-05-01T10:00:00.000Z";
     createDir_outcome := fun _ _ => Ok tt;
     readAsText_outcome := fun _ _ => Ok "{manifest}";
     writeFile_outcome := fun _ _ _ _ => Ok tt;
     unzip_outcome := fun _ _ => None;
     zip_outcome := fun _ _ => None;
     buildContext_stream := ([ {| pdata := "prod.sunbird.app" |} ], None);
     JSON_stringify := fun _ => "{manifest}";
     JSON_parse :=
       fun text =>
         if String.eqb text "{manifest}" then Some (with_items manifest_ok) else None;
     telemetryExport_stream := fun _ _ =>
       ([ {| ArchiveObjectExportProgress.task := "EXPORTING";
             ArchiveObjectExportProgress.completed := [item1] |};
          {| ArchiveObjectExportProgress.task := "OBJECT_EXPORT_COMPLETE";
             ArchiveObjectExportProgress.completed := [item1; item2] |} ], None);
     telemetryImport_stream := fun _ _ pending_ =>
       ([ {| ArchiveObjectImportProgress.task := "IMPORTING";
             ArchiveObjectImportProgress.pending := pending_ |};
          {| ArchiveObjectImportProgress.task := "OBJECT_IMPORT_COMPLETE";
             ArchiveObjectImportProgress.pending := pending_ |} ], None);
     schedule := [] |}.

(** The same world with another JSON parser. *)
Definition with_JSON_parse (w : World) (parse : string -> option JsonValue)
  : World :=
  {| externalCacheDirectory := externalCacheDirectory w;
     generateUniqueId := generateUniqueId w;
     toISOString := toISOString w;
     createDir_outcome := createDir_outcome w;
     readAsText_outcome := readAsText_outcome w;
     writeFile_outcome := writeFile_outcome w;
     unzip_outcome := unzip_outcome w;
     zip_outcome := zip_outcome w;
     buildContext_stream := buildContext_stream w;
     JSON_stringify := JSON_stringify w;
     JSON_parse := parse;
     telemetryExport_stream := telemetryExport_stream w;
     telemetryImport_stream := telemetryImport_stream w;
     schedule := schedule w |}.

(** A world whose manifest file is not JSON. *)
Definition world_bad_json : World := with_JSON_parse world_ok (fun _ => None).

(** A world whose manifest lists nothing. *)
Definition world_empty_manifest : World :=
  with_JSON_parse world_ok (fun _ => Some (with_items manifest_empty)).

(** A world whose manifest file holds [{}]: JSON, but not a manifest. *)
Definition world_no_items : World :=
  with_JSON_parse world_ok
    (fun _ => Some (without_items "Cannot read property 'items' of undefined")).

Definition request (types : list ArchiveObjectType) : Request.t :=
  {| Request.objects := List.map (fun t => {| type := t |}) types;
     Request.filePath := "file:///downloads/archive.zip" |}.

(** A schema and a database for the profile handler. *)
Definition schema : Profile.Schema :=
  {| Profile.ProfileEntry_TABLE_NAME := "profiles";
     Profile.ProfileEntry_COLUMN_NAME_UID := "uid";
     Profile.ContentMarkerEntry_TABLE_NAME := "content_marker";
     Profile.ContentMarkerEntry_COLUMN_NAME_UID := "uid";
     Profile.ContentAccessEntry_TABLE_NAME := "content_access";
     Profile.ContentAccessEntry_COLUMN_NAME_UID := "uid";
     Profile.LearnerAssessmentsEntry_TABLE_NAME := "learner_assessments";
     Profile.LearnerAssessmentsEntry_COLUMN_NAME_UID := "uid";
     Profile.LearnerSummaryEntry_TABLE_NAME := "learner_content_summary";
     Profile.LearnerSummaryEntry_COLUMN_NAME_UID := "uid";
     Profile.ContentFeedbackEntry_TABLE_NAME := "feedback";
     Profile.ContentFeedbackEntry_COLUMN_NAME_UID := "uid";
     Profile.SearchHistoryEntry_TABLE_NAME := "search_history";
     Profile.SearchHistoryEntry_COLUMN_NAME_USER_ID := "user_id";
     Profile.GroupProfileEntry_TABLE_NAME := "group_profile";
     Profile.GroupProfileEntry_COLUMN_NAME_UID := "uid";
     Profile.UserEntry_TABLE_NAME := "users";
     Profile.UserEntry_COLUMN_NAME_UID := "uid";
     Profile.PlayerConfigEntry_TABLE_NAME := "player_data";
     Profile.PlayerConfigEntry_COLUMN_NAME_USER_ID := "user_id";
     Profile.KeyValueStoreEntry_TABLE_NAME := "no_sql";
     Profile.KeyValueStoreEntry_COLUMN_NAME_KEY := "key" |}.

(** A database in which every statement succeeds, and one that refuses
    the raw [DELETE] on the key-value store. *)
Definition db_ok : Profile.DbService :=
  {| Profile.beginTransaction_throws := None;
     Profile.endTransaction_throws := fun _ => None;
     Profile.outcome_of := fun _ => None;
     Profile.settling := [10; 3; 3; 0] |}.

Definition db_locked : Profile.DbService :=
  {| Profile.beginTransaction_throws := None;
     Profile.endTransaction_throws := fun _ => None;
     Profile.outcome_of := fun q =>
       match q with
       | Profile.execute _ => Some (CollaboratorError "SQLiteError" "database is locked")
       | Profile.delete _ _ _ => None
       end;
     Profile.settling := [10; 3; 3; 0] |}.

(** The same database when the rollback throws as well. *)
Definition db_gone : Profile.DbService :=
  {| Profile.beginTransaction_throws := None;
     Profile.endTransaction_throws := fun isOperationSuccessful =>
       if isOperationSuccessful then None
       else Some (CollaboratorError "SQLiteError" "database is closed");
     Profile.outcome_of := Profile.outcome_of db_locked;
     Profile.settling := [10; 3; 3; 0] |}.

End Examples.

(* ================================================================== *)
(** ** Worlds in which a collaborator fails or stays silent *)
Module Failures.
Import Archive.

(** The world of [Examples.world_ok] with other answers of the file
    service, the zip service, the producer context and the export
    delegate. *)
Definition world_with
  (created : Result unit) (unzipped : option JsError) (text : Result string)
  (zipped : option JsError) (contexts : Source Context)
  (exported : Source ArchiveObjectExportProgress.t) : World :=
  {| externalCacheDirectory := externalCacheDirectory Examples.world_ok;
     generateUniqueId := generateUniqueId Examples.world_ok;
     toISOString := toISOString Examples.world_ok;
     createDir_outcome := fun _ _ => created;
     readAsText_outcome := fun _ _ => text;
     writeFile_outcome := writeFile_outcome Examples.world_ok;
     unzip_outcome := fun _ _ => unzipped;
     zip_outcome := fun _ _ => zipped;
     buildContext_stream := contexts;
     JSON_stringify := JSON_stringify Examples.world_ok;
     JSON_parse := JSON_parse Examples.world_ok;
     telemetryExport_stream := fun _ _ => exported;
     telemetryImport_stream := telemetryImport_stream Examples.world_ok;
     schedule := schedule Examples.world_ok |}.

Definition contexts_ok : Source Context :=
  buildContext_stream Examples.world_ok.

Definition exported_ok : Source ArchiveObjectExportProgress.t :=
  telemetryExport_stream Examples.world_ok "" "".

Definition disk_full : JsError := CollaboratorError "FileError" "QUOTA_EXCEEDED_ERR".
Definition bad_zip : JsError := CollaboratorError "ZipError" "unzip failed".

(** The workspace cannot be created. *)
Definition world_no_workspace : World :=
  world_with (Throw disk_full) None (Ok "{manifest}") None contexts_ok exported_ok.

(** The archive cannot be unpacked. *)
Definition world_bad_zip : World :=
  world_with (Ok tt) (Some bad_zip) (Ok "{manifest}") None contexts_ok exported_ok.

(** The unpacked archive holds no manifest. *)
Definition world_no_manifest : World :=
  world_with (Ok tt) None
    (Throw (CollaboratorError "FileError" "NOT_FOUND_ERR")) None contexts_ok
    exported_ok.

(** The archive cannot be packed. *)
Definition world_zip_fails : World :=
  world_with (Ok tt) None (Ok "{manifest}") (Some disk_full) contexts_ok
    exported_ok.

(** The telemetry decorator delivers no producer context. *)
Definition world_no_context : World :=
  world_with (Ok tt) None (Ok "{manifest}") None ([], None) exported_ok.

(** The export delegate completes without a report. *)
Definition world_silent : World :=
  world_with (Ok tt) None (Ok "{manifest}") None contexts_ok ([], None).

(** The export delegate fails after its first report. *)
Definition world_export_breaks : World :=
  world_with (Ok tt) None (Ok "{manifest}") None contexts_ok
    ([ {| ArchiveObjectExportProgress.task := "EXPORTING";
          ArchiveObjectExportProgress.completed := [Examples.item1] |} ],
     Some (CollaboratorError "DbError" "database is locked")).

(** The import delegate fails after its first report. *)
Definition world_import_breaks : World :=
  {| externalCacheDirectory := externalCacheDirectory Examples.world_ok;
     generateUniqueId := generateUniqueId Examples.world_ok;
     toISOString := toISOString Examples.world_ok;
     createDir_outcome := createDir_outcome Examples.world_ok;
     readAsText_outcome := readAsText_outcome Examples.world_ok;
     writeFile_outcome := writeFile_outcome Examples.world_ok;
     unzip_outcome := unzip_outcome Examples.world_ok;
     zip_outcome := zip_outcome Examples.world_ok;
     buildContext_stream := buildContext_stream Examples.world_ok;
     JSON_stringify := JSON_stringify Examples.world_ok;
     JSON_parse := JSON_parse Examples.world_ok;
     telemetryExport_stream := telemetryExport_stream Examples.world_ok;
     telemetryImport_stream := fun _ _ pending_ =>
       ([ {| ArchiveObjectImportProgress.task := "IMPORTING";
             ArchiveObjectImportProgress.pending := pending_ |} ],
        Some (CollaboratorError "DbError" "database is locked"));
     schedule := schedule Examples.world_ok |}.

(** The manifest cannot be written. *)
Definition world_disk_full : World :=
  {| externalCacheDirectory := externalCacheDirectory Examples.world_ok;
     generateUniqueId := generateUniqueId Examples.world_ok;
     toISOString := toISOString Examples.world_ok;
     createDir_outcome := createDir_outcome Examples.world_ok;
     readAsText_outcome := readAsText_outcome Examples.world_ok;
     writeFile_outcome := fun _ _ _ _ => Throw disk_full;
     unzip_outcome := unzip_outcome Examples.world_ok;
     zip_outcome := zip_outcome Examples.world_ok;
     buildContext_stream := buildContext_stream Examples.world_ok;
     JSON_stringify := JSON_stringify Examples.world_ok;
     JSON_parse := JSON_parse Examples.world_ok;
     telemetryExport_stream := telemetryExport_stream Examples.world_ok;
     telemetryImport_stream := telemetryImport_stream Examples.world_ok;
     schedule := schedule Examples.world_ok |}.

End Failures.

(* ================================================================== *)
(** * Properties *)

Unset Implicit Arguments.

(** ** Driving a pipeline: each operator folds into the observer *)
Module RxFacts.
Import Rx.
Section Fusion.
Variable S : Type.

Lemma drive_andThen {A} (next : Observer S A) (rest : Observable S A) st :
  drive next (andThen st rest) =
  match drive next st with
  | (Completed, s) => drive next (rest s)
  | (Errored e, s) => (Errored e, s)
  end.
Proof.
  induction st as [a s k IH | s | e s]; simpl; auto.
  destruct (next a s) as [[e|] s']; auto.
Qed.

Lemma drive_mapS {A B} (f : Callback S A B) (next : Observer S B) st :
  drive next (mapS f st) =
  drive (fun a s => match f a s with
                    | (Ok b, s') => next b s'
                    | (Throw e, s') => (Some e, s')
                    end) st.
Proof.
  induction st as [a s k IH | s | e s]; simpl; auto.
  destruct (f a s) as [[b|e] s']; simpl; auto.
  destruct (next b s') as [[e|] s'']; auto.
Qed.

Lemma drive_concatMapS {A B} (project : Callback S A (Observable S B))
  (next : Observer S B) st :
  drive next (concatMapS project st) =
  drive (fun a s => match project a s with
                    | (Ok inner, s') =>
                        match drive next (inner s') with
                        | (Completed, s'') => (None, s'')
                        | (Errored e, s'') => (Some e, s'')
                        end
                    | (Throw e, s') => (Some e, s')
                    end) st.
Proof.
  induction st as [a s k IH | s | e s]; simpl; auto.
  destruct (project a s) as [[inner|e] s']; simpl; auto.
  rewrite drive_andThen.
  destruct (drive next (inner s')) as [[|e] s'']; auto.
Qed.

Lemma drive_replay {A} (next : Observer S A) values end_ s :
  drive next (replay values end_ s) =
  match feed next values s with
  | (None, s') => (terminal_of end_, s')
  | (Some e, s') => (Errored e, s')
  end.
Proof.
  revert s; induction values as [|a rest IH]; intros s; simpl.
  - destruct end_; reflexivity.
  - destruct (next a s) as [[e|] s']; auto.
Qed.

(** Below an observer that never fails, every error comes from upstream,
    and [catchError] sees it. *)
Lemma drive_catchErrorS {A} (selector : Callback S JsError (Observable S A))
  (note : A -> S -> S) st :
  drive (noting note) (catchErrorS selector st) =
  match drive (noting note) st with
  | (Completed, s) => (Completed, s)
  | (Errored e, s) =>
      match selector e s with
      | (Ok o, s') => drive (noting note) (o s')
      | (Throw e', s') => (Errored e', s')
      end
  end.
Proof.
  induction st as [a s k IH | s | e s]; simpl; auto.
  destruct (selector e s) as [[o|e'] s']; auto.
Qed.

Lemma feed_app {A} (next : Observer S A) xs ys s :
  feed next (xs ++ ys) s =
  match feed next xs s with
  | (None, s') => feed next ys s'
  | (Some e, s') => (Some e, s')
  end.
Proof.
  revert s; induction xs as [|x xs IH]; intros s; simpl; auto.
  destruct (next x s) as [[e|] s']; auto.
Qed.

Lemma feed_ext {A} (next next' : Observer S A) values s :
  (forall a s0, next a s0 = next' a s0) ->
  feed next values s = feed next' values s.
Proof.
  intros Hext; revert s; induction values as [|a rest IH]; intros s; simpl; auto.
  rewrite Hext; destruct (next' a s) as [[e|] s']; auto.
Qed.

Lemma feed_noting {A} (note : A -> S -> S) values s :
  feed (noting note) values s =
  (None, fold_left (fun acc a => note a acc) values s).
Proof.
  revert s; induction values as [|a rest IH]; intros s; simpl; auto.
Qed.

End Fusion.
End RxFacts.

(** ** The join operators *)
Module JoinFacts.
Import Join.

Lemma put_length {X} i (x : X) l : length (put i x l) = length l.
Proof.
  revert i; induction l as [|y l IH]; intros [|i]; simpl; auto.
Qed.

Lemma nth_put_same {X} i (x d : X) l :
  i < length l -> nth i (put i x l) d = x.
Proof.
  revert i; induction l as [|y l IH]; intros [|i] Hi; simpl in *;
    try lia; auto.
  apply IH; lia.
Qed.

Lemma nth_put_other {X} i j (x d : X) l :
  i <> j -> nth j (put i x l) d = nth j l d.
Proof.
  revert i j; induction l as [|y l IH]; intros [|i] [|j] Hij; simpl;
    auto; try congruence.
Qed.

Lemma all_some_Forall {X} (P : X -> Prop) l values :
  Forall (fun o => match o with Some x => P x | None => True end) l ->
  all_some l = Some values ->
  Forall P values /\ length values = length l.
Proof.
  revert values; induction l as [|[x|] l IH]; intros values Hl Heq;
    simpl in Heq; try discriminate.
  - inversion Heq; subst; auto.
  - destruct (all_some l) as [xs|] eqn:E; try discriminate.
    inversion Heq; subst; clear Heq.
    inversion Hl; subst.
    destruct (IH xs H2 eq_refl) as [HP Hlen].
    split; [constructor; auto | simpl; congruence].
Qed.

Lemma Forall_put {X} (P : X -> Prop) i x l :
  P x -> Forall P l -> Forall P (put i x l).
Proof.
  intros Hx Hl; revert i; induction Hl as [|y l Hy Hl IH]; intros [|i];
    simpl; auto.
Qed.

Section Values.
Variable A : Type.
Variable P : A -> Prop.

Local Abbreviation fine := (Join.fine P).

Lemma notifications_fine (src : Source A) :
  Forall P (fst src) -> Forall fine (notifications src).
Proof.
  intros H; unfold notifications; apply Forall_app; split.
  - apply Forall_map; eapply Forall_impl; [|exact H]; auto.
  - constructor; [destruct (snd src); exact I | constructor].
Qed.

Lemma take_at_fine i pending n pending' :
  Forall (Forall fine) pending ->
  take_at i pending = Some (n, pending') ->
  fine n /\ Forall (Forall fine) pending'.
Proof.
  revert i n pending'; induction pending as [|p rest IH];
    intros i n pending' Hall Htake; simpl in Htake; try discriminate.
  apply Forall_cons_iff in Hall; destruct Hall as [Hp Hrest].
  destruct i as [|j].
  - destruct p as [|m ms]; try discriminate.
    inversion Htake; subst; clear Htake.
    apply Forall_cons_iff in Hp; destruct Hp; auto.
  - destruct (take_at j rest) as [[m rest']|] eqn:E; try discriminate.
    inversion Htake; subst; clear Htake.
    destruct (IH _ _ _ Hrest E); auto.
Qed.

Lemma deliver_fine schedule pending :
  Forall (Forall fine) pending ->
  Forall (fun ev => fine (snd ev)) (deliver schedule pending).
Proof.
  revert pending; induction schedule as [|i later IH]; intros pending Hall;
    simpl; auto.
  destruct (take_at i pending) as [[n pending']|] eqn:E; auto.
  destruct (take_at_fine _ _ _ _ Hall E); auto.
Qed.

Lemma combine_fine events latest completed :
  Forall (fun ev => fine (snd ev)) events ->
  Forall (fun o => match o with Some x => P x | None => True end) latest ->
  Forall (fun values => Forall P values /\ length values = length latest)
    (fst (combine events latest completed)).
Proof.
  revert latest completed;
    induction events as [|[i [a| |e]] later IH];
    intros latest completed Hev Hlatest; simpl; auto.
  - inversion Hev as [|? ? Ha Hlater]; subst; simpl in Ha.
    assert (Hput : Forall (fun o => match o with Some x => P x | None => True end)
                     (put i (Some a) latest))
      by (apply Forall_put; auto).
    specialize (IH (put i (Some a) latest) completed Hlater Hput).
    rewrite put_length in IH.
    destruct (all_some (put i (Some a) latest)) as [values|] eqn:E; auto.
    destruct (combine later (put i (Some a) latest) completed) as [out t].
    simpl in *; constructor; auto.
    destruct (all_some_Forall _ _ _ Hput E) as [HP Hlen].
    rewrite put_length in Hlen; auto.
  - inversion Hev; subst.
    destruct (forallb (fun b => b) (put i true completed)); simpl; auto.
Qed.

(** Whatever the interleaving, every array [combineLatest] emits has one
    slot per source, each filled with a value of the sources. *)
Lemma combineLatest_fine schedule (srcs : list (Source A)) :
  Forall (fun src => Forall P (fst src)) srcs ->
  Forall (fun values => Forall P values /\ length values = length srcs)
    (fst (combineLatest schedule srcs)).
Proof.
  intros Hsrcs; unfold combineLatest, as_source; simpl.
  rewrite <- (length_map (fun _ : Source A => @None A) srcs).
  apply combine_fine.
  - apply deliver_fine, Forall_map.
    eapply Forall_impl; [|exact Hsrcs]; apply notifications_fine.
  - apply Forall_map, Forall_forall; intros; exact I.
Qed.

End Values.

(** *** Delivery *)
Section Delivery.
Variable A : Type.

Lemma take_at_some i (pending : list (list (Notification A))) n pending' :
  take_at i pending = Some (n, pending') ->
  i < length pending /\
  nth i pending [] = n :: nth i pending' [] /\
  (forall j, j <> i -> nth j pending' [] = nth j pending []) /\
  length pending' = length pending.
Proof.
  revert i n pending'; induction pending as [|p rest IH];
    intros i n pending' Htake; simpl in Htake; try discriminate.
  destruct i as [|i].
  - destruct p as [|m ms]; try discriminate.
    inversion Htake; subst; clear Htake; simpl.
    repeat split; auto; try lia.
    intros [|j] Hj; simpl; auto; congruence.
  - destruct (take_at i rest) as [[m rest']|] eqn:E; try discriminate.
    inversion Htake; subst; clear Htake.
    destruct (IH _ _ _ E) as (Hi & Hnth & Hother & Hlen); simpl.
    repeat split; auto; try lia.
    intros [|j] Hj; simpl; auto.
Qed.

Lemma take_at_none i (pending : list (list (Notification A))) :
  take_at i pending = None -> nth i pending [] = [].
Proof.
  revert i; induction pending as [|p rest IH]; intros i Htake;
    simpl in Htake.
  - destruct i; reflexivity.
  - destruct i as [|i]; simpl.
    + destruct p; [reflexivity | discriminate].
    + destruct (take_at i rest) as [[m rest']|] eqn:E; try discriminate.
      auto.
Qed.

Lemma remaining_app schedule later (pending : list (list (Notification A))) :
  remaining (schedule ++ later) pending = remaining later (remaining schedule pending).
Proof.
  revert pending; induction schedule as [|i schedule IH]; intros pending;
    simpl; auto.
  destruct (take_at i pending) as [[n pending']|]; auto.
Qed.

(** A schedule only ever shortens what is pending. *)
Lemma remaining_shorter schedule (pending : list (list (Notification A))) :
  length (remaining schedule pending) = length pending /\
  forall j, length (nth j (remaining schedule pending) []) <= length (nth j pending []).
Proof.
  revert pending; induction schedule as [|i later IH]; intros pending;
    simpl; auto.
  destruct (take_at i pending) as [[n pending']|] eqn:E; auto.
  destruct (take_at_some _ _ _ _ E) as (Hi & Hnth & Hother & Hlen).
  destruct (IH pending') as [IHlen IHle].
  split; [congruence|].
  intros j; specialize (IHle j).
  destruct (Nat.eq_dec j i) as [->|Hj].
  - rewrite Hnth; simpl; lia.
  - rewrite <- (Hother j Hj); lia.
Qed.

(** Source [i] scheduled as often as it has notifications left: it is
    heard to its end, and only it. *)
Lemma remaining_repeat m i (pending : list (list (Notification A))) :
  length (nth i pending []) <= m ->
  nth i (remaining (repeat i m) pending) [] = [] /\
  (forall j, j <> i -> nth j (remaining (repeat i m) pending) [] = nth j pending []) /\
  length (remaining (repeat i m) pending) = length pending.
Proof.
  revert pending; induction m as [|m IH]; intros pending Hm; simpl.
  - repeat split; auto.
    destruct (nth i pending []); simpl in Hm; [reflexivity | lia].
  - destruct (take_at i pending) as [[n pending']|] eqn:E.
    + destruct (take_at_some _ _ _ _ E) as (Hi & Hnth & Hother & Hlen).
      rewrite Hnth in Hm; simpl in Hm.
      destruct (IH pending') as (H1 & H2 & H3); [lia|].
      repeat split; auto; try congruence.
      intros j Hj; rewrite (H2 j Hj); auto.
    + apply take_at_none in E.
      destruct (IH pending) as (H1 & H2 & H3); [rewrite E; simpl; lia|].
      auto.
Qed.

Lemma remaining_drain_range (bound : list (list (Notification A))) k a
  (pending : list (list (Notification A))) :
  (forall i, length (nth i pending []) <= length (nth i bound [])) ->
  let after :=
    remaining
      (flat_map (fun i => repeat i (length (nth i bound []))) (seq a k)) pending in
  (forall i, a <= i < a + k -> nth i after [] = []) /\
  (forall j, ~ (a <= j < a + k) -> nth j after [] = nth j pending []) /\
  length after = length pending.
Proof.
  revert a pending; induction k as [|k IH]; intros a pending Hle; simpl.
  - repeat split; auto; intros; lia.
  - rewrite remaining_app.
    destruct (remaining_repeat (length (nth a bound [])) a pending (Hle a))
      as (H1 & H2 & H3).
    set (mid := remaining (repeat a (length (nth a bound []))) pending) in *.
    destruct (IH (S a) mid) as (K1 & K2 & K3).
    { intros i; destruct (Nat.eq_dec i a) as [->|Hi].
      - rewrite H1; simpl; lia.
      - rewrite (H2 i Hi); auto. }
    repeat split.
    + intros i Hi; destruct (Nat.eq_dec i a) as [->|Hia].
      * rewrite K2 by lia; auto.
      * apply K1; lia.
    + intros j Hj; rewrite K2 by lia; apply H2; lia.
    + congruence.
Qed.

Lemma all_empty (pending : list (list (Notification A))) :
  (forall i, i < length pending -> nth i pending [] = []) ->
  Forall (fun p => p = []) pending.
Proof.
  induction pending as [|p rest IH]; intros H; constructor.
  - apply (H 0); simpl; lia.
  - apply IH; intros i Hi; apply (H (S i)); simpl; lia.
Qed.

(** The drained schedule leaves nothing undelivered. *)
Lemma remaining_drained schedule (pending : list (list (Notification A))) :
  Forall (fun p => p = []) (remaining (schedule ++ drain pending) pending).
Proof.
  rewrite remaining_app; unfold drain.
  destruct (remaining_shorter schedule pending) as [Hlen Hle].
  destruct (remaining_drain_range pending (length pending) 0
              (remaining schedule pending) Hle) as (H1 & H2 & H3).
  apply all_empty; intros i Hi; apply H1; lia.
Qed.

Lemma deliver_interleaving schedule (pending : list (list (Notification A))) :
  Forall (fun p => p = []) (remaining schedule pending) ->
  Interleaving pending (deliver schedule pending).
Proof.
  revert pending; induction schedule as [|i later IH]; intros pending Hrem;
    simpl in *.
  - constructor; auto.
  - destruct (take_at i pending) as [[n pending']|] eqn:E; auto.
    econstructor; eauto.
Qed.

(** Every interleaving the model produces is a complete one. *)
Lemma interleave_complete schedule (srcs : list (Source A)) :
  Interleaving (List.map (@notifications A) srcs) (interleave schedule srcs).
Proof.
  unfold interleave; apply deliver_interleaving, remaining_drained.
Qed.

End Delivery.

(** *** [zip] over sources that settle once *)

Lemma heads_none {X} (buffers : list (list X)) j :
  j < length buffers -> nth j buffers [] = [] -> heads buffers = None.
Proof.
  unfold heads; revert j; induction buffers as [|b rest IH]; intros j Hj Hnth;
    simpl in *; try lia.
  destruct j as [|j].
  - subst b; reflexivity.
  - destruct b as [|x b]; simpl; auto.
    rewrite (IH j); auto; lia.
Qed.

Lemma heads_none_inv {X} (buffers : list (list X)) :
  heads buffers = None -> exists j, j < length buffers /\ nth j buffers [] = [].
Proof.
  unfold heads; induction buffers as [|b rest IH]; simpl; try discriminate.
  destruct b as [|x b]; simpl.
  - intros _; exists 0; split; [lia | reflexivity].
  - destruct (all_some (List.map (fun b0 => hd_error b0) rest)) eqn:E;
      try discriminate.
    intros _; destruct (IH eq_refl) as (j & Hj & Hnth).
    exists (S j); split; [lia | exact Hnth].
Qed.

Lemma heads_some {X} (buffers : list (list X)) values :
  heads buffers = Some values ->
  length values = length buffers /\
  forall j, j < length buffers -> nth j buffers [] <> [].
Proof.
  unfold heads; revert values; induction buffers as [|b rest IH];
    intros values H; simpl in *.
  - inversion H; subst; split; auto; intros; lia.
  - destruct b as [|x b]; simpl in H; try discriminate.
    destruct (all_some (List.map (fun b0 => hd_error b0) rest)) eqn:E;
      try discriminate.
    inversion H; subst; clear H.
    destruct (IH _ eq_refl) as [Hlen Hne].
    split; [simpl; congruence|].
    intros [|j] Hj; [discriminate | apply Hne; lia].
Qed.

Lemma forallb_false_at (l : list bool) j :
  j < length l -> nth j l false = false -> forallb (fun b => b) l = false.
Proof.
  revert j; induction l as [|b l IH]; intros j Hj Hnth; simpl in *; try lia.
  destruct j as [|j].
  - subst b; reflexivity.
  - rewrite (IH j); [apply andb_false_r | lia | exact Hnth].
Qed.

Lemma exhausted_false {X} (buffers : list (list X)) completed :
  length buffers = length completed ->
  exhausted buffers completed = false ->
  forall j, j < length buffers -> nth j buffers [] = [] ->
  nth j completed false = false.
Proof.
  unfold exhausted; revert completed;
    induction buffers as [|b rest IH]; intros [|c completed] Hlen Hex j Hj Hnth;
    simpl in *; try lia.
  apply orb_false_iff in Hex; destruct Hex as [Hhere Hrest].
  destruct j as [|j].
  - subst b; exact Hhere.
  - apply IH; auto; lia.
Qed.

Lemma nth_map_tl {X} (buffers : list (list X)) j :
  nth j (List.map (fun b => tl b) buffers) [] = tl (nth j buffers []).
Proof.
  revert j; induction buffers as [|b rest IH]; intros [|j]; simpl; auto.
Qed.

Lemma units (l : list unit) : l = repeat tt (length l).
Proof.
  induction l as [|[] l IH]; simpl; congruence.
Qed.

Lemma not_all_delivered {X} (pending : list (list X)) j :
  Forall (fun p => p = []) pending ->
  j < length pending -> nth j pending [] <> [] -> False.
Proof.
  intros Hall Hj Hne; apply Hne.
  rewrite Forall_forall in Hall; apply Hall, nth_In; exact Hj.
Qed.

(** Once the only emission is out and nobody is marked complete, the first
    completion ends the join. *)
Lemma zipping_after_emission (pending : list (list (Notification unit))) events :
  Interleaving pending events ->
  forall n buffers completed,
    0 < n -> length pending = n ->
    (forall i, i < n -> nth i pending [] = [C]) ->
    (forall i, i < n -> nth i buffers [] = []) ->
    zipping events buffers completed = ([], Completed).
Proof.
  intros HI n buffers completed Hn Hlen Hpending Hbuffers.
  destruct HI as [pending Hall | i m pending pending' events Htake HI].
  - exfalso; apply (not_all_delivered pending 0 Hall); [lia|].
    rewrite Hpending by lia; discriminate.
  - destruct (take_at_some _ _ _ _ _ Htake) as (Hi & Hnth & _ & _).
    rewrite Hpending in Hnth by lia.
    inversion Hnth; subst m; simpl.
    rewrite Hbuffers by lia; reflexivity.
Qed.

Lemma Slot_cons m p b c :
  Slot (m :: p) b c ->
  (m = N tt /\ p = [C] /\ b = [] /\ c = false) \/
  (m = C /\ p = [] /\ b = [tt] /\ c = false) \/
  (exists e, m = E e /\ p = [] /\ b = [] /\ c = false).
Proof.
  intros H; inversion H; subst; auto.
  - right; left; auto.
  - right; right; eexists; eauto.
Qed.

Lemma Slot_empty_buffer p c :
  Slot p [] c -> p = [N tt; C] \/ exists e, p = [E e].
Proof.
  intros H; inversion H; subst; auto.
  right; eexists; eauto.
Qed.

(** Replacing slot [i] by a slot that stands somewhere keeps the table. *)
Lemma Slots_step n i pending pending' buffers completed b c :
  Slots n pending buffers completed ->
  i < n ->
  length pending' = length pending ->
  (forall k, k <> i -> nth k pending' [] = nth k pending []) ->
  Slot (nth i pending' []) b c ->
  Slots n pending' (put i b buffers) (put i c completed).
Proof.
  intros (Hlp & Hlb & Hlc & Hslot) Hi Hlen Hother Hnew.
  repeat split; try congruence; try (rewrite put_length; assumption).
  intros k Hk; destruct (Nat.eq_dec k i) as [->|Hki].
  - rewrite !nth_put_same by lia; exact Hnew.
  - rewrite !nth_put_other by auto.
    rewrite (Hother k Hki); apply Hslot; exact Hk.
Qed.

Lemma put_nth {X} i (l : list X) d : put i (nth i l d) l = l.
Proof.
  revert i; induction l as [|y l IH]; intros [|i]; simpl; auto.
  rewrite IH; reflexivity.
Qed.

Lemma zipping_all_succeed (pending : list (list (Notification unit))) events :
  Interleaving pending events ->
  forall n buffers completed,
    Slots n pending buffers completed ->
    (forall i e, i < n -> nth i pending [] <> [E e]) ->
    (exists j, j < n /\ nth j pending [] = [N tt; C]) ->
    zipping events buffers completed = ([repeat tt n], Completed).
Proof.
  induction 1 as [pending Hall | i m pending pending' events Htake HI IH];
    intros n buffers completed Hslots Hnofail (j & Hj & Hfresh).
  - exfalso; destruct Hslots as (Hlp & _).
    apply (not_all_delivered pending j Hall); [lia|].
    rewrite Hfresh; discriminate.
  - destruct (take_at_some _ _ _ _ _ Htake) as (Hi & Hnth & Hother & Hlen').
    assert (Hin : i < n) by (destruct Hslots as (Hlp & _); lia).
    assert (Hs : Slot (m :: nth i pending' []) (nth i buffers [])
                   (nth i completed false)).
    { rewrite <- Hnth; apply Hslots; exact Hin. }
    assert (Hnofail' : forall k e, k < n -> nth k pending' [] <> [E e]).
    { intros k e Hk Hk'; destruct (Nat.eq_dec k i) as [->|Hki].
      - rewrite Hk' in Hs; inversion Hs.
      - rewrite (Hother k Hki) in Hk'; exact (Hnofail k e Hk Hk'). }
    destruct (Slot_cons _ _ _ _ Hs)
      as [(-> & Hp & Hb & Hc) | [(-> & Hp & Hb & Hc) | (e & -> & Hp & Hb & Hc)]].
    + (* the value of source [i] arrives *)
      simpl; rewrite Hb; simpl.
      assert (Hslots' : Slots n pending' (put i [tt] buffers) completed).
      { rewrite <- (put_nth i completed false).
        apply Slots_step with (pending := pending); auto.
        rewrite Hp, Hc; constructor. }
      destruct (heads (put i [tt] buffers)) as [values|] eqn:Hheads.
      * destruct (heads_some _ _ Hheads) as [Hlv Hne].
        destruct Hslots' as (Hlp' & Hlb' & Hlc' & Hslot').
        assert (Hvalues : values = repeat tt n).
        { rewrite (units values), Hlv, Hlb'; reflexivity. }
        subst values.
        destruct (exhausted (List.map (fun b => tl b) (put i [tt] buffers))
                    completed) eqn:Hex; [reflexivity|].
        assert (Hall : forall k, k < n ->
                  nth k pending' [] = [C] /\
                  nth k (List.map (fun b => tl b) (put i [tt] buffers)) [] = []).
        { intros k Hk. generalize (Hslot' k Hk); intros Hk'.
          assert (Hempty :
                    nth k (List.map (fun b => tl b) (put i [tt] buffers)) [] = []).
          { rewrite nth_map_tl; inversion Hk'; reflexivity. }
          split; [|exact Hempty].
          assert (Hck : nth k completed false = false).
          { apply (exhausted_false _ _ ) with (j := k) in Hex; auto.
            - rewrite length_map; congruence.
            - rewrite length_map; lia. }
          assert (Hnek := Hne k).
          inversion Hk' as [Hx Hy Hz|Hx Hy Hz|Hx Hy Hz|? Hx Hy Hz]; auto.
          + exfalso; apply Hnek; [lia | symmetry; exact Hy].
          + rewrite Hck in Hz; discriminate.
          + exfalso; apply Hnek; [lia | symmetry; exact Hy]. }
        rewrite (zipping_after_emission pending' events HI n); auto; try lia.
        -- intros k Hk; apply Hall; exact Hk.
        -- intros k Hk; apply Hall; exact Hk.
      * apply (IH n); auto.
        destruct (heads_none_inv _ Hheads) as (k & Hk & Hempty).
        destruct Hslots' as (Hlp' & Hlb' & Hlc' & Hslot').
        rewrite Hlb' in Hk.
        exists k; split; [exact Hk|].
        generalize (Hslot' k Hk); rewrite Hempty; intros Hk'.
        destruct (Slot_empty_buffer _ _ Hk') as [Hx | (e & Hx)]; [exact Hx|].
        exfalso; exact (Hnofail' k e Hk Hx).
    + (* source [i] completes *)
      simpl; rewrite Hb.
      assert (Hji : j <> i).
      { intros ->; rewrite Hfresh in Hnth; discriminate. }
      assert (Hcj : nth j completed false = false).
      { destruct Hslots as (_ & _ & _ & Hslot).
        generalize (Hslot j Hj); rewrite Hfresh; intros Hs'; inversion Hs'; auto. }
      rewrite (forallb_false_at (put i true completed) j).
      * apply (IH n); auto.
        -- rewrite <- (put_nth i buffers []).
           apply Slots_step with (pending := pending); auto.
           rewrite Hp, Hb; constructor.
        -- exists j; split; [exact Hj|].
           rewrite (Hother j Hji); exact Hfresh.
      * rewrite put_length; destruct Hslots as (_ & _ & Hlc & _); lia.
      * rewrite nth_put_other by auto; exact Hcj.
    + (* a failing source is excluded *)
      exfalso; apply (Hnofail i e Hin); rewrite Hnth, Hp; reflexivity.
Qed.

Lemma zipping_some_fails (pending : list (list (Notification unit))) events :
  Interleaving pending events ->
  forall n buffers completed,
    Slots n pending buffers completed ->
    (exists j e, j < n /\ nth j pending [] = [E e]) ->
    exists j e, j < n /\ nth j pending [] = [E e] /\
      zipping events buffers completed = ([], Errored e).
Proof.
  induction 1 as [pending Hall | i m pending pending' events Htake HI IH];
    intros n buffers completed Hslots (j & e & Hj & Hfail).
  - exfalso; destruct Hslots as (Hlp & _).
    apply (not_all_delivered pending j Hall); [lia|].
    rewrite Hfail; discriminate.
  - destruct (take_at_some _ _ _ _ _ Htake) as (Hi & Hnth & Hother & Hlen').
    assert (Hin : i < n) by (destruct Hslots as (Hlp & _); lia).
    assert (Hs : Slot (m :: nth i pending' []) (nth i buffers [])
                   (nth i completed false)).
    { rewrite <- Hnth; apply Hslots; exact Hin. }
    assert (Hbj : nth j buffers [] = [] /\ nth j completed false = false).
    { destruct Hslots as (_ & _ & _ & Hslot).
      generalize (Hslot j Hj); rewrite Hfail; intros Hs'; inversion Hs'; auto. }
    destruct Hbj as [Hbj Hcj].
    assert (Hlens : length buffers = n /\ length completed = n)
      by (destruct Hslots as (_ & ? & ? & _); auto).
    destruct Hlens as [Hlb Hlc].
    destruct (Slot_cons _ _ _ _ Hs)
      as [(-> & Hp & Hb & Hc) | [(-> & Hp & Hb & Hc) | (e' & -> & Hp & Hb & Hc)]].
    + assert (Hji : j <> i).
      { intros ->; rewrite Hfail in Hnth; discriminate. }
      simpl; rewrite Hb; simpl.
      rewrite (heads_none (put i [tt] buffers) j).
      * destruct (IH n (put i [tt] buffers) completed) as (k & e'' & Hk & Hke & Hz).
        -- rewrite <- (put_nth i completed false).
           apply Slots_step with (pending := pending); auto.
           rewrite Hp, Hc; constructor.
        -- exists j, e; split; [exact Hj|].
           rewrite (Hother j Hji); exact Hfail.
        -- exists k, e''; repeat split; auto.
           destruct (Nat.eq_dec k i) as [->|Hki].
           ++ rewrite Hp in Hke; discriminate.
           ++ rewrite <- (Hother k Hki); exact Hke.
      * rewrite put_length; lia.
      * rewrite nth_put_other by auto; exact Hbj.
    + assert (Hji : j <> i).
      { intros ->; rewrite Hfail in Hnth; discriminate. }
      simpl; rewrite Hb.
      rewrite (forallb_false_at (put i true completed) j).
      * destruct (IH n buffers (put i true completed)) as (k & e'' & Hk & Hke & Hz).
        -- rewrite <- (put_nth i buffers []).
           apply Slots_step with (pending := pending); auto.
           rewrite Hp, Hb; constructor.
        -- exists j, e; split; [exact Hj|].
           rewrite (Hother j Hji); exact Hfail.
        -- exists k, e''; repeat split; auto.
           destruct (Nat.eq_dec k i) as [->|Hki].
           ++ rewrite Hp in Hke; discriminate.
           ++ rewrite <- (Hother k Hki); exact Hke.
      * rewrite put_length; lia.
      * rewrite nth_put_other by auto; exact Hcj.
    + exists i, e'; repeat split; auto.
      rewrite Hnth, Hp; reflexivity.
Qed.

Lemma initial_slots (outcomes : list (option JsError)) :
  Slots (length outcomes)
    (List.map (@notifications unit) (List.map settled outcomes))
    (List.map (fun _ => []) (List.map settled outcomes))
    (List.map (fun _ => false) (List.map settled outcomes)).
Proof.
  repeat split; rewrite ?length_map; auto.
  intros i Hi.
  rewrite (nth_indep _ [] (notifications (settled None)))
    by (rewrite !length_map; exact Hi).
  rewrite (map_nth (@notifications unit)).
  rewrite (map_nth (fun _ : Source unit => @nil unit) _ (settled None)).
  rewrite (map_nth (fun _ : Source unit => false) _ (settled None)).
  rewrite (map_nth settled).
  destruct (nth i outcomes None); constructor.
Qed.

Lemma pending_of_outcome (outcomes : list (option JsError)) i :
  i < length outcomes ->
  nth i (List.map (@notifications unit) (List.map settled outcomes)) [] =
  notifications (settled (nth i outcomes None)).
Proof.
  intros Hi.
  rewrite (nth_indep _ [] (notifications (settled None)))
    by (rewrite !length_map; exact Hi).
  rewrite (map_nth (@notifications unit)), (map_nth settled); reflexivity.
Qed.

(** When every source succeeds, [zip] emits once and completes, whatever
    the order in which they settle. *)
Lemma zip_all_succeed schedule (outcomes : list (option JsError)) :
  outcomes <> [] ->
  Forall (fun o => o = None) outcomes ->
  zip schedule (List.map settled outcomes) =
  ([repeat tt (length outcomes)], None).
Proof.
  intros Hne Hall; unfold zip.
  rewrite (zipping_all_succeed _ _ (interleave_complete _ schedule _)
             (length outcomes)).
  - reflexivity.
  - apply initial_slots.
  - intros i e Hi; rewrite pending_of_outcome by exact Hi.
    rewrite Forall_forall in Hall.
    rewrite (Hall (nth i outcomes None)) by (apply nth_In; exact Hi).
    discriminate.
  - destruct outcomes as [|o rest]; [congruence|].
    exists 0; split; [simpl; lia|].
    rewrite pending_of_outcome by (simpl; lia); simpl.
    inversion Hall; subst; reflexivity.
Qed.

(** When some source fails, [zip] emits nothing and fails with the error
    of a failing source, whatever the order in which they settle. *)
Lemma zip_some_fails schedule (outcomes : list (option JsError)) :
  (exists e, In (Some e) outcomes) ->
  exists e, In (Some e) outcomes /\
    zip schedule (List.map settled outcomes) = ([], Some e).
Proof.
  intros (e & He); unfold zip.
  destruct (In_nth _ _ None He) as (j & Hj & Hnth).
  destruct (zipping_some_fails _ _ (interleave_complete _ schedule _)
              (length outcomes) _ _ (initial_slots outcomes))
    as (k & e' & Hk & Hke & Hz).
  - exists j, e; split; [exact Hj|].
    rewrite pending_of_outcome by exact Hj; rewrite Hnth; reflexivity.
  - exists e'; split.
    + rewrite pending_of_outcome in Hke by exact Hk.
      destruct (nth k outcomes None) as [e''|] eqn:Hnk; simpl in Hke;
        try discriminate.
      inversion Hke; subst e''.
      rewrite <- Hnk; apply nth_In; exact Hk.
    + rewrite Hz; reflexivity.
Qed.

End JoinFacts.

(** ** [DeleteProfileDataHandler.delete] *)
Module ProfileFacts.
Import Profile.

Lemma all_or_some (outcomes : list (option JsError)) :
  Forall (fun o => o = None) outcomes \/ exists e, In (Some e) outcomes.
Proof.
  induction outcomes as [|[e|] rest [IH | (e' & IH)]]; simpl; eauto.
Qed.

Section Delete.
Variable schema : Schema.
Variable db : DbService.
Variable uid : string.

Ltac unfold_delete :=
  unfold run_delete, Rx.subscribe, delete_, Rx.catchError, Rx.tapping, Rx.tap,
    Rx.mergeMap, Rx.concatMap, Rx.defer, Rx.mapTo, Rx.map, zip, Rx.create,
    Rx.fromSource, dbService_beginTransaction, dbService_endTransaction,
    stream_of, rolled_back, issued.

Lemma delete_begin_throws e :
  beginTransaction_throws db = Some e ->
  run_delete schema db uid = rolled_back db e [beginTransaction].
Proof.
  intros Hb; unfold_delete; rewrite Hb; simpl.
  destruct (endTransaction_throws db false); reflexivity.
Qed.

Lemma delete_statement_fails e :
  beginTransaction_throws db = None ->
  Join.zip (settling db)
    (List.map settled (List.map (outcome_of db) (statements schema uid))) =
  ([], Some e) ->
  run_delete schema db uid = rolled_back db e (issued schema uid).
Proof.
  intros Hb Hz; unfold_delete.
  rewrite Hb, <- (map_map (outcome_of db) settled); cbn [Rx.of_ Rx.concatMapS].
  rewrite Hz; simpl.
  destruct (endTransaction_throws db false); reflexivity.
Qed.

Lemma delete_statements_succeed values :
  beginTransaction_throws db = None ->
  Join.zip (settling db)
    (List.map settled (List.map (outcome_of db) (statements schema uid))) =
  ([values], None) ->
  run_delete schema db uid =
  match endTransaction_throws db true with
  | None => (Completed, issued schema uid ++ [endTransaction true; Emitted true])
  | Some e => rolled_back db e (issued schema uid ++ [endTransaction true])
  end.
Proof.
  intros Hb Hz; unfold_delete.
  rewrite Hb, <- (map_map (outcome_of db) settled); cbn [Rx.of_ Rx.concatMapS].
  rewrite Hz; simpl.
  destruct (endTransaction_throws db true); simpl;
    [destruct (endTransaction_throws db false)|]; reflexivity.
Qed.

End Delete.

(** Two runs: a commit, and a rollback after the last statement fails
    while others have already settled. *)
Example delete_commits :
  fst (run_delete Examples.schema Examples.db_ok "4b2a") = Completed /\
  skipn 23 (snd (run_delete Examples.schema Examples.db_ok "4b2a")) =
  [endTransaction true; Emitted true].
Proof. split; vm_compute; reflexivity. Qed.

Example delete_rolls_back :
  fst (run_delete Examples.schema Examples.db_locked "4b2a") = Completed /\
  skipn 23 (snd (run_delete Examples.schema Examples.db_locked "4b2a")) =
  [console_log (CollaboratorError "SQLiteError" "database is locked");
   endTransaction false; Emitted false].
Proof. split; vm_compute; reflexivity. Qed.

(** C10, corrected: for every uid, [delete] begins a transaction and, when
    that call returns, hands the ten per-table deletions, each selecting
    on its uid column with [uid] as the one bound argument, and the raw
    [DELETE] on the key-value store to the database and subscribes them.
    When [beginTransaction], every statement and [endTransaction(true)]
    succeed, it has committed and then emits [true] and completes.  On
    any failure (a throwing [beginTransaction], a failing statement, a
    throwing [endTransaction(true)]) it logs the error and calls
    [endTransaction(false)]; when that call returns it emits [false] and
    completes instead of propagating the error, and when that call throws
    [delete] ends in the error it throws.  So [delete] ends in an error
    exactly when a failure is followed by a throwing rollback. *)
Theorem C10_delete_errors_only_when_rollback_throws schema db uid :
  let newline := String (Ascii.ascii_of_nat 10) EmptyString in
  let on column := String.append column " = ?" in
  let qs :=
    [ delete (ProfileEntry_TABLE_NAME schema)
        (on (ProfileEntry_COLUMN_NAME_UID schema)) [uid];
      delete (ContentMarkerEntry_TABLE_NAME schema)
        (on (ContentMarkerEntry_COLUMN_NAME_UID schema)) [uid];
      delete (ContentAccessEntry_TABLE_NAME schema)
        (on (ContentAccessEntry_COLUMN_NAME_UID schema)) [uid];
      delete (LearnerAssessmentsEntry_TABLE_NAME schema)
        (on (LearnerAssessmentsEntry_COLUMN_NAME_UID schema)) [uid];
      delete (LearnerSummaryEntry_TABLE_NAME schema)
        (on (LearnerSummaryEntry_COLUMN_NAME_UID schema)) [uid];
      delete (ContentFeedbackEntry_TABLE_NAME schema)
        (on (ContentFeedbackEntry_COLUMN_NAME_UID schema)) [uid];
      delete (SearchHistoryEntry_TABLE_NAME schema)
        (on (SearchHistoryEntry_COLUMN_NAME_USER_ID schema)) [uid];
      delete (GroupProfileEntry_TABLE_NAME schema)
        (on (GroupProfileEntry_COLUMN_NAME_UID schema)) [uid];
      delete (UserEntry_TABLE_NAME schema)
        (on (UserEntry_COLUMN_NAME_UID schema)) [uid];
      delete (PlayerConfigEntry_TABLE_NAME schema)
        (on (PlayerConfigEntry_COLUMN_NAME_USER_ID schema)) [uid];
      execute
        (String.concat ""
           [ "DELETE FROM "; KeyValueStoreEntry_TABLE_NAME schema; "     "; newline;
             "                                            WHERE ";
             KeyValueStoreEntry_COLUMN_NAME_KEY schema; " "; newline;
             "                                            LIKE '%%"; uid; "%%'" ]) ] in
  let handed_over :=
    [beginTransaction] ++ List.map Called qs ++ List.map Subscribed qs in
  (beginTransaction_throws db = None /\
   Forall (fun q => outcome_of db q = None) qs /\
   endTransaction_throws db true = None /\
   run_delete schema db uid =
   (Completed, handed_over ++ [endTransaction true; Emitted true]))
  \/
  (exists e before,
      ((beginTransaction_throws db = Some e /\ before = [beginTransaction]) \/
       (beginTransaction_throws db = None /\
        (exists q, In q qs /\ outcome_of db q = Some e) /\
        before = handed_over) \/
       (beginTransaction_throws db = None /\
        Forall (fun q => outcome_of db q = None) qs /\
        endTransaction_throws db true = Some e /\
        before = handed_over ++ [endTransaction true])) /\
      ((endTransaction_throws db false = None /\
        run_delete schema db uid =
        (Completed, before ++ [console_log e; endTransaction false; Emitted false])) \/
       (exists e', endTransaction_throws db false = Some e' /\
                   run_delete schema db uid =
                   (Errored e', before ++ [console_log e; endTransaction false])))).
Proof.
  intros newline on qs handed_over.
  change qs with (statements schema uid) in *.
  change handed_over with (issued schema uid) in *.
  assert (Hrollback : forall e before,
             (endTransaction_throws db false = None /\
              rolled_back db e before =
              (Completed,
               before ++ [console_log e; endTransaction false; Emitted false])) \/
             (exists e', endTransaction_throws db false = Some e' /\
                         rolled_back db e before =
                         (Errored e', before ++ [console_log e; endTransaction false]))).
  { intros e before; unfold rolled_back.
    destruct (endTransaction_throws db false) as [e'|]; [right; exists e' | left];
      auto. }
  destruct (beginTransaction_throws db) as [e|] eqn:Hb.
  { right; exists e, [beginTransaction]; split; [left; auto|].
    rewrite (delete_begin_throws schema db uid e Hb); apply Hrollback. }
  destruct (all_or_some (List.map (outcome_of db) (statements schema uid)))
    as [Hall | Hsome].
  - assert (Hne : List.map (outcome_of db) (statements schema uid) <> [])
      by discriminate.
    pose proof (JoinFacts.zip_all_succeed (settling db) _ Hne Hall) as Hz.
    rewrite (delete_statements_succeed schema db uid _ Hb Hz).
    rewrite Forall_map in Hall.
    destruct (endTransaction_throws db true) as [e|] eqn:Hc.
    + right; exists e, (issued schema uid ++ [endTransaction true]).
      split; [right; right; auto | apply Hrollback].
    + left; auto.
  - destruct (JoinFacts.zip_some_fails (settling db) _ Hsome) as (e & He & Hz).
    apply in_map_iff in He; destruct He as (q & Hq & Hin).
    right; exists e, (issued schema uid); split.
    + right; left; split; [reflexivity|]; split; [exists q; auto | reflexivity].
    + rewrite (delete_statement_fails schema db uid e Hb Hz); apply Hrollback.
Qed.

(** C10 as the claim words it fails: when the raw [DELETE] fails and the
    rollback throws, [delete] ends in the error of the rollback. *)
Lemma C10_counterexample :
  run_delete Examples.schema Examples.db_gone "4b2a" =
  (Errored (CollaboratorError "SQLiteError" "database is closed"),
   issued Examples.schema "4b2a"
   ++ [console_log (CollaboratorError "SQLiteError" "database is locked");
       endTransaction false]).
Proof. vm_compute; reflexivity. Qed.

End ProfileFacts.

(** ** [ArchiveServiceImpl]: the stages, one by one *)
Module ArchiveStages.
Import Archive.

Section Stages.
Variable w : World.

Lemma feed_aggregate {V} task_ (values : list (list (ArchiveObjectType * V)))
  (next : Rx.Observer (State V) (list (ArchiveObjectType * V))) (s : State V) :
  (forall results s0, next results s0 = (None, aggregate task_ results s0)) ->
  Rx.feed next values s =
  (None, fold_left (fun acc results => aggregate task_ results acc) values s).
Proof.
  intros Hnext.
  rewrite (RxFacts.feed_ext _ _ (Rx.noting (aggregate task_)) _ _ Hnext).
  apply RxFacts.feed_noting.
Qed.

Lemma import_extract_run r (s : ImportState) :
  lastResult s = Some r ->
  Rx.drive (Rx.noting (@observe _)) (import_extract w s) =
  let u := unzip (filePath r) (workspacePath w) in
  match unzip_outcome w (filePath r) (workspacePath w) with
  | None => (Completed, observe (retask r "EXTRACTING") (answered u s))
  | Some e => (Errored e, answered u s)
  end.
Proof.
  intros Hr; unfold import_extract, Rx.defer; rewrite Hr; cbn [nonNull].
  unfold extractZipArchive, Rx.mapTo, Rx.map, zipService_unzip, Rx.create,
    Rx.fromSource.
  rewrite RxFacts.drive_mapS, RxFacts.drive_replay.
  destruct (unzip_outcome w (filePath r) (workspacePath w)); reflexivity.
Qed.

Lemma import_validate_run (req : ArchiveImportRequest) r (s : ImportState) :
  lastResult s = Some r ->
  Rx.drive (Rx.noting (@observe _)) (import_validate w req s) =
  let read := readAsText (workspacePath w) "manifest.json" in
  match readAsText_outcome w (workspacePath w) "manifest.json" with
  | Throw e => (Errored e, answered read s)
  | Ok text =>
      match JSON_parse w text with
      | None =>
          (Errored (InvalidArchiveError "Invalid manfiest.json"), answered read s)
      | Some parsed =>
          match forEach_objectType_of parsed (progress r)
                  (List.map type (Request.objects req)) (answered read s) with
          | (Ok _, s1) => (Completed, observe (retask r "VALIDATING") s1)
          | (Throw e, s1) => (Errored e, s1)
          end
      end
  end.
Proof.
  intros Hr; unfold import_validate, Rx.defer; rewrite Hr; cbn [nonNull].
  unfold readManifestFile, fileService_readAsText, Rx.map, fromPromise.
  rewrite !RxFacts.drive_mapS; cbn [outcome made_by].
  destruct (readAsText_outcome w (workspacePath w) "manifest.json")
    as [text|e]; [|reflexivity].
  cbn [Rx.from Rx.of_ Rx.drive].
  destruct (JSON_parse w text) as [parsed|]; [|reflexivity].
  unfold answered.
  destruct (forEach_objectType_of parsed (progress r)
              (List.map type (Request.objects req))
              (record (Settled (readAsText (workspacePath w) "manifest.json"))
                 (record (Called (readAsText (workspacePath w) "manifest.json")) s)))
    as [[[]|e] s1]; reflexivity.
Qed.

Lemma import_objects_run (req : ArchiveImportRequest) (s : ImportState) :
  Rx.drive (Rx.noting (@observe _))
    (import_objects w req
       {| made_by := createDir (workspacePath w) false;
          outcome := createDir_outcome w (workspacePath w) false |} s) =
  let s1 := record (Settled (createDir (workspacePath w) false)) s in
  match createDir_outcome w (workspacePath w) false with
  | Throw e => (Errored e, s1)
  | Ok _ =>
      match Array_map (import_object w req) (Request.objects req) s1 with
      | (Throw e, s2) => (Errored e, s2)
      | (Ok streams, s2) =>
          let joined :=
            Join.combineLatest (schedule w) (List.map snd streams) in
          (terminal_of (snd joined),
           fold_left (fun acc results => aggregate "IMPORTING" results acc)
             (fst joined)
             (fold_left (fun acc c => record (Subscribed c) acc)
                (List.map fst streams) s2))
      end
  end.
Proof.
  unfold import_objects, Rx.tap, Rx.map, Rx.concatMap, fromPromise.
  rewrite !RxFacts.drive_mapS, RxFacts.drive_concatMapS; cbn [outcome made_by].
  destruct (createDir_outcome w (workspacePath w) false) as [[]|e];
    [|reflexivity].
  cbn [Rx.from Rx.of_ Rx.drive].
  destruct (Array_map (import_object w req) (Request.objects req)
              (record (Settled (createDir (workspacePath w) false)) s))
    as [[streams|e] s2]; [|reflexivity].
  unfold combineLatest, Rx.create, Rx.fromSource.
  rewrite RxFacts.drive_replay.
  rewrite (feed_aggregate "IMPORTING") by reflexivity.
  destruct (snd (Join.combineLatest (schedule w) (List.map snd streams)));
    reflexivity.
Qed.

Lemma import_complete_run r (s : ImportState) :
  Rx.drive (Rx.noting (@observe _)) (import_complete (Some r) s) =
  (Completed, observe (retask r "COMPLETE") s).
Proof. reflexivity. Qed.

Lemma export_objects_run (req : ArchiveExportRequest) (s : ExportState) :
  Rx.drive (Rx.noting (@observe _))
    (export_objects w req
       {| made_by := createDir (workspacePath w) false;
          outcome := createDir_outcome w (workspacePath w) false |} s) =
  let s1 := record (Settled (createDir (workspacePath w) false)) s in
  match createDir_outcome w (workspacePath w) false with
  | Throw e => (Errored e, s1)
  | Ok _ =>
      match Array_map (export_object w req) (Request.objects req) s1 with
      | (Throw e, s2) => (Errored e, s2)
      | (Ok streams, s2) =>
          let joined :=
            Join.combineLatest (schedule w) (List.map snd streams) in
          (terminal_of (snd joined),
           fold_left (fun acc results => aggregate "BUILDING" results acc)
             (fst joined)
             (fold_left (fun acc c => record (Subscribed c) acc)
                (List.map fst streams) s2))
      end
  end.
Proof.
  unfold export_objects, Rx.tap, Rx.map, Rx.concatMap, fromPromise.
  rewrite !RxFacts.drive_mapS, RxFacts.drive_concatMapS; cbn [outcome made_by].
  destruct (createDir_outcome w (workspacePath w) false) as [[]|e];
    [|reflexivity].
  cbn [Rx.from Rx.of_ Rx.drive].
  destruct (Array_map (export_object w req) (Request.objects req)
              (record (Settled (createDir (workspacePath w) false)) s))
    as [[streams|e] s2]; [|reflexivity].
  unfold combineLatest, Rx.create, Rx.fromSource.
  rewrite RxFacts.drive_replay.
  rewrite (feed_aggregate "BUILDING") by reflexivity.
  destruct (snd (Join.combineLatest (schedule w) (List.map snd streams)));
    reflexivity.
Qed.

Lemma export_manifest_run r (s : ExportState) :
  lastResult s = Some r ->
  Rx.drive (Rx.noting (@observe _)) (export_manifest w s) =
  match Rx.feed (manifest_step w r) (fst (buildContext_stream w))
          (record (Subscribed buildContext) (record (Called buildContext) s)) with
  | (None, s1) => (terminal_of (snd (buildContext_stream w)), s1)
  | (Some e, s1) => (Errored e, s1)
  end.
Proof.
  intros Hr; unfold export_manifest, Rx.defer; rewrite Hr; cbn [nonNull].
  unfold generateManifestFile, Rx.mapTo, Rx.map, Rx.concatMap, fromCollaborator,
    Rx.create, Rx.fromSource.
  rewrite RxFacts.drive_mapS, RxFacts.drive_concatMapS, RxFacts.drive_mapS,
    RxFacts.drive_replay.
  erewrite RxFacts.feed_ext; [reflexivity|].
  intros c s0; unfold manifest_step, write_manifest, fileService_writeFile,
    fromPromise; cbn [outcome made_by].
  destruct (writeFile_outcome w (workspacePath w) "manifest.json"
              (JSON_stringify w
                 (manifest_of w (pdata c) (flattenedItems (deref (progress r) s0))))
              true) as [[]|e]; reflexivity.
Qed.

Lemma export_zip_run r (s : ExportState) :
  lastResult s = Some r ->
  Rx.drive (Rx.noting (@observe _)) (export_zip w s) =
  let z := zip (workspacePath w) (zipFilePath w) in
  match zip_outcome w (workspacePath w) (zipFilePath w) with
  | None =>
      (Completed,
       observe {| task := "COMPLETE";
                  progress := progress r;
                  filePath := Some (zipFilePath w) |} (answered z s))
  | Some e => (Errored e, answered z s)
  end.
Proof.
  intros Hr; unfold export_zip, Rx.defer; rewrite Hr; cbn [nonNull].
  unfold generateZipArchive, Rx.mapTo, Rx.map, zipService_zip, Rx.create,
    Rx.fromSource.
  rewrite RxFacts.drive_mapS, RxFacts.drive_replay.
  destruct (zip_outcome w (workspacePath w) (zipFilePath w)); reflexivity.
Qed.

(** The states a call goes through keep [lastResult] unless a joint
    report of the delegates is aggregated. *)
Lemma forEach_objectType_frame manifest perType types (s : ImportState) :
  let s' := snd (forEach_objectType manifest perType types s) in
  log s' = log s /\ lastResult s' = lastResult s /\
  length (heap s') = length (heap s) /\
  forall r, r <> perType -> deref r s' = deref r s.
Proof.
  revert s; induction types as [|t types IH]; intros s; simpl; auto.
  destruct (Nat.eqb (length (items_of manifest t)) 0); simpl; auto.
  specialize (IH (Map_set_at perType t (initialising (items_of manifest t)) s)).
  cbv zeta in IH; destruct IH as (Hlog & Hlast & Hlen & Hderef).
  repeat split; auto.
  - rewrite Hlen; unfold Map_set_at; simpl; apply JoinFacts.put_length.
  - intros r Hr; rewrite (Hderef r Hr); unfold deref, Map_set_at; simpl.
    apply JoinFacts.nth_put_other; auto.
Qed.

Lemma export_manifest_undefined (s : ExportState) :
  lastResult s = None ->
  Rx.drive (Rx.noting (@observe _)) (export_manifest w s) =
  (Errored (TypeError "Cannot destructure property 'progress' of undefined"), s).
Proof.
  intros Hr; unfold export_manifest, Rx.defer; rewrite Hr; reflexivity.
Qed.

Lemma export_zip_undefined (s : ExportState) :
  lastResult s = None ->
  Rx.drive (Rx.noting (@observe _)) (export_zip w s) =
  (Errored (TypeError "lastResult is undefined"), s).
Proof.
  intros Hr; unfold export_zip, Rx.defer; rewrite Hr; reflexivity.
Qed.

Lemma run_export_steps (req : ArchiveExportRequest) :
  run_export w req = export_steps w req.
Proof.
  unfold run_export, export_, export_steps.
  destruct (Request.objects req) as [|o objs] eqn:Hobjs; [reflexivity|].
  cbn [length Nat.eqb fileService_createDir].
  unfold Rx.subscribe; cbn [Rx.concat].
  rewrite RxFacts.drive_andThen.
  rewrite export_objects_run; rewrite Hobjs.
  cbv zeta; unfold answered.
  destruct (createDir_outcome w (workspacePath w) false) as [[]|e];
    [|reflexivity].
  match goal with
  | |- context [Array_map ?f ?l ?s] =>
      destruct (Array_map f l s) as [[streams|e] s1]
  end; [|reflexivity].
  destruct (snd (Join.combineLatest (schedule w) (List.map snd streams)));
    [reflexivity|].
  cbn [terminal_of].
  rewrite RxFacts.drive_andThen.
  match goal with
  | |- context [Rx.drive _ (export_manifest w ?s)] => set (s2 := s)
  end.
  destruct (lastResult s2) as [r|] eqn:Hr.
  - rewrite (export_manifest_run r s2 Hr).
    destruct (Rx.feed (manifest_step w r) (fst (buildContext_stream w))
                (record (Subscribed buildContext)
                   (record (Called buildContext) s2))) as [[e|] s3];
      [reflexivity|].
    destruct (snd (buildContext_stream w)); [reflexivity|].
    cbn [terminal_of].
    rewrite RxFacts.drive_andThen.
    destruct (lastResult s3) as [r'|] eqn:Hr'.
    + rewrite (export_zip_run r' s3 Hr'); cbv zeta; unfold answered.
      destruct (zip_outcome w (workspacePath w) (zipFilePath w)); reflexivity.
    + rewrite (export_zip_undefined s3 Hr'); reflexivity.
  - rewrite (export_manifest_undefined s2 Hr); reflexivity.
Qed.

Lemma run_import_steps (req : ArchiveImportRequest) :
  run_import w req = import_steps w req.
Proof.
  unfold run_import, import_, import_steps.
  destruct (Request.objects req) as [|o objs] eqn:Hobjs; [reflexivity|].
  cbn [length Nat.eqb alloc fileService_createDir snd].
  unfold Rx.subscribe; cbn [Rx.concat].
  rewrite RxFacts.drive_andThen.
  erewrite import_extract_run by reflexivity.
  cbn [filePath lastResult record assign heap initial length].
  destruct (unzip_outcome w (Some (Request.filePath req)) (workspacePath w));
    [reflexivity|].
  rewrite RxFacts.drive_andThen.
  erewrite import_validate_run by reflexivity.
  cbn [progress]; rewrite Hobjs.
  destruct (readAsText_outcome w (workspacePath w) "manifest.json")
    as [text|e]; [|reflexivity].
  destruct (JSON_parse w text) as [[manifest|message]|];
    [|reflexivity|reflexivity].
  cbn [forEach_objectType_of].
  match goal with
  | |- context [forEach_objectType ?m ?r ?t ?s] =>
      destruct (forEach_objectType m r t s) as [[[]|e] s2]
  end; [|reflexivity].
  rewrite RxFacts.drive_andThen.
  rewrite import_objects_run; unfold import_objects_steps; rewrite Hobjs.
  cbv zeta.
  destruct (createDir_outcome w (workspacePath w) false) as [[]|e];
    [|reflexivity].
  match goal with
  | |- context [Array_map ?f ?l ?s] =>
      destruct (Array_map f l s) as [[streams|e] s4]
  end; [|reflexivity].
  destruct (snd (Join.combineLatest (schedule w) (List.map snd streams)));
    [reflexivity|].
  cbn [terminal_of].
  rewrite RxFacts.drive_andThen.
  reflexivity.
Qed.

End Stages.
End ArchiveStages.

(** ** [ArchiveServiceImpl]: maps, validation, work lists *)
Module ArchiveFacts.
Import Archive.

Lemma type_eqb_eq a b : type_eqb a b = true <-> a = b.
Proof. destruct a, b; simpl; split; congruence. Qed.

Lemma type_eqb_refl a : type_eqb a a = true.
Proof. destruct a; reflexivity. Qed.

Lemma type_eqb_neq a b : a <> b -> type_eqb a b = false.
Proof. destruct a, b; simpl; congruence. Qed.

Lemma type_eq_dec_ (a b : ArchiveObjectType) : {a = b} + {a <> b}.
Proof. decide equality. Qed.

Section Maps.
Variable V : Type.

Lemma Map_keys_set_in (k k' : ArchiveObjectType) (v : V) m :
  In k' (Map_keys (Map_set k v m)) <-> k' = k \/ In k' (Map_keys m).
Proof.
  induction m as [|[k0 v0] m IH]; simpl.
  - intuition.
  - destruct (type_eqb k k0) eqn:E; simpl.
    + apply type_eqb_eq in E; subst k0; intuition.
    + rewrite IH; intuition.
Qed.

Lemma Map_keys_set_NoDup (k : ArchiveObjectType) (v : V) m :
  NoDup (Map_keys m) -> NoDup (Map_keys (Map_set k v m)).
Proof.
  induction m as [|[k0 v0] m IH]; simpl; intros Hnd.
  - constructor; [intros [] | constructor].
  - destruct (type_eqb k k0) eqn:E; simpl.
    + apply type_eqb_eq in E; subst k0; exact Hnd.
    + inversion Hnd as [|? ? Hnotin Hnd']; subst.
      constructor; [|apply IH; exact Hnd'].
      rewrite Map_keys_set_in; intros [->|Hin]; [|exact (Hnotin Hin)].
      rewrite type_eqb_refl in E; discriminate.
Qed.

Lemma Map_of_keys (pairs : list (ArchiveObjectType * V)) start :
  NoDup (Map_keys start) ->
  NoDup (Map_keys (Map_of pairs start)) /\
  forall t, In t (Map_keys (Map_of pairs start)) <->
            In t (Map_keys start) \/ In t (List.map fst pairs).
Proof.
  revert start; induction pairs as [|[k v] pairs IH]; intros start Hnd; simpl.
  - split; [exact Hnd | intuition].
  - destruct (IH (Map_set k v start) (Map_keys_set_NoDup k v start Hnd))
      as [Hnd' Hin].
    split; [exact Hnd'|].
    intros t; unfold Map_of in Hin; rewrite Hin, Map_keys_set_in; intuition.
Qed.

Lemma Map_get_set_same (k : ArchiveObjectType) (v : V) m :
  Map_get k (Map_set k v m) = Some v.
Proof.
  induction m as [|[k0 v0] m IH]; simpl.
  - rewrite type_eqb_refl; reflexivity.
  - destruct (type_eqb k k0) eqn:E; simpl; rewrite ?type_eqb_refl, ?E; auto.
Qed.

Lemma Map_get_set_other (k k' : ArchiveObjectType) (v : V) m :
  k' <> k -> Map_get k' (Map_set k v m) = Map_get k' m.
Proof.
  intros Hk; induction m as [|[k0 v0] m IH]; simpl.
  - rewrite (type_eqb_neq k' k Hk); reflexivity.
  - destruct (type_eqb k k0) eqn:E; simpl.
    + apply type_eqb_eq in E; subst k0.
      rewrite (type_eqb_neq k' k Hk); reflexivity.
    + destruct (type_eqb k' k0); auto.
Qed.

(** When the value set under a key depends on the key only, the [Map]
    holds that value under every key that was set. *)
Lemma Map_of_get (f : ArchiveObjectType -> V) (pairs : list (ArchiveObjectType * V))
  start t :
  (forall p, In p pairs -> snd p = f (fst p)) ->
  Map_get t start = Some (f t) \/ In t (List.map fst pairs) ->
  Map_get t (Map_of pairs start) = Some (f t).
Proof.
  revert start; induction pairs as [|[k v] pairs IH]; intros start Hf Hin; simpl.
  - destruct Hin as [H|[]]; exact H.
  - apply IH; [intros p Hp; apply Hf; right; exact Hp|].
    assert (Hv : v = f k) by (apply (Hf (k, v)); left; reflexivity).
    destruct (type_eq_dec_ t k) as [->|Hne].
    + left; rewrite Hv; apply Map_get_set_same.
    + simpl in Hin; destruct Hin as [H|[H|H]]; auto.
      * left; rewrite Map_get_set_other by exact Hne; exact H.
      * congruence.
Qed.

End Maps.

(** *** The heap and the log under the steps of a call *)
Section Steps.
Variable V : Type.

Lemma deref_Map_set_at r key (value : V) (s : State V) :
  r < length (heap s) ->
  deref r (Map_set_at r key value s) = Map_set key value (deref r s).
Proof.
  intros Hr; unfold deref, Map_set_at; simpl.
  apply JoinFacts.nth_put_same; exact Hr.
Qed.

Lemma subscribed_all (cs : list Call) (s : State V) :
  let s' := fold_left (fun acc c => record (Subscribed c) acc) cs s in
  heap s' = heap s /\ lastResult s' = lastResult s /\
  log s' = log s ++ List.map (@Subscribed V) cs.
Proof.
  revert s; induction cs as [|c cs IH]; intros s; simpl.
  - rewrite app_nil_r; auto.
  - destruct (IH (record (Subscribed c) s)) as (Hh & Hl & Hlog).
    repeat split; auto.
    rewrite Hlog; simpl; rewrite <- app_assoc; reflexivity.
Qed.

(** Aggregating joint reports only appends: fresh [Map]s to the heap,
    snapshots of them to the log. *)
Lemma aggregate_all task_ (Q : JsMap V -> Prop)
  (arrays : list (list (ArchiveObjectType * V))) (s : State V) :
  Forall (fun results => Q (Map_of results [])) arrays ->
  let s' := fold_left (fun acc results => aggregate task_ results acc) arrays s in
  exists maps evs,
    heap s' = heap s ++ maps /\
    log s' = log s ++ evs /\
    Forall (fun ev => exists r m,
                ev = Emitted {| task := task_; progress := r; filePath := None |} m /\
                length (heap s) <= r /\ Q m) evs /\
    (lastResult s' = lastResult s \/
     exists r, lastResult s' =
                 Some {| task := task_; progress := r; filePath := None |} /\
               length (heap s) <= r /\ Q (deref r s')).
Proof.
  revert s; induction arrays as [|a arrays IH]; intros s HQ; simpl.
  - exists [], []; rewrite !app_nil_r; auto.
  - inversion HQ as [|? ? Ha Hrest]; subst.
    set (s1 := aggregate task_ a s).
    assert (Hheap1 : heap s1 = heap s ++ [Map_of a []]) by reflexivity.
    assert (Hlog1 : log s1 = log s ++
              [Emitted {| task := task_; progress := length (heap s);
                          filePath := None |} (Map_of a [])]).
    { unfold s1, aggregate, reduceObjectProgress, alloc, observe, record,
        assign, deref; simpl.
      rewrite nth_middle; reflexivity. }
    assert (Hlast1 : lastResult s1 =
              Some {| task := task_; progress := length (heap s);
                      filePath := None |}) by reflexivity.
    destruct (IH s1 Hrest) as (maps & evs & Hheap & Hlog & Hevs & Hlast).
    exists (Map_of a [] :: maps),
      (Emitted {| task := task_; progress := length (heap s); filePath := None |}
         (Map_of a []) :: evs).
    repeat split.
    + rewrite Hheap, Hheap1, <- app_assoc; reflexivity.
    + rewrite Hlog, Hlog1, <- app_assoc; reflexivity.
    + constructor.
      * exists (length (heap s)), (Map_of a []); auto.
      * eapply Forall_impl; [|exact Hevs].
        intros ev (r & m & Hev & Hr & Hm); exists r, m; repeat split; auto.
        rewrite Hheap1, length_app in Hr; lia.
    + right; destruct Hlast as [Hsame | (r & Hr & Hle & Hq)].
      * exists (length (heap s)); rewrite Hsame, Hlast1; repeat split; auto.
        unfold deref; rewrite Hheap, Hheap1, <- app_assoc; simpl.
        rewrite nth_middle; exact Ha.
      * exists r; repeat split; auto.
        rewrite Hheap1, length_app in Hle; lia.
Qed.

End Steps.

Section ServiceSteps.
Variable w : World.

(** Validation: it only touches the [Map] it is given; when it succeeds
    every requested type has items and is set, when it fails some
    requested type has none. *)
Lemma forEach_objectType_result manifest perType types (s : ImportState) :
  perType < length (heap s) ->
  match forEach_objectType manifest perType types s with
  | (Ok _, s') =>
      Forall (fun t => items_of manifest t <> []) types /\
      deref perType s' =
      Map_of (List.map (fun t => (t, initialising (items_of manifest t))) types)
        (deref perType s)
  | (Throw e, _) =>
      e = InvalidArchiveError "Nothing to import" /\
      exists t, In t types /\ items_of manifest t = []
  end.
Proof.
  revert s; induction types as [|t types IH]; intros s Hr; simpl; auto.
  destruct (items_of manifest t) as [|i matching] eqn:Hitems; simpl.
  - split; [reflexivity | exists t; auto].
  - specialize (IH (Map_set_at perType t (initialising (i :: matching)) s)).
    destruct (forEach_objectType manifest perType types
                (Map_set_at perType t (initialising (i :: matching)) s))
      as [[[]|e] s'].
    + destruct IH as [Hall Hderef].
      { unfold Map_set_at; simpl; rewrite JoinFacts.put_length; exact Hr. }
      split.
      * constructor; [rewrite Hitems; discriminate | exact Hall].
      * rewrite Hderef, deref_Map_set_at by exact Hr; reflexivity.
    + destruct IH as [He (t' & Hin & Hnone)].
      { unfold Map_set_at; simpl; rewrite JoinFacts.put_length; exact Hr. }
      split; [exact He | exists t'; auto].
Qed.

(** The work list of an export: either every object is a telemetry object
    and each gets the delegate's stream, or the first other object ends
    the visit with the placeholder error; only delegate calls are
    logged. *)
Lemma Array_map_export_object (req : ArchiveExportRequest) objs (s : ExportState) :
  match Array_map (export_object w req) objs s with
  | (res, s') =>
      heap s' = heap s /\ lastResult s' = lastResult s /\
      (exists calls, Forall delegate_call calls /\
                     log s' = log s ++ List.map (@Called _) calls) /\
      match res with
      | Ok streams =>
          Forall (fun o => type o = TELEMETRY) objs /\
          length streams = length objs /\
          Forall (fun st => Forall (fun x => fst x = TELEMETRY) (fst (snd st)))
            streams
      | Throw e =>
          e = PlainError "To be implemented" /\
          exists o, In o objs /\ type o <> TELEMETRY
      end
  end.
Proof.
  revert s; induction objs as [|o objs IH]; intros s; simpl.
  - repeat split; auto; exists []; rewrite app_nil_r; auto.
  - unfold export_object at 1.
    destruct (type o) eqn:Ho.
    + repeat split; auto.
      * exists []; rewrite app_nil_r; auto.
      * exists o; split; [left; reflexivity | congruence].
    + repeat split; auto.
      * exists []; rewrite app_nil_r; auto.
      * exists o; split; [left; reflexivity | congruence].
    + match goal with
      | |- context [Array_map _ objs ?s1] => specialize (IH s1)
      end.
      match goal with
      | H : context [Array_map ?f objs ?s1] |- _ =>
          destruct (Array_map f objs s1) as [[streams|e] s']
      end.
      * destruct IH as (Hh & Hl & (calls & Hcalls & Hlog) & Hall & Hlen & Hsrc).
        repeat split; auto.
        -- exists (telemetryExport (Request.filePath req) (workspacePath w) :: calls); split; [constructor; [exact I | exact Hcalls]|].
           rewrite Hlog; simpl; rewrite <- app_assoc; reflexivity.
        -- simpl; congruence.
        -- constructor; [|exact Hsrc].
           simpl; apply Forall_map, Forall_forall; intros; reflexivity.
      * destruct IH as (Hh & Hl & (calls & Hcalls & Hlog) & He & (o' & Hin & Hne)).
        repeat split; auto.
        -- exists (telemetryExport (Request.filePath req) (workspacePath w) :: calls); split; [constructor; [exact I | exact Hcalls]|].
           rewrite Hlog; simpl; rewrite <- app_assoc; reflexivity.
        -- exists o'; split; [right; exact Hin | exact Hne].
Qed.

(** The work list of an import, after a validation that has set the
    entry of every requested type. *)
Lemma Array_map_import_object (req : ArchiveImportRequest) r objs (s : ImportState) :
  lastResult s = Some r ->
  (forall o, In o objs -> Map_get (type o) (deref (progress r) s) <> None) ->
  match Array_map (import_object w req) objs s with
  | (res, s') =>
      heap s' = heap s /\ lastResult s' = lastResult s /\
      (exists calls, Forall delegate_call calls /\
                     log s' = log s ++ List.map (@Called _) calls) /\
      match res with
      | Ok streams =>
          Forall (fun o => type o = TELEMETRY) objs /\
          length streams = length objs /\
          Forall (fun st => Forall (fun x => fst x = TELEMETRY) (fst (snd st)))
            streams
      | Throw e =>
          e = PlainError "To be implemented" /\
          exists o, In o objs /\ type o <> TELEMETRY
      end
  end.
Proof.
  revert s; induction objs as [|o objs IH]; intros s Hlast Hset; simpl.
  - repeat split; auto; exists []; rewrite app_nil_r; auto.
  - unfold import_object at 1.
    destruct (type o) eqn:Ho.
    + repeat split; auto.
      * exists []; rewrite app_nil_r; auto.
      * exists o; split; [left; reflexivity | congruence].
    + repeat split; auto.
      * exists []; rewrite app_nil_r; auto.
      * exists o; split; [left; reflexivity | congruence].
    + rewrite Hlast; cbn [nonNull].
      destruct (Map_get TELEMETRY (deref (progress r) s)) as [entry|] eqn:Hget.
      2:{ exfalso; apply (Hset o); [left; reflexivity|].
          rewrite Ho; exact Hget. }
      cbn [nonNull].
      match goal with
      | |- context [Array_map _ objs ?s1] =>
          specialize (IH s1 Hlast
                        (fun o' Hin => Hset o' (or_intror Hin)))
      end.
      match goal with
      | H : context [Array_map ?f objs ?s1] |- _ =>
          destruct (Array_map f objs s1) as [[streams|e] s']
      end.
      * destruct IH as (Hh & Hl & (calls & Hcalls & Hlog) & Hall & Hlen & Hsrc).
        split; [exact Hh|]; split; [rewrite Hl; exact Hlast|]; repeat split; auto.
        -- exists (telemetryImport (Request.filePath req) (workspacePath w)
                     (ArchiveObjectImportProgress.pending entry) :: calls); split; [constructor; [exact I | exact Hcalls]|].
           rewrite Hlog; simpl; rewrite <- app_assoc; reflexivity.
        -- simpl; congruence.
        -- constructor; [|exact Hsrc].
           simpl; apply Forall_map, Forall_forall; intros; reflexivity.
      * destruct IH as (Hh & Hl & (calls & Hcalls & Hlog) & He & (o' & Hin & Hne)).
        split; [exact Hh|]; split; [rewrite Hl; exact Hlast|]; repeat split; auto.
        -- exists (telemetryImport (Request.filePath req) (workspacePath w)
                     (ArchiveObjectImportProgress.pending entry) :: calls); split; [constructor; [exact I | exact Hcalls]|].
           rewrite Hlog; simpl; rewrite <- app_assoc; reflexivity.
        -- exists o'; split; [right; exact Hin | exact Hne].
Qed.

End ServiceSteps.

(** *** Every event of a run *)
Section Events.
Variable w : World.

Lemma all_telemetry_in (X : Type) (f : X -> ArchiveObjectType) (l : list X) t :
  l <> [] -> Forall (fun x => f x = TELEMETRY) l ->
  (In t (List.map f l) <-> t = TELEMETRY).
Proof.
  intros Hne Hall; rewrite Forall_forall in Hall; split.
  - intros Hin; apply in_map_iff in Hin; destruct Hin as (x & <- & Hx); auto.
  - intros ->; destruct l as [|x l]; [congruence|].
    left; apply Hall; left; reflexivity.
Qed.

(** The aggregation of a joint report of telemetry delegates has exactly
    the requested types as keys. *)
Lemma keys_of_reports (V : Type) (objs : list ArchiveObject)
  (results : list (ArchiveObjectType * V)) :
  objs <> [] ->
  Forall (fun o => type o = TELEMETRY) objs ->
  Forall (fun x => fst x = TELEMETRY) results ->
  length results = length objs ->
  keys_exactly (List.map type objs) (Map_of results []).
Proof.
  intros Hne Hobjs Hres Hlen.
  destruct (Map_of_keys V results [] (NoDup_nil _)) as [Hnd Hin].
  split; [exact Hnd|].
  intros t; rewrite Hin, (all_telemetry_in _ type objs t Hne Hobjs).
  assert (Hres_ne : results <> []).
  { destruct results; [destruct objs; simpl in *; congruence | discriminate]. }
  rewrite (all_telemetry_in _ fst results t Hres_ne Hres).
  simpl; intuition.
Qed.

Lemma manifest_event_heap r (s s' : ExportState) ev :
  heap s' = heap s -> manifest_event w r s' ev -> manifest_event w r s ev.
Proof.
  unfold manifest_event, deref; intros ->; auto.
Qed.

(** The manifest stage leaves heap and [lastResult] alone and logs only
    manifest writes and [BUILDING_MANIFEST] snapshots. *)
Lemma feed_manifest_step r contexts (s : ExportState) :
  let res := Rx.feed (manifest_step w r) contexts s in
  heap (snd res) = heap s /\ lastResult (snd res) = lastResult s /\
  exists evs, log (snd res) = log s ++ evs /\ Forall (manifest_event w r s) evs.
Proof.
  revert s; induction contexts as [|c contexts IH]; intros s; simpl.
  - repeat split; auto; exists []; rewrite app_nil_r; auto.
  - set (data := JSON_stringify w
                   (manifest_of w (pdata c) (flattenedItems (deref (progress r) s)))).
    set (wr := writeFile (workspacePath w) "manifest.json" data true).
    assert (Hcalled : manifest_event w r s (Called wr))
      by (left; exists (pdata c); reflexivity).
    assert (Hsettled : manifest_event w r s (Settled wr))
      by (right; left; exists wr; reflexivity).
    assert (Hstep : manifest_step w r c s =
              match writeFile_outcome w (workspacePath w) "manifest.json" data
                      true with
              | Ok _ =>
                  (None,
                   observe {| task := "BUILDING_MANIFEST";
                              progress := progress r;
                              filePath := None |} (answered wr s))
              | Throw e => (Some e, answered wr s)
              end) by reflexivity.
    rewrite Hstep; clear Hstep.
    destruct (writeFile_outcome w (workspacePath w) "manifest.json" data true)
      as [[]|e]; simpl.
    + match goal with
      | |- context [Rx.feed _ contexts ?s1] => specialize (IH s1)
      end.
      cbv zeta in IH; destruct IH as (Hh & Hl & evs & Hlog & Hevs).
      split; [exact Hh|]; split; [exact Hl|].
      exists (Called wr :: Settled wr ::
              Emitted {| task := "BUILDING_MANIFEST"; progress := progress r;
                         filePath := None |} (deref (progress r) s) :: evs).
      split.
      * rewrite Hlog; simpl; rewrite <- !app_assoc; reflexivity.
      * constructor; [exact Hcalled|].
        constructor; [exact Hsettled|].
        constructor; [right; right; reflexivity|].
        eapply Forall_impl; [|exact Hevs].
        intros ev; apply manifest_event_heap; reflexivity.
    + split; [reflexivity|]; split; [reflexivity|].
      exists [Called wr; Settled wr]; split.
      * unfold answered, record; simpl; rewrite <- app_assoc; reflexivity.
      * constructor; [exact Hcalled|].
        constructor; [exact Hsettled | constructor].
Qed.

Lemma manifest_event_ok (req : ArchiveExportRequest) r (s final : ExportState) ev :
  manifest_event w r s ev ->
  heap final = heap s ->
  lastResult final = Some r ->
  keys_exactly (List.map type (Request.objects req)) (deref (progress r) final) ->
  export_event_ok w req final ev.
Proof.
  intros [(pd & ->) | [(c & ->) | ->]] Hheap Hlast Hkeys; simpl; auto.
  - split; [reflexivity|]; split; [reflexivity|]; split; [reflexivity|].
    exists pd, r; split; [exact Hlast|]; split; [exact Hkeys|].
    unfold deref; rewrite Hheap; reflexivity.
  - unfold deref in *; rewrite <- Hheap; exact Hkeys.
Qed.

Lemma delegate_calls_ok (req : ArchiveExportRequest) (final : ExportState) calls :
  Forall delegate_call calls ->
  Forall (export_event_ok w req final) (List.map (@Called _) calls).
Proof.
  intros H; apply Forall_map; eapply Forall_impl; [|exact H].
  intros [] Hc; simpl in *; auto; contradiction.
Qed.

(** Every event of an export is fine: each snapshot has exactly the
    requested types as keys, each manifest written is the manifest of the
    aggregation kept in [lastResult], and delegates are only subscribed
    when every requested object is a telemetry object. *)
Lemma export_events (req : ArchiveExportRequest) :
  let final := snd (run_export w req) in
  Forall (export_event_ok w req final) (log final).
Proof.
  rewrite ArchiveStages.run_export_steps; unfold export_steps.
  destruct (Request.objects req) as [|o objs] eqn:Hobjs; [constructor|].
  cbv zeta.
  set (s0 := answered (createDir (workspacePath w) false)
               (initial ArchiveObjectExportProgress.t)).
  assert (H0 : forall final, Forall (export_event_ok w req final) (log s0))
    by (intros final; repeat constructor).
  destruct (createDir_outcome w (workspacePath w) false) as [[]|e];
    [|apply H0].
  pose proof (Array_map_export_object w req (o :: objs) s0) as HA.
  destruct (Array_map (export_object w req) (o :: objs) s0) as [[streams|e] s1].
  2:{ destruct HA as (_ & _ & (calls & Hcalls & Hlog) & _); simpl.
      rewrite Hlog; apply Forall_app; split;
        [apply H0 | apply delegate_calls_ok; exact Hcalls]. }
  destruct HA as (Hh1 & Hl1 & (calls & Hcalls & Hlog1) & Hall & Hlen & Hsrc).
  destruct (subscribed_all _ (List.map fst streams) s1) as (Hh1' & Hl1' & Hlog1').
  set (s1' := fold_left (fun acc c => record (Subscribed c) acc)
                (List.map fst streams) s1) in *.
  set (joined := Join.combineLatest (schedule w) (List.map snd streams)).
  assert (Hkeys : Forall (fun results =>
                    keys_exactly (List.map type (Request.objects req))
                      (Map_of results [])) (fst joined)).
  { eapply Forall_impl;
      [|apply (JoinFacts.combineLatest_fine _ (fun x => fst x = TELEMETRY)
                 (schedule w) (List.map snd streams))].
    - intros results [Hres Hl]; rewrite Hobjs.
      apply keys_of_reports; auto; [discriminate|].
      rewrite Hl, length_map; exact Hlen.
    - apply Forall_map; exact Hsrc. }
  destruct (aggregate_all _ "BUILDING" _ (fst joined) s1' Hkeys)
    as (maps & evs & Hh2 & Hlog2 & Hevs & Hlast2).
  set (s2 := fold_left (fun acc results => aggregate "BUILDING" results acc)
               (fst joined) s1') in *.
  assert (H2 : forall final, Forall (export_event_ok w req final) (log s2)).
  { intros final; rewrite Hlog2, Hlog1', Hlog1.
    apply Forall_app; split; [apply Forall_app; split;
                                [apply Forall_app; split|]|].
    - apply H0.
    - apply delegate_calls_ok; exact Hcalls.
    - apply Forall_map, Forall_forall; intros c _; simpl.
      rewrite Hobjs; exact Hall.
    - eapply Forall_impl; [|exact Hevs].
      intros ev (r & m & -> & _ & Hm); exact Hm. }
  destruct (snd joined); [apply H2|].
  destruct (lastResult s2) as [r|] eqn:Hr; [|apply H2].
  assert (Hsealed : keys_exactly (List.map type (Request.objects req))
                      (deref (progress r) s2)).
  { destruct Hlast2 as [Hsame | (r' & Hr' & _ & Hq)].
    - rewrite ?Hr, Hl1', Hl1 in Hsame; discriminate.
    - rewrite ?Hr in Hr'; inversion Hr'; subst r; exact Hq. }
  set (sm := record (Subscribed buildContext) (record (Called buildContext) s2)).
  destruct (feed_manifest_step r (fst (buildContext_stream w)) sm)
    as (Hh3 & Hl3 & mevs & Hlog3 & Hmevs).
  assert (H3 : forall final,
             heap final = heap s2 -> lastResult final = Some r ->
             Forall (export_event_ok w req final)
               (log (snd (Rx.feed (manifest_step w r)
                            (fst (buildContext_stream w)) sm)))).
  { intros final Hhf Hlf; rewrite Hlog3.
    apply Forall_app; split.
    - unfold sm, record; simpl.
      apply Forall_app; split; [apply Forall_app; split|].
      + apply H2.
      + constructor; [exact I | constructor].
      + constructor; [simpl; rewrite Hobjs; exact Hall | constructor].
    - eapply Forall_impl; [|exact Hmevs].
      intros ev Hev; apply (manifest_event_ok req r sm final ev Hev); auto.
      unfold deref; rewrite Hhf; exact Hsealed. }
  destruct (Rx.feed (manifest_step w r) (fst (buildContext_stream w)) sm)
    as [[e|] s3]; simpl in Hh3, Hl3, H3.
  { apply H3; simpl; congruence. }
  destruct (snd (buildContext_stream w)).
  { apply H3; simpl; congruence. }
  assert (Hr3 : lastResult s3 = Some r) by congruence.
  rewrite Hr3.
  destruct (zip_outcome w (workspacePath w) (zipFilePath w)).
  - unfold answered, record; simpl.
    apply Forall_app; split; [apply Forall_app; split|].
    + match goal with
      | |- Forall (export_event_ok w req ?f) _ => apply (H3 f); auto
      end.
    + repeat constructor.
    + repeat constructor.
  - unfold observe, answered, record; simpl.
    apply Forall_app; split; [apply Forall_app; split;
                                [apply Forall_app; split|]|].
    + match goal with
      | |- Forall (export_event_ok w req ?f) _ => apply (H3 f); auto
      end.
    + repeat constructor.
    + repeat constructor.
    + constructor; [|constructor].
      simpl; unfold deref in *; simpl; rewrite Hh3; exact Hsealed.
Qed.

Lemma import_delegate_calls_ok (req : ArchiveImportRequest) calls :
  Forall delegate_call calls ->
  Forall (import_event_ok w req) (List.map (@Called _) calls).
Proof.
  intros H; apply Forall_map, Forall_forall; intros c _; exact I.
Qed.

Lemma validated_get manifest types t :
  In t types ->
  Map_get t (validated manifest types) = Some (initialising (items_of manifest t)).
Proof.
  intros Hin; unfold validated.
  apply (Map_of_get _ (fun t0 => initialising (items_of manifest t0))).
  - intros p Hp; apply in_map_iff in Hp; destruct Hp as (t0 & <- & _); reflexivity.
  - right; rewrite map_map; simpl; rewrite map_id; exact Hin.
Qed.

(** Every event of an import is fine: the [EXTRACTING] snapshot shows an
    empty [Map]; the [VALIDATING] and the [COMPLETE] snapshot both show
    the [Map] allocated by the call as validation left it; every
    [IMPORTING] snapshot shows a [Map] of its own whose keys are the
    requested types; delegates are only subscribed when every requested
    object is a telemetry object. *)
Lemma import_events (req : ArchiveImportRequest) :
  Forall (import_event_ok w req) (log (snd (run_import w req))).
Proof.
  rewrite ArchiveStages.run_import_steps; unfold import_steps.
  destruct (Request.objects req) as [|o objs] eqn:Hobjs; [constructor|].
  cbv zeta.
  set (r0 := {| task := ""; progress := 0;
                filePath := Some (Request.filePath req) |}).
  set (mkdir := createDir (workspacePath w) false).
  set (u := unzip (Some (Request.filePath req)) (workspacePath w)).
  set (read := readAsText (workspacePath w) "manifest.json").
  set (s0 := record (Called mkdir)
               (assign r0 (snd (alloc [] (initial ArchiveObjectImportProgress.t))))).
  assert (Hextracting :
            import_event_ok w req
              (Emitted (retask r0 "EXTRACTING") (deref 0 (answered u s0)))).
  { left; split; reflexivity. }
  destruct (unzip_outcome w (Some (Request.filePath req)) (workspacePath w));
    [repeat constructor|].
  set (s1 := observe (retask r0 "EXTRACTING") (answered u s0)).
  assert (H1 : Forall (import_event_ok w req) (log (answered read s1))).
  { unfold answered, s1, observe, record, s0; simpl.
    repeat constructor. }
  destruct (readAsText_outcome w (workspacePath w) "manifest.json")
    as [text|e] eqn:Hread; [|exact H1].
  destruct (JSON_parse w text) as [[manifest|message]|] eqn:Hparse;
    [|exact H1|exact H1].
  pose proof (forEach_objectType_result manifest 0
                (List.map type (o :: objs)) (answered read s1)) as HV.
  pose proof (ArchiveStages.forEach_objectType_frame manifest 0
                (List.map type (o :: objs)) (answered read s1)) as HF.
  cbv zeta in HF.
  destruct (forEach_objectType manifest 0 (List.map type (o :: objs))
              (answered read s1)) as [[[]|e] s2];
    simpl in HF; destruct HF as (Hlog2 & Hlast2 & Hlen2 & _).
  2:{ simpl; rewrite Hlog2; exact H1. }
  destruct HV as [Hitems Hderef2]; [simpl; lia|].
  change (deref 0 (answered read s1)) with
    (@nil (ArchiveObjectType * ArchiveObjectImportProgress.t)) in Hderef2.
  fold (validated manifest (List.map type (o :: objs))) in Hderef2.
  assert (Hvalid : forall p, p = retask r0 "VALIDATING" \/ p = retask r0 "COMPLETE" ->
                             import_event_ok w req (Emitted p (deref 0 s2))).
  { intros p Hp; right; left; exists text, manifest.
    rewrite Hobjs; repeat split; auto. }
  unfold import_objects_steps; rewrite Hobjs; cbv zeta; fold mkdir.
  set (s3 := record (Settled mkdir) (observe (retask r0 "VALIDATING") s2)).
  assert (H3 : Forall (import_event_ok w req) (log s3)).
  { unfold s3, observe, record; simpl; rewrite Hlog2.
    apply Forall_app; split; [apply Forall_app; split; [exact H1|]|].
    - constructor; [apply Hvalid; left; reflexivity | constructor].
    - repeat constructor. }
  destruct (createDir_outcome w (workspacePath w) false) as [[]|e];
    [|exact H3].
  pose proof (Array_map_import_object w req r0 (o :: objs) s3) as HA.
  destruct (Array_map (import_object w req) (o :: objs) s3) as [[streams|e] s4].
  2:{ destruct HA as (_ & _ & (calls & Hcalls & Hlog) & _); auto.
      - intros o' Hin; change (deref (progress r0) s3) with (deref 0 s2).
        rewrite Hderef2, validated_get; [discriminate|].
        apply in_map; exact Hin.
      - simpl; rewrite Hlog; apply Forall_app; split;
          [exact H3 | apply import_delegate_calls_ok; exact Hcalls]. }
  destruct HA as (Hh4 & Hl4 & (calls & Hcalls & Hlog4) & Hall & Hlen & Hsrc); auto.
  { intros o' Hin; change (deref (progress r0) s3) with (deref 0 s2).
    rewrite Hderef2, validated_get; [discriminate|].
    apply in_map; exact Hin. }
  destruct (subscribed_all _ (List.map fst streams) s4) as (Hh4' & Hl4' & Hlog4').
  set (s4' := fold_left (fun acc c => record (Subscribed c) acc)
                (List.map fst streams) s4) in *.
  set (joined := Join.combineLatest (schedule w) (List.map snd streams)).
  assert (Hkeys : Forall (fun results =>
                    keys_exactly (List.map type (Request.objects req))
                      (Map_of results [])) (fst joined)).
  { eapply Forall_impl;
      [|apply (JoinFacts.combineLatest_fine _ (fun x => fst x = TELEMETRY)
                 (schedule w) (List.map snd streams))].
    - intros results [Hres Hl]; rewrite Hobjs.
      apply keys_of_reports; auto; [discriminate|].
      rewrite Hl, length_map; exact Hlen.
    - apply Forall_map; exact Hsrc. }
  destruct (aggregate_all _ "IMPORTING" _ (fst joined) s4' Hkeys)
    as (maps & evs & Hh5 & Hlog5 & Hevs & _).
  set (s5 := fold_left (fun acc results => aggregate "IMPORTING" results acc)
               (fst joined) s4') in *.
  assert (Hheap4 : length (heap s4') = 1).
  { rewrite Hh4', Hh4; unfold s3; simpl; rewrite Hlen2; reflexivity. }
  assert (H5 : Forall (import_event_ok w req) (log s5)).
  { rewrite Hlog5, Hlog4', Hlog4.
    apply Forall_app; split; [apply Forall_app; split;
                                [apply Forall_app; split|]|].
    - exact H3.
    - apply import_delegate_calls_ok; exact Hcalls.
    - apply Forall_map, Forall_forall; intros c _; simpl.
      rewrite Hobjs; exact Hall.
    - eapply Forall_impl; [|exact Hevs].
      intros ev (r & m & -> & Hr & Hm); right; right.
      exists r; repeat split; auto; try lia; apply Hm. }
  destruct (snd joined); [exact H5|].
  unfold observe, record; simpl.
  apply Forall_app; split; [exact H5|].
  constructor; [|constructor].
  assert (Hsame : deref 0 s5 = deref 0 s2).
  { unfold deref; rewrite Hh5, app_nth1 by lia.
    rewrite Hh4', Hh4; reflexivity. }
  change (deref (progress (retask r0 "COMPLETE")) s5) with (deref 0 s5).
  rewrite Hsame; apply Hvalid; right; reflexivity.
Qed.

(** *** Validation and what follows it *)

Lemma validation_succeeds manifest perType types (s : ImportState) :
  Forall (fun t => items_of manifest t <> []) types ->
  fst (forEach_objectType manifest perType types s) = Ok tt.
Proof.
  revert s; induction types as [|t types IH]; intros s Hall; simpl; auto.
  inversion Hall as [|? ? Ht Hrest]; subst.
  destruct (items_of manifest t) as [|i matching]; [congruence|]; simpl.
  apply IH; exact Hrest.
Qed.

Lemma validation_fails manifest perType types (s : ImportState) :
  (exists t, In t types /\ items_of manifest t = []) ->
  fst (forEach_objectType manifest perType types s) =
  Throw (InvalidArchiveError "Nothing to import").
Proof.
  revert s; induction types as [|t types IH]; intros s (t0 & Hin & Hnone);
    simpl in *; [contradiction|].
  destruct (items_of manifest t) as [|i matching] eqn:Hitems; simpl; auto.
  apply IH; destruct Hin as [->|Hin]; [congruence|].
  exists t0; auto.
Qed.

(** Validation that starts from the empty [Map] of the call. *)
Lemma validation_from_fresh manifest types (s s2 : ImportState) :
  heap s = [[]] ->
  forEach_objectType manifest 0 types s = (Ok tt, s2) ->
  log s2 = log s /\ lastResult s2 = lastResult s /\ length (heap s2) = 1 /\
  deref 0 s2 = validated manifest types /\
  Forall (fun t => items_of manifest t <> []) types.
Proof.
  intros Hheap Hrun.
  pose proof (ArchiveStages.forEach_objectType_frame manifest 0 types s) as HF.
  pose proof (forEach_objectType_result manifest 0 types s) as HV.
  rewrite Hrun in HF, HV; cbv zeta in HF; simpl in HF.
  destruct HF as (Hlog & Hlast & Hlen & _).
  destruct HV as [Hall Hderef]; [rewrite Hheap; simpl; lia|].
  repeat split; auto.
  - rewrite Hlen, Hheap; reflexivity.
  - rewrite Hderef; unfold deref; rewrite Hheap; reflexivity.
Qed.

(** The per-type stage of an import, from a state in which validation has
    set the entry of every requested type: it first waits for the
    workspace directory; and a request with an object that is not a
    telemetry object fails there, with the placeholder error when the
    directory could be created. *)
Lemma import_objects_steps_spec (req : ArchiveImportRequest) r0 (s : ImportState) :
  lastResult s = Some r0 ->
  (forall o, In o (Request.objects req) ->
             Map_get (type o) (deref (progress r0) s) <> None) ->
  let res := import_objects_steps w req r0 s in
  (exists rest,
      log (snd res) = log s ++ Settled (createDir (workspacePath w) false) :: rest) /\
  ((exists o, In o (Request.objects req) /\ type o <> TELEMETRY) ->
   exists e, fst res = Errored e /\
     (createDir_outcome w (workspacePath w) false = Ok tt ->
      e = PlainError "To be implemented")).
Proof.
  intros Hlast Hset; unfold import_objects_steps; cbv zeta.
  set (s3 := record (Settled (createDir (workspacePath w) false)) s).
  destruct (createDir_outcome w (workspacePath w) false) as [[]|e0].
  2:{ split; [exists []; reflexivity|].
      intros _; exists e0; split; [reflexivity | discriminate]. }
  pose proof (Array_map_import_object w req r0 (Request.objects req) s3 Hlast Hset)
    as HA.
  destruct (Array_map (import_object w req) (Request.objects req) s3)
    as [[streams|e] s4].
  - destruct HA as (Hh4 & Hl4 & (calls & Hcalls & Hlog4) & Hall & Hlen & Hsrc).
    destruct (subscribed_all _ (List.map fst streams) s4) as (_ & _ & Hlog4').
    set (s4' := fold_left (fun acc c => record (Subscribed c) acc)
                  (List.map fst streams) s4) in *.
    set (joined := Join.combineLatest (schedule w) (List.map snd streams)).
    destruct (aggregate_all _ "IMPORTING" (fun _ => True) (fst joined) s4')
      as (maps & evs & _ & Hlog5 & _ & _).
    { apply Forall_forall; intros; exact I. }
    set (s5 := fold_left (fun acc results => aggregate "IMPORTING" results acc)
                 (fst joined) s4') in *.
    split.
    + destruct (snd joined); cbn [snd fst].
      * eexists; rewrite Hlog5, Hlog4', Hlog4; unfold s3, record; cbn [log].
        rewrite <- !app_assoc; reflexivity.
      * eexists; unfold observe, record; cbn [log].
        rewrite Hlog5, Hlog4', Hlog4; unfold s3, record; cbn [log].
        rewrite <- !app_assoc; reflexivity.
    + intros (o & Hin & Hne); exfalso; apply Hne.
      rewrite Forall_forall in Hall; apply Hall; exact Hin.
  - destruct HA as (_ & _ & (calls & _ & Hlog4) & He & _).
    split.
    + eexists; simpl; rewrite Hlog4; unfold s3, record; simpl.
      rewrite <- !app_assoc; reflexivity.
    + intros _; exists e; split; [reflexivity | intros _; exact He].
Qed.

End Events.
End ArchiveFacts.

(** ** [ArchiveServiceImpl]: the claims *)
Module ArchiveClaims.
Import Archive ArchiveFacts.

(** C5: for every export or import request whose list of objects is empty,
    the call fails with the request-validation error
    ([InvalidRequestError]) and performs no I/O: neither the call nor the
    subscription logs a single collaborator call, so in particular no
    workspace directory is created. *)
Theorem C5_empty_request_rejected w (req : Request.t) :
  Request.objects req = [] ->
  fst (run_export w req) = Errored (InvalidRequestError "No archive objects to export") /\
  log (snd (export_ w req)) = [] /\
  log (snd (run_export w req)) = [] /\
  fst (run_import w req) = Errored (InvalidRequestError "No archive objects to export") /\
  log (snd (import_ w req)) = [] /\
  log (snd (run_import w req)) = [].
Proof.
  intros Hempty.
  unfold run_export, run_import, export_, import_; rewrite Hempty; simpl.
  repeat split; reflexivity.
Qed.

Lemma C5_witness :
  Request.objects (Examples.request []) = [] /\
  fst (run_import Examples.world_ok (Examples.request [])) =
  Errored (InvalidRequestError "No archive objects to export").
Proof.
  split; [reflexivity|].
  apply (C5_empty_request_rejected Examples.world_ok (Examples.request []));
    reflexivity.
Defined.

(** The early ends of an import. *)
Lemma import_unzip_fails w (req : Request.t) e :
  Request.objects req <> [] ->
  unzip_outcome w (Some (Request.filePath req)) (workspacePath w) = Some e ->
  let u := unzip (Some (Request.filePath req)) (workspacePath w) in
  fst (run_import w req) = Errored e /\
  log (snd (run_import w req)) =
  [ Called (createDir (workspacePath w) false); Called u; Settled u ].
Proof.
  intros Hne Hunzip.
  rewrite ArchiveStages.run_import_steps; unfold import_steps.
  destruct (Request.objects req) as [|o objs]; [congruence|].
  cbv zeta; rewrite Hunzip; split; reflexivity.
Qed.

Lemma import_read_fails w (req : Request.t) e :
  Request.objects req <> [] ->
  unzip_outcome w (Some (Request.filePath req)) (workspacePath w) = None ->
  readAsText_outcome w (workspacePath w) "manifest.json" = Throw e ->
  let r0 := {| task := ""; progress := 0;
               filePath := Some (Request.filePath req) |} in
  let u := unzip (Some (Request.filePath req)) (workspacePath w) in
  let read := readAsText (workspacePath w) "manifest.json" in
  fst (run_import w req) = Errored e /\
  log (snd (run_import w req)) =
  [ Called (createDir (workspacePath w) false);
    Called u; Settled u; Emitted (retask r0 "EXTRACTING") [];
    Called read; Settled read ].
Proof.
  intros Hne Hunzip Hread.
  rewrite ArchiveStages.run_import_steps; unfold import_steps.
  destruct (Request.objects req) as [|o objs]; [congruence|].
  cbv zeta; rewrite Hunzip, Hread; split; reflexivity.
Qed.

Lemma import_unparsable w (req : Request.t) text :
  Request.objects req <> [] ->
  unzip_outcome w (Some (Request.filePath req)) (workspacePath w) = None ->
  readAsText_outcome w (workspacePath w) "manifest.json" = Ok text ->
  JSON_parse w text = None ->
  let r0 := {| task := ""; progress := 0;
               filePath := Some (Request.filePath req) |} in
  let u := unzip (Some (Request.filePath req)) (workspacePath w) in
  let read := readAsText (workspacePath w) "manifest.json" in
  fst (run_import w req) = Errored (InvalidArchiveError "Invalid manfiest.json") /\
  log (snd (run_import w req)) =
  [ Called (createDir (workspacePath w) false);
    Called u; Settled u; Emitted (retask r0 "EXTRACTING") [];
    Called read; Settled read ].
Proof.
  intros Hne Hunzip Hread Hparse.
  rewrite ArchiveStages.run_import_steps; unfold import_steps.
  destruct (Request.objects req) as [|o objs]; [congruence|].
  cbv zeta; rewrite Hunzip, Hread, Hparse.
  split; reflexivity.
Qed.

Lemma import_nothing w (req : Request.t) text manifest :
  unzip_outcome w (Some (Request.filePath req)) (workspacePath w) = None ->
  readAsText_outcome w (workspacePath w) "manifest.json" = Ok text ->
  JSON_parse w text = Some (with_items manifest) ->
  (exists o, In o (Request.objects req) /\ items_of manifest (type o) = []) ->
  let r0 := {| task := ""; progress := 0;
               filePath := Some (Request.filePath req) |} in
  let u := unzip (Some (Request.filePath req)) (workspacePath w) in
  let read := readAsText (workspacePath w) "manifest.json" in
  fst (run_import w req) = Errored (InvalidArchiveError "Nothing to import") /\
  log (snd (run_import w req)) =
  [ Called (createDir (workspacePath w) false);
    Called u; Settled u; Emitted (retask r0 "EXTRACTING") [];
    Called read; Settled read ].
Proof.
  intros Hunzip Hread Hparse (o & Hin & Hnone).
  rewrite ArchiveStages.run_import_steps; unfold import_steps.
  destruct (Request.objects req) as [|o0 objs] eqn:Hobjs; [contradiction|].
  cbv zeta; rewrite Hunzip, Hread, Hparse.
  match goal with
  | |- context [forEach_objectType ?m ?r ?t ?s] =>
      pose proof (validation_fails m r t s) as HV;
      pose proof (ArchiveStages.forEach_objectType_frame m r t s) as HF;
      destruct (forEach_objectType m r t s) as [res s2]
  end.
  simpl in HV; rewrite HV.
  - cbv zeta in HF; simpl in HF; destruct HF as (Hlog & _).
    split; [reflexivity | simpl; rewrite Hlog; reflexivity].
  - exists (type o); split; [exact (in_map type _ _ Hin) | exact Hnone].
Qed.

Lemma import_without_items w (req : Request.t) text message :
  Request.objects req <> [] ->
  unzip_outcome w (Some (Request.filePath req)) (workspacePath w) = None ->
  readAsText_outcome w (workspacePath w) "manifest.json" = Ok text ->
  JSON_parse w text = Some (without_items message) ->
  let r0 := {| task := ""; progress := 0;
               filePath := Some (Request.filePath req) |} in
  let u := unzip (Some (Request.filePath req)) (workspacePath w) in
  let read := readAsText (workspacePath w) "manifest.json" in
  fst (run_import w req) = Errored (TypeError message) /\
  log (snd (run_import w req)) =
  [ Called (createDir (workspacePath w) false);
    Called u; Settled u; Emitted (retask r0 "EXTRACTING") [];
    Called read; Settled read ].
Proof.
  intros Hne Hunzip Hread Hparse.
  rewrite ArchiveStages.run_import_steps; unfold import_steps.
  destruct (Request.objects req) as [|o objs]; [congruence|].
  cbv zeta; rewrite Hunzip, Hread, Hparse.
  split; reflexivity.
Qed.

(** C7: for every import whose manifest file is read but is not parseable
    as JSON, the pipeline fails with the archive-integrity error
    ([InvalidArchiveError], message 'Invalid manfiest.json') and nothing
    later happens: the log ends with the manifest read, so no delegate is
    called and no [IMPORTING] or [COMPLETE] snapshot is delivered. *)
Theorem C7_unparsable_manifest w (req : Request.t) text :
  Request.objects req <> [] ->
  unzip_outcome w (Some (Request.filePath req)) (workspacePath w) = None ->
  readAsText_outcome w (workspacePath w) "manifest.json" = Ok text ->
  JSON_parse w text = None ->
  let r0 := {| task := ""; progress := 0;
               filePath := Some (Request.filePath req) |} in
  let u := unzip (Some (Request.filePath req)) (workspacePath w) in
  let read := readAsText (workspacePath w) "manifest.json" in
  fst (run_import w req) = Errored (InvalidArchiveError "Invalid manfiest.json") /\
  log (snd (run_import w req)) =
  [ Called (createDir (workspacePath w) false);
    Called u; Settled u; Emitted (retask r0 "EXTRACTING") [];
    Called read; Settled read ].
Proof. exact (import_unparsable w req text). Qed.

Lemma C7_witness :
  fst (run_import Examples.world_bad_json (Examples.request [TELEMETRY])) =
  Errored (InvalidArchiveError "Invalid manfiest.json").
Proof.
  apply (C7_unparsable_manifest Examples.world_bad_json
           (Examples.request [TELEMETRY]) "{manifest}");
    [discriminate | reflexivity | reflexivity | reflexivity].
Defined.

(** C8, which the code meets only when the parsed manifest has an
    [archive.items] array.  Whenever some requested type has no matching
    item in what [JSON.parse] returned, the import fails right after the
    manifest was read and nothing later happens.  For a value with an
    [archive.items] array the error is the archive-integrity error
    ([InvalidArchiveError], message 'Nothing to import').  For any other
    parsed value, which lists no item at all, it is the [TypeError] that
    [manifest.archive.items.filter] raises, not an archive-integrity
    error. *)
Theorem C8_nothing_to_import_needs_items_array w (req : Request.t) text parsed :
  unzip_outcome w (Some (Request.filePath req)) (workspacePath w) = None ->
  readAsText_outcome w (workspacePath w) "manifest.json" = Ok text ->
  JSON_parse w text = Some parsed ->
  (exists o, In o (Request.objects req) /\
             filter (fun i => type_eqb (objectType i) (type o)) (listed parsed) = []) ->
  let r0 := {| task := ""; progress := 0;
               filePath := Some (Request.filePath req) |} in
  let u := unzip (Some (Request.filePath req)) (workspacePath w) in
  let read := readAsText (workspacePath w) "manifest.json" in
  fst (run_import w req) =
  Errored (match parsed with
           | with_items _ => InvalidArchiveError "Nothing to import"
           | without_items message => TypeError message
           end) /\
  log (snd (run_import w req)) =
  [ Called (createDir (workspacePath w) false);
    Called u; Settled u; Emitted (retask r0 "EXTRACTING") [];
    Called read; Settled read ].
Proof.
  intros Hunzip Hread Hparse Hnone.
  destruct parsed as [manifest | message].
  - exact (import_nothing w req text manifest Hunzip Hread Hparse Hnone).
  - assert (Hne : Request.objects req <> []).
    { destruct Hnone as (o & Hin & _); intros Hnil; rewrite Hnil in Hin;
        contradiction. }
    exact (import_without_items w req text message Hne Hunzip Hread Hparse).
Qed.

Lemma C8_witness :
  fst (run_import Examples.world_no_items (Examples.request [TELEMETRY])) =
  Errored (TypeError "Cannot read property 'items' of undefined") /\
  fst (run_import Examples.world_empty_manifest (Examples.request [TELEMETRY])) =
  Errored (InvalidArchiveError "Nothing to import").
Proof.
  split.
  - apply (C8_nothing_to_import_needs_items_array Examples.world_no_items
             (Examples.request [TELEMETRY]) "{manifest}"
             (without_items "Cannot read property 'items' of undefined"));
      [reflexivity | reflexivity | reflexivity |].
    exists {| type := TELEMETRY |}; split; [left; reflexivity | reflexivity].
  - apply (C8_nothing_to_import_needs_items_array Examples.world_empty_manifest
             (Examples.request [TELEMETRY]) "{manifest}"
             (with_items Examples.manifest_empty));
      [reflexivity | reflexivity | reflexivity |].
    exists {| type := TELEMETRY |}; split; [left; reflexivity | reflexivity].
Defined.

(** What an import has done once validation has succeeded, and what it
    goes on with. *)
Lemma import_validated w (req : Request.t) text manifest :
  Request.objects req <> [] ->
  unzip_outcome w (Some (Request.filePath req)) (workspacePath w) = None ->
  readAsText_outcome w (workspacePath w) "manifest.json" = Ok text ->
  JSON_parse w text = Some (with_items manifest) ->
  Forall (fun o => items_of manifest (type o) <> []) (Request.objects req) ->
  let r0 := {| task := ""; progress := 0;
               filePath := Some (Request.filePath req) |} in
  let u := unzip (Some (Request.filePath req)) (workspacePath w) in
  let read := readAsText (workspacePath w) "manifest.json" in
  let types := List.map type (Request.objects req) in
  exists s,
    run_import w req = import_objects_steps w req r0 s /\
    lastResult s = Some r0 /\
    deref 0 s = validated manifest types /\
    log s =
    [ Called (createDir (workspacePath w) false);
      Called u; Settled u; Emitted (retask r0 "EXTRACTING") [];
      Called read; Settled read;
      Emitted (retask r0 "VALIDATING") (validated manifest types) ].
Proof.
  intros Hne Hunzip Hread Hparse Hitems.
  rewrite ArchiveStages.run_import_steps; unfold import_steps.
  destruct (Request.objects req) as [|o objs] eqn:Hobjs; [congruence|].
  cbv zeta; rewrite Hunzip, Hread, Hparse.
  match goal with
  | |- context [forEach_objectType ?m ?r ?t ?s] =>
      pose proof (validation_succeeds m r t s) as HV;
      pose proof (validation_from_fresh m t s) as HF;
      destruct (forEach_objectType m r t s) as [res s2]
  end.
  assert (Hres : res = Ok tt) by (apply HV, Forall_map; exact Hitems).
  subst res.
  destruct (HF s2 eq_refl eq_refl) as (Hlog & Hlast & Hlen & Hderef & _).
  eexists; split; [reflexivity|].
  split; [exact Hlast|].
  split; [exact Hderef|].
  unfold observe, record; cbn [log progress retask].
  rewrite Hlog, Hderef; reflexivity.
Qed.

(** C1, which the code does not meet: [import] calls [createDir] when it
    is called, but it waits for the directory only in its third stage.
    Whenever unpacking and validation succeed, the archive has been
    unpacked into the workspace and the manifest has been read from it
    before the outcome of [createDir] reaches the pipeline. *)
Theorem C1_workspace_awaited_after_validation w (req : Request.t) text manifest :
  Request.objects req <> [] ->
  unzip_outcome w (Some (Request.filePath req)) (workspacePath w) = None ->
  readAsText_outcome w (workspacePath w) "manifest.json" = Ok text ->
  JSON_parse w text = Some (with_items manifest) ->
  Forall (fun o => items_of manifest (type o) <> []) (Request.objects req) ->
  let r0 := {| task := ""; progress := 0;
               filePath := Some (Request.filePath req) |} in
  let mkdir := createDir (workspacePath w) false in
  let u := unzip (Some (Request.filePath req)) (workspacePath w) in
  let read := readAsText (workspacePath w) "manifest.json" in
  let types := List.map type (Request.objects req) in
  exists rest,
    log (snd (run_import w req)) =
    [ Called mkdir;
      Called u; Settled u; Emitted (retask r0 "EXTRACTING") [];
      Called read; Settled read;
      Emitted (retask r0 "VALIDATING") (validated manifest types);
      Settled mkdir ] ++ rest.
Proof.
  intros Hne Hunzip Hread Hparse Hitems; cbv zeta.
  destruct (import_validated w req text manifest Hne Hunzip Hread Hparse Hitems)
    as (s & Hrun & Hlast & Hderef & Hlog).
  rewrite Hrun.
  destruct (import_objects_steps_spec w req _ s Hlast) as [(rest & Hrest) _].
  - intros o Hin; cbn [progress]; rewrite Hderef, validated_get;
      [discriminate | apply in_map; exact Hin].
  - exists rest; rewrite Hrest, Hlog; reflexivity.
Qed.

Lemma C1_witness :
  exists rest,
    log (snd (run_import Examples.world_ok (Examples.request [TELEMETRY]))) =
    [ Called (createDir "file:///cache/4f1c" false);
      Called (unzip (Some "file:///downloads/archive.zip") "file:///cache/4f1c");
      Settled (unzip (Some "file:///downloads/archive.zip") "file:///cache/4f1c");
      Emitted {| task := "EXTRACTING"; progress := 0;
                 filePath := Some "file:///downloads/archive.zip" |} [];
      Called (readAsText "file:///cache/4f1c" "manifest.json");
      Settled (readAsText "file:///cache/4f1c" "manifest.json");
      Emitted {| task := "VALIDATING"; progress := 0;
                 filePath := Some "file:///downloads/archive.zip" |}
        [(TELEMETRY, initialising [Examples.item1; Examples.item2])];
      Settled (createDir "file:///cache/4f1c" false) ] ++ rest.
Proof.
  apply (C1_workspace_awaited_after_validation Examples.world_ok
           (Examples.request [TELEMETRY]) "{manifest}" Examples.manifest_ok);
    [discriminate | reflexivity | reflexivity | reflexivity |].
  repeat constructor; discriminate.
Defined.

(** *** Requests for a type without delegate *)

Lemma export_unsupported w (req : Request.t) :
  (exists o, In o (Request.objects req) /\ type o <> TELEMETRY) ->
  exists e, fst (run_export w req) = Errored e /\
    (createDir_outcome w (workspacePath w) false = Ok tt ->
     e = PlainError "To be implemented").
Proof.
  intros (o & Hin & Hne).
  rewrite ArchiveStages.run_export_steps; unfold export_steps.
  destruct (Request.objects req) as [|o0 objs] eqn:Hobjs; [contradiction|].
  cbv zeta.
  destruct (createDir_outcome w (workspacePath w) false) as [[]|e0].
  2:{ exists e0; split; [reflexivity | discriminate]. }
  match goal with
  | |- context [Array_map ?f ?l ?s] =>
      pose proof (Array_map_export_object w req l s) as HA;
      destruct (Array_map f l s) as [[streams|e] s1]
  end.
  - destruct HA as (_ & _ & _ & Hall & _).
    exfalso; apply Hne; rewrite Forall_forall in Hall; apply Hall; exact Hin.
  - destruct HA as (_ & _ & _ & He & _).
    exists e; split; [reflexivity | intros _; exact He].
Qed.

Lemma items_decide manifest (objs : list ArchiveObject) :
  Forall (fun o => items_of manifest (type o) <> []) objs \/
  exists o, In o objs /\ items_of manifest (type o) = [].
Proof.
  induction objs as [|o objs [IH | (o' & Hin & Hnone)]].
  - left; constructor.
  - destruct (items_of manifest (type o)) as [|i l] eqn:Hitems.
    + right; exists o; split; [left; reflexivity | exact Hitems].
    + left; constructor; [rewrite Hitems; discriminate | exact IH].
  - right; exists o'; split; [right; exact Hin | exact Hnone].
Qed.

Lemma import_unsupported w (req : Request.t) :
  (exists o, In o (Request.objects req) /\ type o <> TELEMETRY) ->
  exists e, fst (run_import w req) = Errored e /\
    (forall text manifest,
        unzip_outcome w (Some (Request.filePath req)) (workspacePath w) = None ->
        readAsText_outcome w (workspacePath w) "manifest.json" = Ok text ->
        JSON_parse w text = Some (with_items manifest) ->
        Forall (fun o => items_of manifest (type o) <> []) (Request.objects req) ->
        createDir_outcome w (workspacePath w) false = Ok tt ->
        e = PlainError "To be implemented").
Proof.
  intros Hother.
  assert (Hne : Request.objects req <> []).
  { destruct Hother as (o & Hin & _); intros Hnil; rewrite Hnil in Hin;
      contradiction. }
  destruct (unzip_outcome w (Some (Request.filePath req)) (workspacePath w))
    as [e|] eqn:Hunzip.
  { exists e; split; [apply (import_unzip_fails w req e Hne Hunzip)|].
    intros; discriminate. }
  destruct (readAsText_outcome w (workspacePath w) "manifest.json")
    as [text|e] eqn:Hread.
  2:{ exists e; split; [apply (import_read_fails w req e Hne Hunzip Hread)|].
      intros; discriminate. }
  destruct (JSON_parse w text) as [[manifest|message]|] eqn:Hparse.
  3:{ eexists; split;
        [apply (import_unparsable w req text Hne Hunzip Hread Hparse)|].
      intros text' manifest' _ Htext' Hparse'.
      inversion Htext'; subst text'; congruence. }
  2:{ eexists; split;
        [apply (import_without_items w req text message Hne Hunzip Hread Hparse)|].
      intros text' manifest' _ Htext' Hparse'.
      inversion Htext'; subst text'; congruence. }
  destruct (items_decide manifest (Request.objects req)) as [Hitems | Hnone].
  2:{ eexists; split;
        [apply (import_nothing w req text manifest Hunzip Hread Hparse Hnone)|].
      intros text' manifest' _ Htext' Hparse' Hitems'.
      inversion Htext'; subst text'.
      rewrite Hparse in Hparse'; inversion Hparse'; subst manifest'.
      destruct Hnone as (o & Hin & Hnone).
      rewrite Forall_forall in Hitems'; exfalso.
      exact (Hitems' o Hin Hnone). }
  destruct (import_validated w req text manifest Hne Hunzip Hread Hparse Hitems)
    as (s & Hrun & Hlast & Hderef & Hlog).
  rewrite Hrun.
  destruct (import_objects_steps_spec w req _ s Hlast) as [_ Hfails].
  - intros o Hin; cbn [progress]; rewrite Hderef, validated_get;
      [discriminate | apply in_map; exact Hin].
  - destruct (Hfails Hother) as (e & He & Hplain).
    exists e; split; [exact He|].
    intros _ _ _ _ _ _ Hmkdir; exact (Hplain Hmkdir).
Qed.

Lemma never_subscribed_export w (req : Request.t) c :
  (exists o, In o (Request.objects req) /\ type o <> TELEMETRY) ->
  ~ In (Subscribed c) (log (snd (run_export w req))).
Proof.
  intros (o & Hin & Hne) Hsub.
  pose proof (export_events w req) as Hev; cbv zeta in Hev.
  rewrite Forall_forall in Hev; specialize (Hev _ Hsub); simpl in Hev.
  rewrite Forall_forall in Hev; exact (Hne (Hev o Hin)).
Qed.

Lemma never_subscribed_import w (req : Request.t) c :
  (exists o, In o (Request.objects req) /\ type o <> TELEMETRY) ->
  ~ In (Subscribed c) (log (snd (run_import w req))).
Proof.
  intros (o & Hin & Hne) Hsub.
  pose proof (import_events w req) as Hev.
  rewrite Forall_forall in Hev; specialize (Hev _ Hsub); simpl in Hev.
  rewrite Forall_forall in Hev; exact (Hne (Hev o Hin)).
Qed.

(** C2, as the code has it: a request that names a type other than
    telemetry always fails, on export and on import, and the failure
    arrives on the error channel of the returned stream.  When everything
    before the work list succeeds the error is the plain
    [Error('To be implemented')], the same for CONTENT and for PROFILE;
    it is thrown while the work list is formed, so that no delegate
    stream is ever subscribed. *)
Theorem C2_unsupported_type_fails w (req : Request.t) :
  (exists o, In o (Request.objects req) /\ type o <> TELEMETRY) ->
  (exists e, fst (run_export w req) = Errored e /\
     (createDir_outcome w (workspacePath w) false = Ok tt ->
      e = PlainError "To be implemented")) /\
  (forall c, ~ In (Subscribed c) (log (snd (run_export w req)))) /\
  (exists e, fst (run_import w req) = Errored e /\
     (forall text manifest,
         unzip_outcome w (Some (Request.filePath req)) (workspacePath w) = None ->
         readAsText_outcome w (workspacePath w) "manifest.json" = Ok text ->
         JSON_parse w text = Some (with_items manifest) ->
         Forall (fun o => items_of manifest (type o) <> []) (Request.objects req) ->
         createDir_outcome w (workspacePath w) false = Ok tt ->
         e = PlainError "To be implemented")) /\
  (forall c, ~ In (Subscribed c) (log (snd (run_import w req)))).
Proof.
  intros Hother; repeat split.
  - exact (export_unsupported w req Hother).
  - intros c; exact (never_subscribed_export w req c Hother).
  - exact (import_unsupported w req Hother).
  - intros c; exact (never_subscribed_import w req c Hother).
Qed.

Lemma C2_witness :
  exists e,
    fst (run_export Examples.world_ok (Examples.request [TELEMETRY; PROFILE])) =
    Errored e /\
    (createDir_outcome Examples.world_ok (workspacePath Examples.world_ok) false = Ok tt ->
     e = PlainError "To be implemented").
Proof.
  apply (C2_unsupported_type_fails Examples.world_ok
           (Examples.request [TELEMETRY; PROFILE])).
  exists {| type := PROFILE |}; split;
    [right; left; reflexivity | discriminate].
Defined.

(** C2 as the specification words it fails: exporting CONTENT fails with
    the plain [Error('To be implemented')], which is not an error of a
    class of its own and does not name the type (PROFILE gets the very
    same error); and with a telemetry object ahead of it, the delegate's
    stream has been obtained when the error is thrown, and is never
    subscribed. *)
Lemma C2_counterexample :
  fst (run_export Examples.world_ok (Examples.request [CONTENT])) =
  Errored (PlainError "To be implemented") /\
  fst (run_export Examples.world_ok (Examples.request [PROFILE])) =
  Errored (PlainError "To be implemented") /\
  ~ NotSupported_naming CONTENT (PlainError "To be implemented") /\
  log (snd (run_export Examples.world_ok (Examples.request [TELEMETRY; CONTENT]))) =
  [ Called (createDir "file:///cache/4f1c" false);
    Settled (createDir "file:///cache/4f1c" false);
    Called (telemetryExport "file:///downloads/archive.zip" "file:///cache/4f1c") ].
Proof.
  repeat split.
  intros [Hname _]; discriminate.
Qed.

(** *** Snapshots and their keys *)

Lemma validated_keys manifest types :
  keys_exactly types (validated manifest types).
Proof.
  unfold validated.
  destruct (Map_of_keys _
              (List.map (fun t => (t, initialising (items_of manifest t))) types)
              [] (NoDup_nil _)) as [Hnd Hin].
  split; [exact Hnd|].
  intros t; rewrite Hin, map_map; simpl; rewrite map_id; intuition.
Qed.

(** C4, as the code has it: every snapshot an export delivers has a
    per-type [Map] whose keys are exactly the requested types, each once;
    so has every snapshot an import delivers from [VALIDATING] on
    ([VALIDATING], [IMPORTING], [COMPLETE]); the [EXTRACTING] snapshot of
    an import shows an empty [Map] when it is delivered. *)
Theorem C4_snapshot_keys w (req : Request.t) :
  let types := List.map type (Request.objects req) in
  (forall p view,
      In (Emitted p view) (log (snd (run_export w req))) ->
      keys_exactly types view) /\
  (forall p view,
      In (Emitted p view) (log (snd (run_import w req))) ->
      (task p = "EXTRACTING" /\ view = []) \/
      (task p <> "EXTRACTING" /\ keys_exactly types view)).
Proof.
  cbv zeta; split; intros p view Hin.
  - pose proof (export_events w req) as Hev; cbv zeta in Hev.
    rewrite Forall_forall in Hev; exact (Hev _ Hin).
  - pose proof (import_events w req) as Hev.
    rewrite Forall_forall in Hev; specialize (Hev _ Hin); simpl in Hev.
    destruct Hev as [[-> ->] | [(text & manifest & _ & _ & _ & -> & Hp)
                               | (aggregated & -> & _ & Hkeys)]].
    + left; split; reflexivity.
    + right; split; [|apply validated_keys].
      destruct Hp as [-> | ->]; discriminate.
    + right; split; [discriminate | exact Hkeys].
Qed.

Lemma C4_witness :
  keys_exactly [TELEMETRY]
    [(TELEMETRY, initialising [Examples.item1; Examples.item2])].
Proof.
  destruct (proj2 (C4_snapshot_keys Examples.world_ok
                     (Examples.request [TELEMETRY]))
              {| task := "COMPLETE"; progress := 0;
                 filePath := Some "file:///downloads/archive.zip" |}
              [(TELEMETRY, initialising [Examples.item1; Examples.item2])])
    as [[Htask _] | [_ Hkeys]].
  - vm_compute; auto 20.
  - discriminate Htask.
  - exact Hkeys.
Defined.

(** C4 as the specification words it fails: the first snapshot of an
    import of telemetry, [EXTRACTING], is delivered with an empty [Map],
    whose keys are not the requested types. *)
Lemma C4_counterexample :
  In (Emitted {| task := "EXTRACTING"; progress := 0;
                 filePath := Some "file:///downloads/archive.zip" |} [])
    (log (snd (run_import Examples.world_ok (Examples.request [TELEMETRY])))) /\
  ~ keys_exactly
      (List.map type (Request.objects (Examples.request [TELEMETRY])))
      (@nil (ArchiveObjectType * ArchiveObjectImportProgress.t)).
Proof.
  split.
  - vm_compute; auto 20.
  - intros [_ Hkeys]; apply (Hkeys TELEMETRY); left; reflexivity.
Qed.

(** *** The manifest *)

Lemma flattenedItems_concat entries :
  flattenedItems entries =
  List.concat
    (List.map (fun entry => ArchiveObjectExportProgress.completed (snd entry))
       entries).
Proof.
  unfold flattenedItems.
  assert (H : forall acc,
             fold_left (fun acc0 entry =>
                          acc0 ++ ArchiveObjectExportProgress.completed (snd entry))
               entries acc =
             acc ++ List.concat
                      (List.map (fun entry =>
                                   ArchiveObjectExportProgress.completed (snd entry))
                         entries)).
  { induction entries as [|entry entries IH]; intros acc; simpl.
    - rewrite app_nil_r; reflexivity.
    - rewrite IH, app_assoc; reflexivity. }
  apply (H []).
Qed.

(** C6: every manifest an export writes goes to [manifest.json] in the
    workspace and is the serialisation of a manifest stamped with the
    fixed id and version, whose items are the completed items of the
    entries of the aggregation kept in [lastResult] (one entry per
    requested type), entry after entry and in the order of each entry,
    and whose count is the number of these items. *)
Theorem C6_manifest_written w (req : Request.t) path fileName data replace :
  In (Called (writeFile path fileName data replace))
    (log (snd (run_export w req))) ->
  path = workspacePath w /\ fileName = "manifest.json" /\ replace = true /\
  exists r manifest,
    lastResult (snd (run_export w req)) = Some r /\
    keys_exactly (List.map type (Request.objects req))
      (deref (progress r) (snd (run_export w req))) /\
    data = JSON_stringify w manifest /\
    id manifest = "sunbird.data.archive" /\
    ver manifest = "1.0" /\
    items (archive manifest) =
    List.concat
      (List.map (fun entry => ArchiveObjectExportProgress.completed (snd entry))
         (deref (progress r) (snd (run_export w req)))) /\
    count (archive manifest) = Z.of_nat (length (items (archive manifest))).
Proof.
  intros Hin.
  pose proof (export_events w req) as Hev; cbv zeta in Hev.
  rewrite Forall_forall in Hev; specialize (Hev _ Hin); simpl in Hev.
  destruct Hev as (-> & -> & -> & pd & r & Hlast & Hkeys & ->).
  repeat split.
  exists r, (manifest_of w pd
               (flattenedItems (deref (progress r) (snd (run_export w req))))).
  split; [exact Hlast|]; split; [exact Hkeys|].
  split; [reflexivity|]; split; [reflexivity|]; split; [reflexivity|].
  split; [apply flattenedItems_concat | reflexivity].
Qed.

Lemma C6_witness :
  exists r manifest,
    lastResult (snd (run_export Examples.world_ok (Examples.request [TELEMETRY]))) =
    Some r /\
    JSON_stringify Examples.world_ok Examples.manifest_ok =
    JSON_stringify Examples.world_ok manifest /\
    items (archive manifest) =
    List.concat
      (List.map (fun entry => ArchiveObjectExportProgress.completed (snd entry))
         (deref (progress r)
            (snd (run_export Examples.world_ok (Examples.request [TELEMETRY]))))).
Proof.
  destruct (C6_manifest_written Examples.world_ok (Examples.request [TELEMETRY])
              (workspacePath Examples.world_ok) "manifest.json"
              (JSON_stringify Examples.world_ok Examples.manifest_ok) true)
    as (_ & _ & _ & r & manifest & Hlast & _ & Hdata & _ & _ & Hitems & _).
  - vm_compute; auto 20.
  - exists r, manifest; auto.
Defined.

(** *** The [COMPLETE] snapshot of an import *)

(** C9: the [COMPLETE] snapshot of an import is [{...lastResult, task:
    'COMPLETE'}] for the value [lastResult] had when [import] was called,
    so it refers to the [Map] allocated by the call.  What it shows is
    that [Map] as validation has left it (every requested type set to
    [INITIALISING] with the manifest's items of that type pending), the
    same as the [VALIDATING] snapshot; every [IMPORTING] snapshot refers
    to another [Map], so what the delegates report is not in it. *)
Theorem C9_complete_snapshot_is_captured w (req : Request.t) p view :
  In (Emitted p view) (log (snd (run_import w req))) ->
  task p = "COMPLETE" ->
  let types := List.map type (Request.objects req) in
  (exists captured,
      lastResult (snd (import_ w req)) = Some captured /\
      p = retask captured "COMPLETE") /\
  (exists text manifest,
      readAsText_outcome w (workspacePath w) "manifest.json" = Ok text /\
      JSON_parse w text = Some (with_items manifest) /\
      view = validated manifest types /\
      (forall t, In t types ->
                 Map_get t view = Some (initialising (items_of manifest t))) /\
      In (Emitted (retask p "VALIDATING") view) (log (snd (run_import w req)))) /\
  (forall q view',
      In (Emitted q view') (log (snd (run_import w req))) ->
      task q = "IMPORTING" -> progress q <> progress p).
Proof.
  intros Hin Htask; cbv zeta.
  assert (Hne : Request.objects req <> []).
  { intros Hnil; rewrite ArchiveStages.run_import_steps in Hin.
    unfold import_steps in Hin; rewrite Hnil in Hin; exact Hin. }
  pose proof (import_events w req) as Hev; rewrite Forall_forall in Hev.
  pose proof (Hev _ Hin) as Hp; simpl in Hp.
  destruct Hp as [[-> _] | [(text & manifest & Hread & Hparse & Hitems & -> & Hp)
                           | (aggregated & -> & _)]];
    try discriminate Htask.
  destruct Hp as [-> | ->]; [discriminate Htask|].
  split; [|split].
  - eexists; split; [|reflexivity].
    unfold import_; destruct (Request.objects req); [congruence | reflexivity].
  - exists text, manifest.
    split; [exact Hread|]; split; [exact Hparse|]; split; [reflexivity|].
    split; [intros t Ht; apply validated_get; exact Ht|].
    assert (Hunzip : unzip_outcome w (Some (Request.filePath req))
                       (workspacePath w) = None).
    { destruct (unzip_outcome w (Some (Request.filePath req)) (workspacePath w))
        as [e|] eqn:Hu; [|reflexivity].
      destruct (import_unzip_fails w req e Hne Hu) as [_ Hlog].
      rewrite Hlog in Hin; simpl in Hin.
      destruct Hin as [H|[H|[H|[]]]]; discriminate H. }
    assert (Hitems' : Forall (fun o => items_of manifest (type o) <> [])
                        (Request.objects req))
      by exact (proj1 (Forall_map type
                         (fun t => items_of manifest t <> []) _) Hitems).
    destruct (import_validated w req text manifest Hne Hunzip Hread Hparse Hitems')
      as (s & Hrun & Hlast & Hderef & Hlog).
    destruct (import_objects_steps_spec w req _ s Hlast) as [(rest & Hrest) _].
    + intros o Ho; cbn [progress]; rewrite Hderef, validated_get;
        [discriminate | apply in_map; exact Ho].
    + rewrite Hrun, Hrest, Hlog; simpl; auto 20.
  - intros q view' Hq Hqtask.
    pose proof (Hev _ Hq) as Hq'; simpl in Hq'.
    destruct Hq' as [[-> _] | [(_ & _ & _ & _ & _ & _ & [-> | ->])
                              | (aggregated & -> & Hpos & _)]];
      try discriminate Hqtask.
    simpl; lia.
Qed.

Lemma C9_witness :
  exists captured,
    lastResult (snd (import_ Examples.world_ok (Examples.request [TELEMETRY]))) =
    Some captured /\
    {| task := "COMPLETE"; progress := 0;
       filePath := Some "file:///downloads/archive.zip" |} =
    retask captured "COMPLETE".
Proof.
  apply (C9_complete_snapshot_is_captured Examples.world_ok
           (Examples.request [TELEMETRY])
           {| task := "COMPLETE"; progress := 0;
              filePath := Some "file:///downloads/archive.zip" |}
           [(TELEMETRY, initialising [Examples.item1; Examples.item2])]).
  - vm_compute; auto 20.
  - reflexivity.
Defined.

(** C3, which the code does not meet: an export of telemetry followed by
    the import of what it has written, in a world where every collaborator
    succeeds.  Both complete, and the manifest read back is the manifest
    written.  The import delegate's last report (task
    [OBJECT_IMPORT_COMPLETE], for the manifest's two items) is in the last
    [IMPORTING] snapshot and in [lastResult]; the [COMPLETE] snapshot that
    ends the stream shows instead the entry validation has set: task
    [INITIALISING], the manifest's items still pending. *)
Theorem C3_roundtrip_complete_snapshot_is_stale :
  let w := Examples.world_ok in
  let req := Examples.request [TELEMETRY] in
  let exported := run_export w req in
  let imported := run_import w req in
  fst exported = Completed /\
  In (Called (writeFile (workspacePath w) "manifest.json"
                (JSON_stringify w Examples.manifest_ok) true))
    (log (snd exported)) /\
  readAsText_outcome w (workspacePath w) "manifest.json" =
  Ok (JSON_stringify w Examples.manifest_ok) /\
  JSON_parse w (JSON_stringify w Examples.manifest_ok) =
  Some (with_items Examples.manifest_ok) /\
  fst imported = Completed /\
  lastResult (snd imported) =
  Some {| task := "IMPORTING"; progress := 2; filePath := None |} /\
  deref 2 (snd imported) =
  [(TELEMETRY,
    {| ArchiveObjectImportProgress.task := "OBJECT_IMPORT_COMPLETE";
       ArchiveObjectImportProgress.pending :=
         items (archive Examples.manifest_ok) |})] /\
  last (log (snd imported)) (Called buildContext) =
  Emitted {| task := "COMPLETE"; progress := 0;
             filePath := Some "file:///downloads/archive.zip" |}
    [(TELEMETRY,
      {| ArchiveObjectImportProgress.task := "INITIALISING";
         ArchiveObjectImportProgress.pending :=
           items (archive Examples.manifest_ok) |})].
Proof.
  cbv zeta; repeat split; try reflexivity.
  vm_compute; auto 20.
Qed.

End ArchiveClaims.

(* ================================================================== *)
(** ** The archive service, run by run

    The lemmas of this part give the log of a run in full: what a
    completed export or import has done, in which order, and where a
    failing one has stopped. *)
Module ArchiveTraces.
Import Archive ArchiveShapes ArchiveFacts.

Section Reducer.
Variable V : Type.

Lemma Map_get_Map_of t (results : list (ArchiveObjectType * V)) start :
  Map_get t (Map_of results start) =
  fold_left (fun acc r => if type_eqb t (fst r) then Some (snd r) else acc)
    results (Map_get t start).
Proof.
  revert start; induction results as [|[k v] results IH]; intros start.
  - reflexivity.
  - unfold Map_of in *; simpl; rewrite IH; f_equal.
    destruct (type_eqb t k) eqn:E.
    + apply type_eqb_eq in E; subst k; apply Map_get_set_same.
    + apply Map_get_set_other; intros ->; rewrite type_eqb_refl in E; discriminate.
Qed.

Lemma Map_keys_Map_set k (v : V) m :
  Map_keys (Map_set k v m) =
  if existsb (type_eqb k) (Map_keys m) then Map_keys m else Map_keys m ++ [k].
Proof.
  unfold Map_keys; induction m as [|[k0 v0] m IH]; simpl.
  - reflexivity.
  - destruct (type_eqb k k0) eqn:E; simpl.
    + apply type_eqb_eq in E; subst k0; reflexivity.
    + rewrite IH.
      destruct (existsb (type_eqb k) (List.map fst m)); reflexivity.
Qed.

Lemma Map_keys_Map_of (results : list (ArchiveObjectType * V)) start :
  Map_keys (Map_of results start) =
  fold_left (fun acc t => if existsb (type_eqb t) acc then acc else acc ++ [t])
    (List.map fst results) (Map_keys start).
Proof.
  revert start; induction results as [|[k v] results IH]; intros start.
  - reflexivity.
  - unfold Map_of in *; simpl; rewrite IH, Map_keys_Map_set; reflexivity.
Qed.

Lemma nth_pred_last {X} (l : list X) d : nth (pred (length l)) l d = last l d.
Proof.
  induction l as [|x [|y l] IH]; try reflexivity.
  exact IH.
Qed.

Lemma snapshots_app task_ start (a b : list (list (ArchiveObjectType * V))) :
  snapshots task_ start (a ++ b) =
  snapshots task_ start a ++ snapshots task_ (start + length a) b.
Proof.
  revert start; induction a as [|x a IH]; intros start; simpl.
  - rewrite Nat.add_0_r; reflexivity.
  - rewrite IH; do 3 f_equal; lia.
Qed.

(** Aggregating joint reports, in full: one fresh [Map] and one snapshot
    per report, and [lastResult] left on the snapshot of the last. *)
Lemma aggregate_trace task_ (arrays : list (list (ArchiveObjectType * V)))
  (s : State V) :
  let s' := fold_left (fun acc results => aggregate task_ results acc) arrays s in
  heap s' = heap s ++ List.map (fun results => Map_of results []) arrays /\
  log s' = log s ++ snapshots task_ (length (heap s)) arrays /\
  lastResult s' =
    (match arrays with
     | [] => lastResult s
     | _ :: _ =>
         Some {| task := task_;
                 progress := length (heap s) + pred (length arrays);
                 filePath := None |}
     end).
Proof.
  revert s; induction arrays as [|a arrays IH]; intros s; simpl.
  - rewrite !app_nil_r; auto.
  - set (s1 := aggregate task_ a s).
    assert (Hheap1 : heap s1 = heap s ++ [Map_of a []]) by reflexivity.
    assert (Hlog1 : log s1 = log s ++
              [Emitted {| task := task_; progress := length (heap s);
                          filePath := None |} (Map_of a [])]).
    { unfold s1, aggregate, reduceObjectProgress, alloc, observe, record,
        assign, deref; simpl.
      rewrite nth_middle; reflexivity. }
    assert (Hlast1 : lastResult s1 =
              Some {| task := task_; progress := length (heap s);
                      filePath := None |}) by reflexivity.
    destruct (IH s1) as (Hheap & Hlog & Hlast).
    split; [rewrite Hheap, Hheap1, <- app_assoc; reflexivity|].
    split.
    + rewrite Hlog, Hlog1, Hheap1, length_app, <- app_assoc; simpl.
      rewrite Nat.add_1_r; reflexivity.
    + rewrite Hlast, Hlast1, Hheap1, length_app; simpl.
      destruct arrays; [rewrite Nat.add_0_r; reflexivity|].
      simpl; do 2 f_equal; lia.
Qed.

Lemma snapshots_tasks task_ start (arrays : list (list (ArchiveObjectType * V))) :
  Forall (fun ev => exists r m,
              ev = Emitted {| task := task_; progress := r; filePath := None |} m)
    (snapshots task_ start arrays).
Proof.
  revert start; induction arrays as [|a arrays IH]; intros start; simpl.
  - constructor.
  - constructor; [eexists _, _; reflexivity | apply IH].
Qed.

End Reducer.

(** *** Delegates that complete without a report *)
Section Silent.
Variable A : Type.
Variable Q : Join.Notification A -> Prop.

Lemma take_at_all i pending n pending' :
  Forall (Forall Q) pending ->
  Join.take_at i pending = Some (n, pending') ->
  Q n /\ Forall (Forall Q) pending'.
Proof.
  revert i n pending'; induction pending as [|p rest IH];
    intros i n pending' Hall Htake; simpl in Htake; try discriminate.
  apply Forall_cons_iff in Hall; destruct Hall as [Hp Hrest].
  destruct i as [|j].
  - destruct p as [|m ms]; try discriminate.
    inversion Htake; subst; clear Htake.
    apply Forall_cons_iff in Hp; destruct Hp; auto.
  - destruct (Join.take_at j rest) as [[m rest']|] eqn:E; try discriminate.
    inversion Htake; subst; clear Htake.
    destruct (IH _ _ _ Hrest E); auto.
Qed.

Lemma deliver_all schedule pending :
  Forall (Forall Q) pending ->
  Forall (fun ev => Q (snd ev)) (Join.deliver schedule pending).
Proof.
  revert pending; induction schedule as [|i later IH]; intros pending Hall;
    simpl; auto.
  destruct (Join.take_at i pending) as [[n pending']|] eqn:E; auto.
  destruct (take_at_all _ _ _ _ Hall E); auto.
Qed.

End Silent.

Lemma combine_silent {A} (events : list (nat * Join.Notification A)) latest
  completed :
  Forall (fun ev => snd ev = Join.C) events ->
  Join.combine events latest completed = ([], Completed).
Proof.
  revert completed; induction events as [|[i n] events IH];
    intros completed Hall; simpl.
  - reflexivity.
  - inversion Hall as [|? ? Hn Hrest]; subst; simpl in Hn; subst n.
    destruct (forallb (fun b => b) (Join.put i true completed)); auto.
Qed.

(** Whatever the schedule, joining streams that complete without a
    value delivers nothing and completes. *)
Lemma combineLatest_silent {A} schedule n :
  Join.combineLatest schedule (@repeat (Source A) ([], None) n) = ([], None).
Proof.
  unfold Join.combineLatest, Join.interleave.
  rewrite combine_silent; [reflexivity|].
  apply (deliver_all A (fun m => m = Join.C)).
  apply Forall_forall; intros p Hp.
  apply in_map_iff in Hp; destruct Hp as (src & <- & Hsrc).
  apply repeat_spec in Hsrc; subst src.
  repeat constructor.
Qed.

Section Lists.
Variable X : Type.
Variable P : X -> Prop.

(** An element that stands out can only be where the others end. *)
Lemma only_last (pre0 : list X) (final : X) pre ev post :
  Forall (fun x => ~ P x) pre0 ->
  P ev ->
  pre ++ ev :: post = pre0 ++ [final] ->
  post = [] /\ ev = final.
Proof.
  intros Hpre0 Hev; revert pre.
  induction Hpre0 as [|y pre0 Hy _ IH]; intros pre Heq.
  - destruct pre as [|x pre]; simpl in Heq.
    + inversion Heq; auto.
    + inversion Heq as [[Hx Hrest]]; destruct pre; discriminate.
  - destruct pre as [|x pre]; simpl in Heq; inversion Heq; subst.
    + contradiction.
    + apply (IH pre); assumption.
Qed.

Lemma Exists_last (pre : list X) (final : X) :
  P final -> Exists P (pre ++ [final]).
Proof. intros H; apply Exists_app; right; constructor; exact H. Qed.

Lemma Forall_not_Exists (l : list X) :
  Forall (fun x => ~ P x) l -> ~ Exists P l.
Proof.
  intros Hall Hex; apply Exists_exists in Hex; destruct Hex as (x & Hin & Hx).
  rewrite Forall_forall in Hall; exact (Hall x Hin Hx).
Qed.

End Lists.

Lemma closing_of_completes {V} (ev : Event V) : completes ev -> closing ev.
Proof. destruct ev as [[]| | |]; simpl; auto. Qed.

Lemma quiet_not_completes {V} (l : list (Event V)) :
  Forall (fun ev => ~ closing ev) l -> Forall (fun ev => ~ completes ev) l.
Proof.
  apply Forall_impl; intros ev H Hc; exact (H (closing_of_completes ev Hc)).
Qed.

(** The reducer: a fresh [Map] is stored, nothing else changes; the
    [Map] has the reported types in the order of their first report and
    holds for each the last value reported. *)
Lemma reduce_spec {V} (results : list (ArchiveObjectType * V)) (s : State V) :
  let (ref, s') := reduceObjectProgress results s in
  ref = length (heap s) /\
  heap s' = heap s ++ [deref ref s'] /\
  log s' = log s /\ lastResult s' = lastResult s /\
  Map_keys (deref ref s') = first_occurrences (List.map fst results) /\
  forall t, Map_get t (deref ref s') = last_report t results.
Proof.
  unfold reduceObjectProgress, alloc.
  assert (Hderef : deref (length (heap s))
                     {| heap := heap s ++ [Map_of results []]; log := log s;
                        lastResult := lastResult s |} = Map_of results [])
    by (unfold deref; simpl; apply nth_middle).
  rewrite Hderef; simpl.
  repeat split; auto.
  - apply (Map_keys_Map_of V results []).
  - intros t; apply (Map_get_Map_of V t results []).
Qed.

Section Runs.
Variable w : World.

(** The [objects.map] of [export]: the delegate is called once for each
    object up to the first that is not telemetry. *)
Lemma Array_map_export_cases (req : ArchiveExportRequest) objs (s : ExportState) :
  let c := telemetryExport (Request.filePath req) (workspacePath w) in
  exists n s',
    heap s' = heap s /\ lastResult s' = lastResult s /\
    log s' = log s ++ repeat (Called c) n /\
    ((Forall (fun o => type o = TELEMETRY) objs /\ n = length objs /\
      Array_map (export_object w req) objs s =
      (Ok (repeat (c, export_stream w req) n), s')) \/
     ((exists o, nth_error objs n = Some o /\ type o <> TELEMETRY) /\
      Forall (fun o => type o = TELEMETRY) (firstn n objs) /\
      Array_map (export_object w req) objs s =
      (Throw (PlainError "To be implemented"), s'))).
Proof.
  cbv zeta; revert s; induction objs as [|o objs IH]; intros s.
  - exists 0, s; simpl; rewrite app_nil_r.
    repeat split; auto; left; repeat split; auto.
  - destruct (type o) eqn:E.
    1, 2: exists 0, s; simpl; rewrite app_nil_r; repeat split; auto;
      right; (split; [exists o; split; [reflexivity | congruence]|]);
      (split; [constructor|]);
      unfold export_object; rewrite E; reflexivity.
    set (c := telemetryExport (Request.filePath req) (workspacePath w)).
    destruct (IH (record (Called c) s)) as (n & s' & Hh & Hl & Hlog & Hcases).
    exists (S n), s'.
    split; [exact Hh|]; split; [exact Hl|].
    split; [rewrite Hlog; simpl; rewrite <- app_assoc; reflexivity|].
    assert (Hstep : export_object w req o s =
                    (Ok (c, export_stream w req), record (Called c) s))
      by (unfold export_object; rewrite E; reflexivity).
    destruct Hcases as [(Hall & Hn & Heq) | (Hn & Hfirst & Heq)]; [left | right].
    + split; [constructor; assumption|].
      split; [simpl; congruence|].
      simpl; rewrite Hstep; fold c; rewrite Heq; reflexivity.
    + split; [exact Hn|].
      split; [simpl; constructor; assumption|].
      simpl; rewrite Hstep; fold c; rewrite Heq; reflexivity.
Qed.

(** The [objects.map] of [import], in a state whose [Map] holds [entry]
    for telemetry. *)
Lemma Array_map_import_cases (req : ArchiveImportRequest) r entry objs
  (s : ImportState) :
  lastResult s = Some r ->
  (In TELEMETRY (List.map type objs) ->
   Map_get TELEMETRY (deref (progress r) s) = Some entry) ->
  let pending_ := ArchiveObjectImportProgress.pending entry in
  let c := telemetryImport (Request.filePath req) (workspacePath w) pending_ in
  exists n s',
    heap s' = heap s /\ lastResult s' = lastResult s /\
    log s' = log s ++ repeat (Called c) n /\
    ((Forall (fun o => type o = TELEMETRY) objs /\ n = length objs /\
      Array_map (import_object w req) objs s =
      (Ok (repeat (c, import_stream w req pending_) n), s')) \/
     ((exists o, nth_error objs n = Some o /\ type o <> TELEMETRY) /\
      Forall (fun o => type o = TELEMETRY) (firstn n objs) /\
      Array_map (import_object w req) objs s =
      (Throw (PlainError "To be implemented"), s'))).
Proof.
  cbv zeta; revert s; induction objs as [|o objs IH]; intros s Hlast Hentry.
  - exists 0, s; simpl; rewrite app_nil_r.
    repeat split; auto; left; repeat split; auto.
  - destruct (type o) eqn:E.
    1, 2: exists 0, s; simpl; rewrite app_nil_r; repeat split; auto;
      right; (split; [exists o; split; [reflexivity | congruence]|]);
      (split; [constructor|]);
      unfold import_object; rewrite E; reflexivity.
    set (c := telemetryImport (Request.filePath req) (workspacePath w)
                (ArchiveObjectImportProgress.pending entry)).
    assert (Hget : Map_get TELEMETRY (deref (progress r) s) = Some entry)
      by (apply Hentry; simpl; left; exact E).
    destruct (IH (record (Called c) s)) as (n & s' & Hh & Hl & Hlog & Hcases);
      [exact Hlast | intros _; exact Hget |].
    exists (S n), s'.
    split; [exact Hh|]; split; [exact Hl|].
    split; [rewrite Hlog; simpl; rewrite <- app_assoc; reflexivity|].
    assert (Hstep : import_object w req o s =
                    (Ok (c, import_stream w req
                              (ArchiveObjectImportProgress.pending entry)),
                     record (Called c) s))
      by (unfold import_object; rewrite E, Hlast; simpl; rewrite Hget;
          reflexivity).
    destruct Hcases as [(Hall & Hn & Heq) | (Hn & Hfirst & Heq)]; [left | right].
    + split; [constructor; assumption|].
      split; [simpl; congruence|].
      simpl; rewrite Hstep; fold c; rewrite Heq; reflexivity.
    + split; [exact Hn|].
      split; [simpl; constructor; assumption|].
      simpl; rewrite Hstep; fold c; rewrite Heq; reflexivity.
Qed.

(** The manifest stage, in full: one write per producer context, each
    followed by a [BUILDING_MANIFEST] snapshot, up to the first write that
    fails. *)
Lemma feed_manifest_trace r contexts (s : ExportState) :
  let view := deref (progress r) s in
  match Rx.feed (manifest_step w r) contexts s with
  | (None, s') =>
      heap s' = heap s /\ lastResult s' = lastResult s /\
      log s' = log s ++ flat_map (manifest_written w (progress r) view) contexts
  | (Some e, s') =>
      heap s' = heap s /\ lastResult s' = lastResult s /\
      exists written c rest,
        contexts = written ++ c :: rest /\
        writeFile_outcome w (workspacePath w) "manifest.json"
          (JSON_stringify w (manifest_of w (pdata c) (flattenedItems view)))
          true = Throw e /\
        log s' = log s ++ flat_map (manifest_written w (progress r) view) written
                 ++ [Called (manifest_write w view c);
                     Settled (manifest_write w view c)]
  end.
Proof.
  cbv zeta; revert s; induction contexts as [|c contexts IH]; intros s; simpl.
  - rewrite app_nil_r; auto.
  - set (view := deref (progress r) s).
    set (data := JSON_stringify w (manifest_of w (pdata c) (flattenedItems view))).
    assert (Hstep : manifest_step w r c s =
              match writeFile_outcome w (workspacePath w) "manifest.json" data
                      true with
              | Ok _ =>
                  (None,
                   observe {| task := "BUILDING_MANIFEST";
                              progress := progress r;
                              filePath := None |}
                     (answered (manifest_write w view c) s))
              | Throw e => (Some e, answered (manifest_write w view c) s)
              end) by reflexivity.
    rewrite Hstep; clear Hstep.
    destruct (writeFile_outcome w (workspacePath w) "manifest.json" data true)
      as [[]|e] eqn:Hwrite.
    + match goal with
      | |- context [Rx.feed _ contexts ?s1] =>
          specialize (IH s1);
          change (deref (progress r) s1) with view in IH;
          change (heap s1) with (heap s) in IH;
          change (lastResult s1) with (lastResult s) in IH;
          change (log s1) with
            (((log s ++ [Called (manifest_write w view c)])
                ++ [Settled (manifest_write w view c)])
               ++ [Emitted {| task := "BUILDING_MANIFEST"; progress := progress r;
                              filePath := None |} view]) in IH;
          destruct (Rx.feed (manifest_step w r) contexts s1) as [[e|] s']
      end.
      * destruct IH as (Hh & Hl & written & c' & rest & Hsplit & Hfail & Hlog).
        split; [exact Hh|]; split; [exact Hl|].
        exists (c :: written), c', rest.
        split; [rewrite Hsplit; reflexivity|].
        split; [exact Hfail|].
        rewrite Hlog; simpl; rewrite <- !app_assoc; reflexivity.
      * destruct IH as (Hh & Hl & Hlog).
        split; [exact Hh|]; split; [exact Hl|].
        rewrite Hlog; simpl; rewrite <- !app_assoc; reflexivity.
    + split; [reflexivity|]; split; [reflexivity|].
      exists [], c, contexts.
      split; [reflexivity|]; split; [exact Hwrite|].
      unfold answered, record; simpl; rewrite <- app_assoc; reflexivity.
Qed.

Lemma quiet_repeat {V} (ev : Event V) n :
  ~ closing ev -> Forall (fun ev => ~ closing ev) (repeat ev n).
Proof.
  intros Hev; apply Forall_forall; intros x Hx.
  apply repeat_spec in Hx; subst x; exact Hev.
Qed.

Lemma quiet_snapshots {V} task_ start
  (arrays : list (list (ArchiveObjectType * V))) :
  task_ <> "COMPLETE" ->
  Forall (fun ev => ~ closing ev) (snapshots task_ start arrays).
Proof.
  intros Htask; eapply Forall_impl; [|apply snapshots_tasks].
  intros ev (r & m & ->); exact Htask.
Qed.

Lemma quiet_manifests perType view contexts :
  Forall (fun ev => ~ closing ev)
    (flat_map (manifest_written w perType view) contexts).
Proof.
  induction contexts as [|c contexts IH]; simpl.
  - constructor.
  - constructor; [intros []|].
    constructor; [intros []|].
    constructor; [simpl; discriminate | exact IH].
Qed.

Ltac quiet :=
  repeat first
    [ apply Forall_app; split
    | apply Forall_cons
    | apply Forall_nil
    | apply quiet_repeat
    | (apply quiet_snapshots; discriminate)
    | apply quiet_manifests
    | (simpl; discriminate)
    | (intros []) ].

(** An export, in full: either it completes, and then its log is the one
    below, or it fails, and then no [COMPLETE] snapshot was delivered. *)
Lemma export_trace (req : ArchiveExportRequest) :
  Request.objects req <> [] ->
  let n := length (Request.objects req) in
  let c := telemetryExport (Request.filePath req) (workspacePath w) in
  let mkdir := createDir (workspacePath w) false in
  let z := zip (workspacePath w) (zipFilePath w) in
  let reports := fst (export_reports w req) in
  let sealed := pred (length reports) in
  let view := Map_of (last reports []) [] in
  let res := run_export w req in
  (fst res = Completed /\
   Forall (fun o => type o = TELEMETRY) (Request.objects req) /\
   reports <> [] /\
   zip_outcome w (workspacePath w) (zipFilePath w) = None /\
   heap (snd res) = List.map (fun results => Map_of results []) reports /\
   lastResult (snd res) =
     Some {| task := "BUILDING"; progress := sealed; filePath := None |} /\
   log (snd res) =
     [Called mkdir; Settled mkdir] ++
     repeat (Called c) n ++ repeat (Subscribed c) n ++
     snapshots "BUILDING" 0 reports ++
     [Called buildContext; Subscribed buildContext] ++
     flat_map (manifest_written w sealed view) (fst (buildContext_stream w)) ++
     [Called z; Settled z;
      Emitted {| task := "COMPLETE"; progress := sealed;
                 filePath := Some (zipFilePath w) |} view]) \/
  (exists e,
      fst res = Errored e /\
      ((exists rest,
           log (snd res) = [Called mkdir; Settled mkdir] ++ rest /\
           Forall (fun ev => ~ closing ev) rest) \/
       (zip_outcome w (workspacePath w) (zipFilePath w) = Some e /\
        Forall (fun o => type o = TELEMETRY) (Request.objects req) /\
        reports <> [] /\
        log (snd res) =
          [Called mkdir; Settled mkdir] ++
          repeat (Called c) n ++ repeat (Subscribed c) n ++
          snapshots "BUILDING" 0 reports ++
          [Called buildContext; Subscribed buildContext] ++
          flat_map (manifest_written w sealed view) (fst (buildContext_stream w)) ++
          [Called z; Settled z]))).
Proof.
  intros Hne; cbv zeta.
  set (res := run_export w req).
  assert (Hres : res = export_steps w req)
    by apply ArchiveStages.run_export_steps.
  clearbody res; unfold export_steps in Hres; unfold export_reports.
  destruct (Request.objects req) as [|o objs] eqn:Hobjs; [congruence|].
  cbv beta iota zeta in Hres; rewrite <- Hobjs in *; clear Hne Hobjs o objs.
  set (mkdir := createDir (workspacePath w) false) in *.
  set (c := telemetryExport (Request.filePath req) (workspacePath w)).
  set (z := zip (workspacePath w) (zipFilePath w)) in *.
  set (s0 := answered mkdir (initial ArchiveObjectExportProgress.t)) in *.
  assert (Hlog0 : log s0 = [Called mkdir; Settled mkdir]) by reflexivity.
  destruct (createDir_outcome w (workspacePath w) false) as [[]|e].
  2: { right; exists e; rewrite Hres; split; [reflexivity|].
       left; exists []; split; [reflexivity | constructor]. }
  destruct (Array_map_export_cases req (Request.objects req) s0)
    as (n & s1 & Hh1 & Hl1 & Hlog1 & [(Hall & Hn & Heq) | (Hn & _ & Heq)]);
    fold c in Hlog1, Heq; rewrite Heq in Hres; clear Heq.
  2: { right; exists (PlainError "To be implemented"); rewrite Hres.
       split; [reflexivity|]; left; exists (repeat (Called c) n).
       simpl; rewrite Hlog1, Hlog0.
       split; [reflexivity | apply quiet_repeat; intros []]. }
  subst n; rewrite !map_repeat in Hres; cbn [fst snd] in Hres.
  set (n := length (Request.objects req)) in *.
  set (joined := Join.combineLatest (schedule w) (repeat (export_stream w req) n))
    in *.
  clearbody joined.
  pose proof (subscribed_all _ (repeat c n) s1) as Hsub; cbv zeta in Hsub.
  set (s1' := fold_left (fun acc c => record (Subscribed c) acc) (repeat c n) s1)
    in *.
  destruct Hsub as (Hh1' & Hl1' & Hlog1'); rewrite map_repeat in Hlog1'.
  pose proof (aggregate_trace _ "BUILDING" (fst joined) s1') as Hagg;
    cbv zeta in Hagg.
  set (s2 := fold_left (fun acc results => aggregate "BUILDING" results acc)
               (fst joined) s1') in *.
  destruct Hagg as (Hh2 & Hlog2 & Hlast2).
  assert (Hheap1' : heap s1' = []) by (rewrite Hh1', Hh1; reflexivity).
  rewrite Hheap1' in Hh2, Hlog2, Hlast2; simpl in Hh2, Hlog2, Hlast2.
  assert (Hlog2' : log s2 =
            [Called mkdir; Settled mkdir] ++ repeat (Called c) n ++
            repeat (Subscribed c) n ++ snapshots "BUILDING" 0 (fst joined))
    by (rewrite Hlog2, Hlog1', Hlog1, Hlog0, <- !app_assoc; reflexivity).
  clear Hlog2 Hlog1' Hlog1.
  assert (Hlast0 : lastResult s1' = None) by (rewrite Hl1', Hl1; reflexivity).
  clearbody s2 s1'.
  destruct (snd joined) as [e|].
  { right; exists e; rewrite Hres; split; [reflexivity|].
    left; eexists; split; [exact Hlog2'|]; quiet. }
  set (r := {| task := "BUILDING"; progress := pred (length (fst joined));
               filePath := None |}).
  assert (Hcases : (fst joined = [] /\ lastResult s2 = None) \/
                   (fst joined <> [] /\ lastResult s2 = Some r)).
  { unfold r; destruct (fst joined);
      [left; split; [reflexivity | congruence]
      | right; split; [discriminate | exact Hlast2]]. }
  clear Hlast2; destruct Hcases as [(Hnone & Hlast2) | (Hsome & Hlast2)];
    rewrite Hlast2 in Hres.
  { right; eexists; rewrite Hres; split; [reflexivity|].
    left; eexists; split; [exact Hlog2'|]; quiet. }
  set (view := Map_of (last (fst joined) []) []).
  set (s2' := record (Subscribed buildContext) (record (Called buildContext) s2))
    in *.
  assert (Hview : deref (progress r) s2' = view).
  { unfold deref; change (heap s2') with (heap s2); rewrite Hh2; simpl progress.
    unfold view; rewrite <- nth_pred_last.
    exact (map_nth (fun results => Map_of results []) (fst joined) []
             (pred (length (fst joined)))). }
  assert (Hlog2'' : log s2' = log s2 ++ [Called buildContext; Subscribed buildContext])
    by (unfold s2', record; simpl; rewrite <- app_assoc; reflexivity).
  pose proof (feed_manifest_trace r (fst (buildContext_stream w)) s2') as Hfeed.
  cbv zeta in Hfeed; rewrite Hview in Hfeed.
  change (heap s2') with (heap s2) in Hfeed.
  change (lastResult s2') with (lastResult s2) in Hfeed.
  clearbody s2'.
  destruct (Rx.feed (manifest_step w r) (fst (buildContext_stream w)) s2')
    as [[e|] s3].
  { destruct Hfeed as (_ & _ & written & c' & rest & _ & _ & Hlog3).
    right; exists e; rewrite Hres; split; [reflexivity|].
    left; eexists; split.
    - cbn [snd]; rewrite Hlog3, Hlog2'', Hlog2', <- !app_assoc; reflexivity.
    - quiet. }
  destruct Hfeed as (Hh3 & Hl3 & Hlog3).
  assert (Hlog3' : log s3 =
            [Called mkdir; Settled mkdir] ++ repeat (Called c) n ++
            repeat (Subscribed c) n ++ snapshots "BUILDING" 0 (fst joined) ++
            [Called buildContext; Subscribed buildContext] ++
            flat_map (manifest_written w (progress r) view)
              (fst (buildContext_stream w)))
    by (rewrite Hlog3, Hlog2'', Hlog2', <- !app_assoc; reflexivity).
  clear Hlog3 Hlog2'' Hlog2'.
  destruct (snd (buildContext_stream w)) as [e|].
  { right; exists e; rewrite Hres; split; [reflexivity|].
    left; eexists; split; [exact Hlog3'|]; quiet. }
  rewrite Hl3, Hlast2 in Hres.
  destruct (zip_outcome w (workspacePath w) (zipFilePath w)) as [e|].
  { right; exists e; rewrite Hres; split; [reflexivity|].
    right; split; [reflexivity|]; split; [exact Hall|]; split; [exact Hsome|].
    unfold answered, record; cbn [snd log]; rewrite Hlog3', <- !app_assoc.
    reflexivity. }
  left; rewrite Hres.
  split; [reflexivity|]; split; [exact Hall|]; split; [exact Hsome|].
  split; [reflexivity|].
  split; [cbn [snd]; unfold observe, answered, record; cbn [heap];
          rewrite Hh3; exact Hh2|].
  split; [cbn [snd]; unfold observe, answered, record; cbn [lastResult];
          rewrite Hl3; exact Hlast2|].
  assert (Hfinal : deref (progress r) (answered z s3) = view).
  { unfold deref, answered, record; cbn [heap]; rewrite Hh3, Hh2.
    simpl progress; unfold view; rewrite <- nth_pred_last.
    exact (map_nth (fun results => Map_of results []) (fst joined) []
             (pred (length (fst joined)))). }
  cbn [snd]; unfold observe; cbn [progress]; fold (progress r).
  rewrite Hfinal; unfold answered, record; cbn [log].
  rewrite Hlog3', <- !app_assoc; reflexivity.
Qed.

(** The per-type stage of an import and what follows it, in full. *)
Lemma import_objects_trace (req : ArchiveImportRequest) r0 entry
  (s : ImportState) :
  lastResult s = Some r0 ->
  progress r0 < length (heap s) ->
  (In TELEMETRY (List.map type (Request.objects req)) ->
   Map_get TELEMETRY (deref (progress r0) s) = Some entry) ->
  let pending_ := ArchiveObjectImportProgress.pending entry in
  let n := length (Request.objects req) in
  let c := telemetryImport (Request.filePath req) (workspacePath w) pending_ in
  let mkdir := createDir (workspacePath w) false in
  let reports := fst (import_reports w req pending_) in
  let res := import_objects_steps w req r0 s in
  (fst res = Completed /\
   Forall (fun o => type o = TELEMETRY) (Request.objects req) /\
   heap (snd res) = heap s ++ List.map (fun results => Map_of results []) reports /\
   log (snd res) =
     log s ++ [Settled mkdir] ++
     repeat (Called c) n ++ repeat (Subscribed c) n ++
     snapshots "IMPORTING" (length (heap s)) reports ++
     [Emitted (retask r0 "COMPLETE") (deref (progress r0) s)]) \/
  (exists e rest,
      fst res = Errored e /\
      log (snd res) = log s ++ [Settled mkdir] ++ rest /\
      Forall (fun ev => ~ closing ev) rest).
Proof.
  intros Hlast Hr0 Hentry; cbv zeta.
  set (res := import_objects_steps w req r0 s).
  assert (Hres : res = import_objects_steps w req r0 s) by reflexivity.
  clearbody res; unfold import_objects_steps in Hres; unfold import_reports.
  cbv beta iota zeta in Hres.
  set (mkdir := createDir (workspacePath w) false) in *.
  set (c := telemetryImport (Request.filePath req) (workspacePath w)
              (ArchiveObjectImportProgress.pending entry)).
  set (s3 := record (Settled mkdir) s) in *.
  assert (Hlog3 : log s3 = log s ++ [Settled mkdir]) by reflexivity.
  destruct (createDir_outcome w (workspacePath w) false) as [[]|e].
  2: { right; exists e, []; rewrite Hres; repeat split; auto. }
  destruct (Array_map_import_cases req r0 entry (Request.objects req) s3 Hlast
              Hentry)
    as (n & s4 & Hh4 & Hl4 & Hlog4 & [(Hall & Hn & Heq) | (Hn & _ & Heq)]);
    fold c in Hlog4, Heq; rewrite Heq in Hres; clear Heq.
  2: { right; exists (PlainError "To be implemented"), (repeat (Called c) n).
       rewrite Hres; simpl; rewrite Hlog4, Hlog3, <- app_assoc.
       repeat split; auto; apply quiet_repeat; intros []. }
  subst n; rewrite !map_repeat in Hres; cbn [fst snd] in Hres.
  set (n := length (Request.objects req)) in *.
  set (joined := Join.combineLatest (schedule w)
                   (repeat (import_stream w req
                              (ArchiveObjectImportProgress.pending entry)) n))
    in *.
  clearbody joined.
  pose proof (subscribed_all _ (repeat c n) s4) as Hsub; cbv zeta in Hsub.
  set (s4' := fold_left (fun acc c => record (Subscribed c) acc) (repeat c n) s4)
    in *.
  destruct Hsub as (Hh4' & Hl4' & Hlog4'); rewrite map_repeat in Hlog4'.
  pose proof (aggregate_trace _ "IMPORTING" (fst joined) s4') as Hagg;
    cbv zeta in Hagg.
  set (s5 := fold_left (fun acc results => aggregate "IMPORTING" results acc)
               (fst joined) s4') in *.
  destruct Hagg as (Hh5 & Hlog5 & _).
  assert (Hheap4' : heap s4' = heap s) by (rewrite Hh4', Hh4; reflexivity).
  rewrite Hheap4' in Hh5, Hlog5.
  assert (Hlog5' : log s5 =
            log s ++ [Settled mkdir] ++ repeat (Called c) n ++
            repeat (Subscribed c) n ++
            snapshots "IMPORTING" (length (heap s)) (fst joined))
    by (rewrite Hlog5, Hlog4', Hlog4, Hlog3, <- !app_assoc; reflexivity).
  clear Hlog5 Hlog4' Hlog4.
  clearbody s5 s4'.
  destruct (snd joined) as [e|].
  { right; eexists e, _; rewrite Hres.
    split; [reflexivity|]; split; [exact Hlog5'|]; quiet. }
  left; rewrite Hres.
  split; [reflexivity|]; split; [exact Hall|].
  split; [exact Hh5|].
  cbn [snd]; unfold observe, record; cbn [log progress retask].
  assert (Hview : deref (progress r0) s5 = deref (progress r0) s)
    by (unfold deref; rewrite Hh5; apply app_nth1; exact Hr0).
  rewrite Hview, Hlog5', <- !app_assoc; reflexivity.
Qed.

(** The state validation leaves: one [Map], holding the validated
    entries. *)
Lemma import_validated_state (req : Request.t) text manifest :
  Request.objects req <> [] ->
  unzip_outcome w (Some (Request.filePath req)) (workspacePath w) = None ->
  readAsText_outcome w (workspacePath w) "manifest.json" = Ok text ->
  JSON_parse w text = Some (with_items manifest) ->
  Forall (fun o => items_of manifest (type o) <> []) (Request.objects req) ->
  let r0 := {| task := ""; progress := 0;
               filePath := Some (Request.filePath req) |} in
  let u := unzip (Some (Request.filePath req)) (workspacePath w) in
  let read := readAsText (workspacePath w) "manifest.json" in
  let types := List.map type (Request.objects req) in
  exists s,
    run_import w req = import_objects_steps w req r0 s /\
    lastResult s = Some r0 /\
    heap s = [validated manifest types] /\
    log s =
    [ Called (createDir (workspacePath w) false);
      Called u; Settled u; Emitted (retask r0 "EXTRACTING") [];
      Called read; Settled read;
      Emitted (retask r0 "VALIDATING") (validated manifest types) ].
Proof.
  intros Hne Hunzip Hread Hparse Hitems.
  rewrite ArchiveStages.run_import_steps; unfold import_steps.
  destruct (Request.objects req) as [|o objs] eqn:Hobjs; [congruence|].
  cbv zeta; rewrite Hunzip, Hread, Hparse.
  match goal with
  | |- context [forEach_objectType ?m ?r ?t ?s] =>
      pose proof (validation_succeeds m r t s) as HV;
      pose proof (validation_from_fresh m t s) as HF;
      destruct (forEach_objectType m r t s) as [res s2]
  end.
  assert (Hres : res = Ok tt) by (apply HV, Forall_map; exact Hitems).
  subst res.
  destruct (HF s2 eq_refl eq_refl) as (Hlog & Hlast & Hlen & Hderef & _).
  eexists; split; [reflexivity|].
  split; [exact Hlast|].
  split.
  - unfold observe, record; cbn [heap]; unfold deref in Hderef.
    destruct (heap s2) as [|m [|m' l]]; simpl in Hlen, Hderef;
      try discriminate; subst m; reflexivity.
  - unfold observe, record; cbn [log progress retask].
    rewrite Hlog, Hderef; reflexivity.
Qed.

Lemma validated_telemetry manifest (objs : list ArchiveObject) :
  objs <> [] ->
  Forall (fun o => type o = TELEMETRY) objs ->
  validated manifest (List.map type objs) =
  [(TELEMETRY, initialising (items_of manifest TELEMETRY))].
Proof.
  intros Hne Hall; unfold validated.
  destruct objs as [|o objs]; [congruence|].
  inversion Hall as [|? ? Ho Hrest]; subst; simpl; rewrite Ho.
  unfold Map_of; simpl.
  clear Hne Hall Ho; induction Hrest as [|o' objs Ho' _ IH]; simpl.
  - reflexivity.
  - rewrite Ho'; simpl; exact IH.
Qed.

(** An import, in full: either it completes, and then its log is the one
    below, or it fails, and then no [COMPLETE] snapshot was delivered. *)
Lemma import_trace (req : ArchiveImportRequest) :
  Request.objects req <> [] ->
  let r0 := {| task := ""; progress := 0;
               filePath := Some (Request.filePath req) |} in
  let n := length (Request.objects req) in
  let mkdir := createDir (workspacePath w) false in
  let u := unzip (Some (Request.filePath req)) (workspacePath w) in
  let read := readAsText (workspacePath w) "manifest.json" in
  let res := run_import w req in
  (fst res = Completed /\
   exists text manifest,
     readAsText_outcome w (workspacePath w) "manifest.json" = Ok text /\
     JSON_parse w text = Some (with_items manifest) /\
     Forall (fun o => type o = TELEMETRY) (Request.objects req) /\
     let pending_ := items_of manifest TELEMETRY in
     let c := telemetryImport (Request.filePath req) (workspacePath w) pending_ in
     let reports := fst (import_reports w req pending_) in
     let view := [(TELEMETRY, initialising pending_)] in
     pending_ <> [] /\
     heap (snd res) = view :: List.map (fun results => Map_of results []) reports /\
     log (snd res) =
       [ Called mkdir; Called u; Settled u; Emitted (retask r0 "EXTRACTING") [];
         Called read; Settled read; Emitted (retask r0 "VALIDATING") view;
         Settled mkdir ] ++
       repeat (Called c) n ++ repeat (Subscribed c) n ++
       snapshots "IMPORTING" 1 reports ++
       [Emitted (retask r0 "COMPLETE") view]) \/
  (exists e rest,
      fst res = Errored e /\
      log (snd res) = Called mkdir :: rest /\
      Forall (fun ev => ~ closing ev) rest).
Proof.
  intros Hne; cbv zeta.
  set (r0 := {| task := ""; progress := 0;
                filePath := Some (Request.filePath req) |}).
  destruct (unzip_outcome w (Some (Request.filePath req)) (workspacePath w))
    as [e|] eqn:Hunzip.
  { destruct (ArchiveClaims.import_unzip_fails w req e Hne Hunzip) as (He & Hlog).
    right; eexists e, _; split; [exact He|]; split; [exact Hlog|]; quiet. }
  destruct (readAsText_outcome w (workspacePath w) "manifest.json")
    as [text|e] eqn:Hread.
  2: { destruct (ArchiveClaims.import_read_fails w req e Hne Hunzip Hread)
         as (He & Hlog).
       right; eexists e, _; split; [exact He|]; split; [exact Hlog|]; quiet. }
  destruct (JSON_parse w text) as [[manifest|message]|] eqn:Hparse.
  3: { destruct (ArchiveClaims.import_unparsable w req text Hne Hunzip Hread
                   Hparse) as (He & Hlog).
       right; eexists _, _; split; [exact He|]; split; [exact Hlog|]; quiet. }
  2: { destruct (ArchiveClaims.import_without_items w req text message Hne Hunzip
                   Hread Hparse) as (He & Hlog).
       right; eexists _, _; split; [exact He|]; split; [exact Hlog|]; quiet. }
  destruct (ArchiveClaims.items_decide manifest (Request.objects req))
    as [Hitems | Hnone].
  2: { destruct (ArchiveClaims.import_nothing w req text manifest Hunzip Hread
                   Hparse Hnone) as (He & Hlog).
       right; eexists _, _; split; [exact He|]; split; [exact Hlog|]; quiet. }
  destruct (import_validated_state req text manifest Hne Hunzip Hread Hparse
              Hitems) as (s & Hrun & Hlast & Hheap & Hlog).
  fold r0 in Hrun, Hlast, Hlog; rewrite Hrun.
  set (entry := initialising (items_of manifest TELEMETRY)).
  assert (Hr0 : progress r0 < length (heap s)) by (rewrite Hheap; simpl; lia).
  assert (Hentry : In TELEMETRY (List.map type (Request.objects req)) ->
                   Map_get TELEMETRY (deref (progress r0) s) = Some entry)
    by (unfold deref; rewrite Hheap; simpl; apply validated_get).
  destruct (import_objects_trace req r0 entry s Hlast Hr0 Hentry)
    as [(Hc & Hall & Hh & Hl) | (e & rest & He & Hl & Hq)].
  - left; split; [exact Hc|]; exists text, manifest.
    split; [reflexivity|]; split; [exact Hparse|]; split; [exact Hall|].
    cbv zeta.
    rewrite (validated_telemetry manifest (Request.objects req) Hne Hall)
      in Hheap, Hlog.
    split.
    + destruct (Request.objects req) as [|o objs]; [congruence|].
      inversion Hall as [|? ? Ho _]; inversion Hitems as [|? ? Hi _]; subst.
      rewrite Ho in Hi; exact Hi.
    + split.
      * rewrite Hh, Hheap; reflexivity.
      * rewrite Hl, Hlog; unfold deref; rewrite Hheap; reflexivity.
  - right; eexists e, _; split; [exact He|]; split.
    + rewrite Hl, Hlog; reflexivity.
    + quiet; exact Hq.
Qed.

Ltac calm :=
  repeat first
    [ apply Forall_app; split
    | apply Forall_cons
    | apply Forall_nil
    | (apply quiet_not_completes;
       first [ apply quiet_repeat; intros []
             | apply quiet_snapshots; discriminate
             | apply quiet_manifests
             | assumption ])
    | (simpl; discriminate)
    | (intros []) ].

(** Where the [COMPLETE] snapshot of an export stands. *)
Lemma export_complete_last (req : ArchiveExportRequest) :
  Request.objects req <> [] ->
  let res := run_export w req in
  (fst res = Completed /\
   exists pre sealed,
     log (snd res) =
       pre ++ [Emitted {| task := "COMPLETE"; progress := sealed;
                          filePath := Some (zipFilePath w) |}
                 (deref sealed (snd res))] /\
     Forall (fun ev => ~ completes ev) pre) \/
  (exists e, fst res = Errored e /\
             Forall (fun ev => ~ completes ev) (log (snd res))).
Proof.
  intros Hne; cbv zeta.
  destruct (export_trace req Hne)
    as [(Hc & _ & _ & _ & Hheap & _ & Hlog)
       | (e & He & [(rest & Hlog & Hq) | (_ & _ & _ & Hlog)])].
  - left; split; [exact Hc|].
    assert (Hderef : deref (pred (length (fst (export_reports w req))))
                       (snd (run_export w req)) =
                     Map_of (last (fst (export_reports w req)) []) []).
    { unfold deref; rewrite Hheap, <- nth_pred_last.
      exact (map_nth (fun results => Map_of results []) _ [] _). }
    match type of Hlog with
    | _ = ?A ++ ?B ++ ?C ++ ?D ++ ?E ++ ?F ++ [?x; ?y; _] =>
        exists (A ++ B ++ C ++ D ++ E ++ F ++ [x; y]),
          (pred (length (fst (export_reports w req))))
    end.
    split.
    + rewrite Hderef, Hlog, <- !app_assoc; reflexivity.
    + calm.
  - right; exists e; split; [exact He|]; rewrite Hlog; calm.
  - right; exists e; split; [exact He|]; rewrite Hlog; calm.
Qed.

(** Where the [COMPLETE] snapshot of an import stands. *)
Lemma import_complete_last (req : ArchiveImportRequest) :
  Request.objects req <> [] ->
  let res := run_import w req in
  (fst res = Completed /\
   exists pre,
     log (snd res) =
       pre ++ [Emitted {| task := "COMPLETE"; progress := 0;
                          filePath := Some (Request.filePath req) |}
                 (deref 0 (snd res))] /\
     Forall (fun ev => ~ completes ev) pre) \/
  (exists e, fst res = Errored e /\
             Forall (fun ev => ~ completes ev) (log (snd res))).
Proof.
  intros Hne; cbv zeta.
  destruct (import_trace req Hne)
    as [(Hc & text & manifest & _ & _ & _ & _ & Hheap & Hlog)
       | (e & rest & He & Hlog & Hq)].
  - left; split; [exact Hc|].
    match type of Hlog with
    | _ = ?A ++ ?B ++ ?C ++ ?D ++ _ => exists (A ++ B ++ C ++ D)
    end.
    split.
    + unfold deref; rewrite Hheap, Hlog, <- !app_assoc; reflexivity.
    + calm.
  - right; exists e; split; [exact He|]; rewrite Hlog; calm.
Qed.

(** Validation that meets a type without items after [checked]: the
    types before it are set in the [Map], in their order, and stay set. *)
Lemma forEach_objectType_stops manifest checked t rest (s : ImportState) m :
  heap s = [m] ->
  Forall (fun t0 => items_of manifest t0 <> []) checked ->
  items_of manifest t = [] ->
  forEach_objectType manifest 0 (checked ++ t :: rest) s =
  (Throw (InvalidArchiveError "Nothing to import"),
   {| heap := [Map_of (List.map (fun t0 => (t0, initialising (items_of manifest t0)))
                         checked) m];
      log := log s;
      lastResult := lastResult s |}).
Proof.
  intros Hheap Hchecked Hnone; revert s m Hheap.
  induction Hchecked as [|t0 checked Ht0 _ IH]; intros s m Hheap; simpl.
  - rewrite Hnone; simpl; rewrite <- Hheap; destruct s; reflexivity.
  - destruct (items_of manifest t0) as [|i l] eqn:Hitems; [congruence|].
    simpl Nat.eqb; cbv iota.
    rewrite (IH _ (Map_set t0 (initialising (i :: l)) m)).
    + reflexivity.
    + unfold Map_set_at, deref; rewrite Hheap; reflexivity.
Qed.

(** The manifest stage when the write for the context [c] fails and the
    writes for the contexts before it succeed. *)
Lemma feed_manifest_stops r view written c rest (s : ExportState) e :
  deref (progress r) s = view ->
  Forall (fun c0 =>
            writeFile_outcome w (workspacePath w) "manifest.json"
              (JSON_stringify w (manifest_of w (pdata c0) (flattenedItems view)))
              true = Ok tt) written ->
  writeFile_outcome w (workspacePath w) "manifest.json"
    (JSON_stringify w (manifest_of w (pdata c) (flattenedItems view))) true =
  Throw e ->
  exists s',
    Rx.feed (manifest_step w r) (written ++ c :: rest) s = (Some e, s') /\
    log s' = log s ++ flat_map (manifest_written w (progress r) view) written
             ++ [Called (manifest_write w view c);
                 Settled (manifest_write w view c)].
Proof.
  intros Hview Hwritten Hfails; revert s Hview.
  assert (Hstep : forall c0 s, deref (progress r) s = view ->
            manifest_step w r c0 s =
            match writeFile_outcome w (workspacePath w) "manifest.json"
                    (JSON_stringify w
                       (manifest_of w (pdata c0) (flattenedItems view))) true with
            | Ok _ =>
                (None,
                 observe {| task := "BUILDING_MANIFEST"; progress := progress r;
                            filePath := None |}
                   (answered (manifest_write w view c0) s))
            | Throw e0 => (Some e0, answered (manifest_write w view c0) s)
            end)
    by (intros c0 s <-; reflexivity).
  induction Hwritten as [|c0 written Hc0 _ IH]; intros s Hview; simpl.
  - rewrite (Hstep c s Hview), Hfails.
    eexists; split; [reflexivity|].
    unfold answered, record; simpl; rewrite <- app_assoc; reflexivity.
  - rewrite (Hstep c0 s Hview), Hc0.
    match goal with
    | |- context [Rx.feed _ _ ?s1] =>
        destruct (IH s1 Hview) as (s' & Heq & Hlog);
        assert (Hlog1 : log s1 =
                  log s ++ manifest_written w (progress r) view c0)
          by (unfold observe, answered, record; cbn [log progress];
              change (deref (progress r) _) with (deref (progress r) s);
              rewrite Hview, <- !app_assoc; reflexivity)
    end.
    exists s'; split; [exact Heq|].
    rewrite Hlog, Hlog1, <- !app_assoc; reflexivity.
Qed.

End Runs.

End ArchiveTraces.

(* ================================================================== *)
(** ** Further properties of the archive service: whole runs, their
    order and their failures *)
Module ArchiveRuns.
Import Archive ArchiveShapes ArchiveFacts ArchiveTraces.

(** X1: [reduceObjectProgressToArchiveObjectExportProgress] and
    [reduceObjectProgressToArchiveObjectImportProgress] store one fresh
    [Map] and change nothing else.  The [Map] lists the reported types in
    the order of their first report, and under each type it holds the
    last value reported for it: a later report of a type overwrites an
    earlier one, a type never reported is absent. *)
Theorem reduce_last_report_wins
  (exported : list (ArchiveObjectType * ArchiveObjectExportProgress.t))
  (imported : list (ArchiveObjectType * ArchiveObjectImportProgress.t))
  (se : ExportState) (si : ImportState) :
  (let (ref, s') := reduceObjectProgressToArchiveObjectExportProgress exported se in
   ref = length (heap se) /\
   heap s' = heap se ++ [deref ref s'] /\
   log s' = log se /\ lastResult s' = lastResult se /\
   Map_keys (deref ref s') = first_occurrences (List.map fst exported) /\
   forall t, Map_get t (deref ref s') = last_report t exported) /\
  (let (ref, s') := reduceObjectProgressToArchiveObjectImportProgress imported si in
   ref = length (heap si) /\
   heap s' = heap si ++ [deref ref s'] /\
   log s' = log si /\ lastResult s' = lastResult si /\
   Map_keys (deref ref s') = first_occurrences (List.map fst imported) /\
   forall t, Map_get t (deref ref s') = last_report t imported).
Proof.
  split.
  - exact (reduce_spec exported se).
  - exact (reduce_spec imported si).
Qed.

Lemma export_empty w (req : Request.t) :
  Request.objects req = [] ->
  run_export w req =
  (Errored (InvalidRequestError "No archive objects to export"),
   initial ArchiveObjectExportProgress.t).
Proof.
  intros Hempty; unfold run_export, export_; rewrite Hempty; reflexivity.
Qed.

Lemma import_empty w (req : Request.t) :
  Request.objects req = [] ->
  run_import w req =
  (Errored (InvalidRequestError "No archive objects to export"),
   initial ArchiveObjectImportProgress.t).
Proof.
  intros Hempty; unfold run_import, import_; rewrite Hempty; reflexivity.
Qed.

(** X2: [export] waits for the workspace before anything else.  For every
    non-empty request the log of an export starts with the call of
    [createDir] and its answer, and when [createDir] fails the export
    fails with that error and the log ends there: no delegate is called,
    nothing is written or packed, no snapshot is delivered. *)
Theorem export_awaits_workspace w (req : Request.t) :
  Request.objects req <> [] ->
  let mkdir := createDir (workspacePath w) false in
  (exists rest, log (snd (run_export w req)) = Called mkdir :: Settled mkdir :: rest) /\
  (forall e, createDir_outcome w (workspacePath w) false = Throw e ->
             fst (run_export w req) = Errored e /\
             log (snd (run_export w req)) = [Called mkdir; Settled mkdir]).
Proof.
  intros Hne; cbv zeta; split.
  - destruct (export_trace w req Hne)
      as [(_ & _ & _ & _ & _ & _ & Hlog)
         | (e & _ & [(rest & Hlog & _) | (_ & _ & _ & Hlog)])];
      rewrite Hlog; eexists; reflexivity.
  - intros e He.
    rewrite ArchiveStages.run_export_steps; unfold export_steps.
    destruct (Request.objects req); [congruence|].
    cbv zeta; rewrite He; split; reflexivity.
Qed.

Lemma export_awaits_workspace_witness :
  fst (run_export Failures.world_no_workspace (Examples.request [TELEMETRY])) =
  Errored Failures.disk_full /\
  log (snd (run_export Failures.world_no_workspace (Examples.request [TELEMETRY]))) =
  [ Called (createDir "file:///cache/4f1c" false);
    Settled (createDir "file:///cache/4f1c" false) ].
Proof.
  apply (export_awaits_workspace Failures.world_no_workspace
           (Examples.request [TELEMETRY]));
    [discriminate | reflexivity].
Defined.

(** X3: what a completed export has done, in full and in order.  Every
    requested object is telemetry; the workspace was created and awaited;
    the delegate was called once per requested object, then all its
    streams were subscribed; each joint report [reports] of the delegates
    gave one [BUILDING] snapshot with a fresh [Map]; then the producer
    context was asked for, and for each context delivered the manifest was
    written from the [Map] of the last [BUILDING] snapshot and a
    [BUILDING_MANIFEST] snapshot delivered; then the workspace was packed
    and the [COMPLETE] snapshot delivered last, with the path of the
    archive and, once more, the [Map] of the last [BUILDING] snapshot. *)
Theorem export_completed_log w (req : Request.t) :
  fst (run_export w req) = Completed ->
  let n := length (Request.objects req) in
  let c := telemetryExport (Request.filePath req) (workspacePath w) in
  let mkdir := createDir (workspacePath w) false in
  let z := zip (workspacePath w) (zipFilePath w) in
  let reports := fst (export_reports w req) in
  let sealed := pred (length reports) in
  let view := Map_of (last reports []) [] in
  Forall (fun o => type o = TELEMETRY) (Request.objects req) /\
  0 < n /\ reports <> [] /\
  deref sealed (snd (run_export w req)) = view /\
  log (snd (run_export w req)) =
    [Called mkdir; Settled mkdir] ++
    repeat (Called c) n ++ repeat (Subscribed c) n ++
    snapshots "BUILDING" 0 reports ++
    [Called buildContext; Subscribed buildContext] ++
    flat_map (manifest_written w sealed view) (fst (buildContext_stream w)) ++
    [Called z; Settled z;
     Emitted {| task := "COMPLETE"; progress := sealed;
                filePath := Some (zipFilePath w) |} view].
Proof.
  intros Hdone; cbv zeta.
  destruct (Request.objects req) as [|o objs] eqn:Hobjs.
  { rewrite (export_empty w req Hobjs) in Hdone; discriminate. }
  assert (Hne : Request.objects req <> []) by congruence.
  rewrite <- Hobjs; clear Hobjs.
  destruct (export_trace w req Hne)
    as [(_ & Hall & Hsome & _ & Hheap & _ & Hlog) | (e & He & _)];
    [|congruence].
  split; [exact Hall|].
  split; [destruct (Request.objects req); [congruence | simpl; lia]|].
  split; [exact Hsome|].
  split; [|exact Hlog].
  unfold deref; rewrite Hheap, <- nth_pred_last.
  exact (map_nth (fun results => Map_of results []) _ [] _).
Qed.

Lemma export_completed_log_witness :
  log (snd (run_export Examples.world_ok (Examples.request [TELEMETRY]))) =
  [ Called (createDir "file:///cache/4f1c" false);
    Settled (createDir "file:///cache/4f1c" false);
    Called (telemetryExport "file:///downloads/archive.zip" "file:///cache/4f1c");
    Subscribed (telemetryExport "file:///downloads/archive.zip" "file:///cache/4f1c");
    Emitted {| task := "BUILDING"; progress := 0; filePath := None |}
      [(TELEMETRY,
        {| ArchiveObjectExportProgress.task := "EXPORTING";
           ArchiveObjectExportProgress.completed := [Examples.item1] |})];
    Emitted {| task := "BUILDING"; progress := 1; filePath := None |}
      [(TELEMETRY,
        {| ArchiveObjectExportProgress.task := "OBJECT_EXPORT_COMPLETE";
           ArchiveObjectExportProgress.completed :=
             [Examples.item1; Examples.item2] |})];
    Called buildContext; Subscribed buildContext;
    Called (writeFile "file:///cache/4f1c" "manifest.json" "{manifest}" true);
    Settled (writeFile "file:///cache/4f1c" "manifest.json" "{manifest}" true);
    Emitted {| task := "BUILDING_MANIFEST"; progress := 1; filePath := None |}
      [(TELEMETRY,
        {| ArchiveObjectExportProgress.task := "OBJECT_EXPORT_COMPLETE";
           ArchiveObjectExportProgress.completed :=
             [Examples.item1; Examples.item2] |})];
    Called (zip "file:///cache/4f1c"
              "file:///cache/archive-2020-05-01T10:00:00.000Z.zip");
    Settled (zip "file:///cache/4f1c"
               "file:///cache/archive-2020-05-01T10:00:00.000Z.zip");
    Emitted {| task := "COMPLETE"; progress := 1;
               filePath := Some "file:///cache/archive-2020-05-01T10:00:00.000Z.zip" |}
      [(TELEMETRY,
        {| ArchiveObjectExportProgress.task := "OBJECT_EXPORT_COMPLETE";
           ArchiveObjectExportProgress.completed :=
             [Examples.item1; Examples.item2] |})] ].
Proof.
  apply (export_completed_log Examples.world_ok (Examples.request [TELEMETRY]));
    reflexivity.
Defined.

(** X4: an export delivers a [COMPLETE] snapshot exactly when it
    completes, and never before its end: a [COMPLETE] snapshot is the last
    event of the log, and it carries the path of the archive that was
    packed.  A failing export, at whatever step it fails, has delivered
    none. *)
Theorem export_complete_iff_completed w (req : Request.t) :
  let final := snd (run_export w req) in
  (Exists (@completes _) (log final) <-> fst (run_export w req) = Completed) /\
  (forall pre ev post,
      log final = pre ++ ev :: post ->
      completes ev ->
      post = [] /\
      exists sealed,
        ev = Emitted {| task := "COMPLETE"; progress := sealed;
                        filePath := Some (zipFilePath w) |} (deref sealed final)).
Proof.
  cbv zeta.
  destruct (Request.objects req) as [|o objs] eqn:Hobjs.
  { rewrite (export_empty w req Hobjs); simpl; split.
    - split; [intros H; inversion H | discriminate].
    - intros [|x pre] ev post Heq; discriminate. }
  assert (Hne : Request.objects req <> []) by congruence.
  clear Hobjs o objs.
  destruct (export_complete_last w req Hne)
    as [(Hc & pre0 & sealed & Hlog & Hq) | (e & He & Hq)].
  - split.
    + split; [intros _; exact Hc|].
      intros _; rewrite Hlog; apply Exists_last; reflexivity.
    + intros pre ev post Heq Hev; rewrite Hlog in Heq.
      destruct (only_last _ (@completes _) pre0 _ pre ev post Hq Hev (eq_sym Heq))
        as (Hpost & Hlast).
      split; [exact Hpost | exists sealed; exact Hlast].
  - split.
    + split; [|congruence].
      intros Hex; destruct (Forall_not_Exists _ _ _ Hq Hex).
    + intros pre ev post Heq Hev; exfalso.
      rewrite Heq in Hq; apply Forall_app in Hq; destruct Hq as (_ & Hq).
      inversion Hq; subst; contradiction.
Qed.

(** X5: when the telemetry delegate completes without a single report,
    nothing has been assigned to [lastResult] by the time the manifest
    stage starts, and [generateManifestFile(lastResult!, ...)]
    destructures [undefined]: the export fails with a [TypeError] right
    after the delegates were subscribed.  No [BUILDING] snapshot is
    delivered, the producer context is not asked for, no manifest is
    written and nothing is packed. *)
Theorem export_without_report_fails w (req : Request.t) :
  Request.objects req <> [] ->
  createDir_outcome w (workspacePath w) false = Ok tt ->
  Forall (fun o => type o = TELEMETRY) (Request.objects req) ->
  telemetryExport_stream w (Request.filePath req) (workspacePath w) = ([], None) ->
  let n := length (Request.objects req) in
  let c := telemetryExport (Request.filePath req) (workspacePath w) in
  let mkdir := createDir (workspacePath w) false in
  (exists message, fst (run_export w req) = Errored (TypeError message)) /\
  log (snd (run_export w req)) =
    [Called mkdir; Settled mkdir] ++ repeat (Called c) n ++ repeat (Subscribed c) n.
Proof.
  intros Hne Hmk Hall Hsilent; cbv zeta.
  set (res := run_export w req).
  assert (Hres : res = export_steps w req)
    by apply ArchiveStages.run_export_steps.
  clearbody res; unfold export_steps in Hres.
  destruct (Request.objects req) as [|o objs] eqn:Hobjs; [congruence|].
  cbv beta iota zeta in Hres; rewrite <- Hobjs in *; clear Hne Hobjs o objs.
  rewrite Hmk in Hres.
  set (mkdir := createDir (workspacePath w) false) in *.
  set (c := telemetryExport (Request.filePath req) (workspacePath w)).
  set (s0 := answered mkdir (initial ArchiveObjectExportProgress.t)) in *.
  destruct (Array_map_export_cases w req (Request.objects req) s0)
    as (n & s1 & _ & Hl1 & Hlog1 & [(_ & Hn & Heq) | ((o & Hnth & Ho) & _)]).
  2: { apply nth_error_In in Hnth; rewrite Forall_forall in Hall.
       destruct (Ho (Hall o Hnth)). }
  fold c in Hlog1, Heq; rewrite Heq in Hres; clear Heq; subst n.
  rewrite !map_repeat in Hres; cbn [fst snd] in Hres.
  assert (Hstream : export_stream w req = ([], None))
    by (unfold export_stream; rewrite Hsilent; reflexivity).
  rewrite Hstream, combineLatest_silent in Hres; cbn [fst snd fold_left] in Hres.
  destruct (subscribed_all _ (repeat c (length (Request.objects req))) s1)
    as (_ & Hl1' & Hlog1').
  rewrite map_repeat in Hlog1'.
  rewrite Hl1', Hl1 in Hres; cbn [lastResult s0 answered record initial] in Hres.
  rewrite Hres; split; [eexists; reflexivity|].
  cbn [snd]; rewrite Hlog1', Hlog1, <- app_assoc; reflexivity.
Qed.

Lemma export_without_report_fails_witness :
  (exists message,
      fst (run_export Failures.world_silent (Examples.request [TELEMETRY; TELEMETRY])) =
      Errored (TypeError message)) /\
  log (snd (run_export Failures.world_silent (Examples.request [TELEMETRY; TELEMETRY]))) =
  [ Called (createDir "file:///cache/4f1c" false);
    Settled (createDir "file:///cache/4f1c" false);
    Called (telemetryExport "file:///downloads/archive.zip" "file:///cache/4f1c");
    Called (telemetryExport "file:///downloads/archive.zip" "file:///cache/4f1c");
    Subscribed (telemetryExport "file:///downloads/archive.zip" "file:///cache/4f1c");
    Subscribed (telemetryExport "file:///downloads/archive.zip" "file:///cache/4f1c") ].
Proof.
  apply (export_without_report_fails Failures.world_silent
           (Examples.request [TELEMETRY; TELEMETRY]));
    [discriminate | reflexivity | repeat constructor | reflexivity].
Defined.

(** X6: packing is the last step of an export and its failure is the
    failure of the export.  Whenever an export gets as far as calling the
    zip service and the zip service fails, the export fails with that
    error; by then the delegates have reported, every manifest write has
    succeeded and its [BUILDING_MANIFEST] snapshot has been delivered;
    the log ends with the answer of the zip service, so no [COMPLETE]
    snapshot is delivered. *)
Theorem export_zip_failure w (req : Request.t) e :
  In (Called (zip (workspacePath w) (zipFilePath w)))
    (log (snd (run_export w req))) ->
  zip_outcome w (workspacePath w) (zipFilePath w) = Some e ->
  let n := length (Request.objects req) in
  let c := telemetryExport (Request.filePath req) (workspacePath w) in
  let mkdir := createDir (workspacePath w) false in
  let z := zip (workspacePath w) (zipFilePath w) in
  let reports := fst (export_reports w req) in
  let sealed := pred (length reports) in
  let view := Map_of (last reports []) [] in
  fst (run_export w req) = Errored e /\
  reports <> [] /\
  log (snd (run_export w req)) =
    [Called mkdir; Settled mkdir] ++
    repeat (Called c) n ++ repeat (Subscribed c) n ++
    snapshots "BUILDING" 0 reports ++
    [Called buildContext; Subscribed buildContext] ++
    flat_map (manifest_written w sealed view) (fst (buildContext_stream w)) ++
    [Called z; Settled z].
Proof.
  intros Hin Hzip; cbv zeta.
  destruct (Request.objects req) as [|o objs] eqn:Hobjs.
  { rewrite (export_empty w req Hobjs) in Hin; destruct Hin. }
  assert (Hne : Request.objects req <> []) by congruence.
  rewrite <- Hobjs; clear Hobjs o objs.
  destruct (export_trace w req Hne)
    as [(_ & _ & _ & Hnone & _)
       | (e' & He & [(rest & Hlog & Hq) | (Hzip' & _ & Hsome & Hlog)])].
  - congruence.
  - exfalso; rewrite Hlog in Hin.
    apply in_app_or in Hin; destruct Hin as [Hin | Hin].
    + simpl in Hin; intuition discriminate.
    + rewrite Forall_forall in Hq; exact (Hq _ Hin I).
  - assert (e' = e) by congruence; subst e'.
    split; [exact He|]; split; [exact Hsome | exact Hlog].
Qed.

Lemma export_zip_failure_witness :
  fst (run_export Failures.world_zip_fails (Examples.request [TELEMETRY])) =
  Errored Failures.disk_full /\
  fst (export_reports Failures.world_zip_fails (Examples.request [TELEMETRY])) <> [] /\
  log (snd (run_export Failures.world_zip_fails (Examples.request [TELEMETRY]))) =
  [ Called (createDir "file:///cache/4f1c" false);
    Settled (createDir "file:///cache/4f1c" false);
    Called (telemetryExport "file:///downloads/archive.zip" "file:///cache/4f1c");
    Subscribed (telemetryExport "file:///downloads/archive.zip" "file:///cache/4f1c");
    Emitted {| task := "BUILDING"; progress := 0; filePath := None |}
      [(TELEMETRY,
        {| ArchiveObjectExportProgress.task := "EXPORTING";
           ArchiveObjectExportProgress.completed := [Examples.item1] |})];
    Emitted {| task := "BUILDING"; progress := 1; filePath := None |}
      [(TELEMETRY,
        {| ArchiveObjectExportProgress.task := "OBJECT_EXPORT_COMPLETE";
           ArchiveObjectExportProgress.completed :=
             [Examples.item1; Examples.item2] |})];
    Called buildContext; Subscribed buildContext;
    Called (writeFile "file:///cache/4f1c" "manifest.json" "{manifest}" true);
    Settled (writeFile "file:///cache/4f1c" "manifest.json" "{manifest}" true);
    Emitted {| task := "BUILDING_MANIFEST"; progress := 1; filePath := None |}
      [(TELEMETRY,
        {| ArchiveObjectExportProgress.task := "OBJECT_EXPORT_COMPLETE";
           ArchiveObjectExportProgress.completed :=
             [Examples.item1; Examples.item2] |})];
    Called (zip "file:///cache/4f1c"
              "file:///cache/archive-2020-05-01T10:00:00.000Z.zip");
    Settled (zip "file:///cache/4f1c"
               "file:///cache/archive-2020-05-01T10:00:00.000Z.zip") ].
Proof.
  apply (export_zip_failure Failures.world_zip_fails
           (Examples.request [TELEMETRY]) Failures.disk_full);
    [vm_compute; tauto | reflexivity].
Defined.

(** X7: the manifest is written once for each producer context the
    telemetry decorator delivers, so when it delivers none and completes,
    no manifest is written at all; the export goes on all the same: the
    workspace is packed and the export completes. *)
Theorem export_without_context_writes_no_manifest w (req : Request.t) :
  fst (run_export w req) = Completed ->
  fst (buildContext_stream w) = [] ->
  (forall path fileName data replace,
      ~ In (Called (writeFile path fileName data replace))
          (log (snd (run_export w req)))) /\
  In (Called (zip (workspacePath w) (zipFilePath w)))
    (log (snd (run_export w req))).
Proof.
  intros Hdone Hnone.
  destruct (Request.objects req) as [|o objs] eqn:Hobjs.
  { rewrite (export_empty w req Hobjs) in Hdone; discriminate. }
  assert (Hne : Request.objects req <> []) by congruence.
  clear Hobjs o objs.
  destruct (export_trace w req Hne)
    as [(_ & _ & _ & _ & _ & _ & Hlog) | (e & He & _)]; [|congruence].
  rewrite Hlog, Hnone; simpl flat_map; split.
  - intros path fileName data replace Hin.
    repeat (apply in_app_or in Hin; destruct Hin as [Hin | Hin]);
      try (apply repeat_spec in Hin; discriminate);
      try (simpl in Hin; intuition discriminate).
    pose proof (snapshots_tasks _ "BUILDING" 0 (fst (export_reports w req)))
      as Hall.
    rewrite Forall_forall in Hall.
    destruct (Hall _ Hin) as (r & m & Hev); discriminate.
  - repeat (apply in_or_app; right); left; reflexivity.
Qed.

Lemma export_without_context_writes_no_manifest_witness :
  fst (run_export Failures.world_no_context (Examples.request [TELEMETRY])) =
  Completed /\
  ~ In (Called (writeFile "file:///cache/4f1c" "manifest.json" "{manifest}" true))
      (log (snd (run_export Failures.world_no_context
                   (Examples.request [TELEMETRY])))).
Proof.
  split; [reflexivity|].
  apply (export_without_context_writes_no_manifest Failures.world_no_context
           (Examples.request [TELEMETRY])); reflexivity.
Defined.

(** X8: what a completed import has done, in full and in order.  Every
    requested object is telemetry and the manifest lists telemetry items;
    [createDir] was called first but awaited only after the archive was
    unpacked and the manifest read and validated; then the delegate was
    called once per requested object, each time with the request's file
    path, the workspace and the manifest's telemetry items in manifest
    order, and all its streams were subscribed; each joint report of the
    delegates gave one [IMPORTING] snapshot with a fresh [Map], without a
    file path; the [COMPLETE] snapshot came last. *)
Theorem import_completed_log w (req : Request.t) :
  fst (run_import w req) = Completed ->
  let r0 := {| task := ""; progress := 0;
               filePath := Some (Request.filePath req) |} in
  let n := length (Request.objects req) in
  let mkdir := createDir (workspacePath w) false in
  let u := unzip (Some (Request.filePath req)) (workspacePath w) in
  let read := readAsText (workspacePath w) "manifest.json" in
  exists text manifest,
    readAsText_outcome w (workspacePath w) "manifest.json" = Ok text /\
    JSON_parse w text = Some (with_items manifest) /\
    Forall (fun o => type o = TELEMETRY) (Request.objects req) /\
    let pending_ :=
      filter (fun i => type_eqb (objectType i) TELEMETRY)
        (items (archive manifest)) in
    let c := telemetryImport (Request.filePath req) (workspacePath w) pending_ in
    let reports := fst (import_reports w req pending_) in
    let view := [(TELEMETRY, initialising pending_)] in
    pending_ <> [] /\
    log (snd (run_import w req)) =
      [ Called mkdir; Called u; Settled u; Emitted (retask r0 "EXTRACTING") [];
        Called read; Settled read; Emitted (retask r0 "VALIDATING") view;
        Settled mkdir ] ++
      repeat (Called c) n ++ repeat (Subscribed c) n ++
      snapshots "IMPORTING" 1 reports ++
      [Emitted (retask r0 "COMPLETE") view].
Proof.
  intros Hdone; cbv zeta.
  destruct (Request.objects req) as [|o objs] eqn:Hobjs.
  { rewrite (import_empty w req Hobjs) in Hdone; discriminate. }
  assert (Hne : Request.objects req <> []) by congruence.
  rewrite <- Hobjs; clear Hobjs o objs.
  destruct (import_trace w req Hne)
    as [(_ & text & manifest & Hread & Hparse & Hall & Hsome & _ & Hlog)
       | (e & rest & He & _)]; [|congruence].
  exists text, manifest.
  split; [exact Hread|]; split; [exact Hparse|]; split; [exact Hall|].
  split; [exact Hsome | exact Hlog].
Qed.

Lemma import_completed_log_witness :
  exists text manifest,
    readAsText_outcome Examples.world_ok "file:///cache/4f1c" "manifest.json" =
    Ok text /\
    JSON_parse Examples.world_ok text = Some (with_items manifest) /\
    log (snd (run_import Examples.world_ok (Examples.request [TELEMETRY]))) =
    [ Called (createDir "file:///cache/4f1c" false);
      Called (unzip (Some "file:///downloads/archive.zip") "file:///cache/4f1c");
      Settled (unzip (Some "file:///downloads/archive.zip") "file:///cache/4f1c");
      Emitted {| task := "EXTRACTING"; progress := 0;
                 filePath := Some "file:///downloads/archive.zip" |} [];
      Called (readAsText "file:///cache/4f1c" "manifest.json");
      Settled (readAsText "file:///cache/4f1c" "manifest.json");
      Emitted {| task := "VALIDATING"; progress := 0;
                 filePath := Some "file:///downloads/archive.zip" |}
        [(TELEMETRY, initialising (items_of manifest TELEMETRY))];
      Settled (createDir "file:///cache/4f1c" false) ] ++
    repeat (Called (telemetryImport "file:///downloads/archive.zip"
                      "file:///cache/4f1c" (items_of manifest TELEMETRY))) 1 ++
    repeat (Subscribed (telemetryImport "file:///downloads/archive.zip"
                          "file:///cache/4f1c" (items_of manifest TELEMETRY))) 1 ++
    snapshots "IMPORTING" 1
      (fst (import_reports Examples.world_ok (Examples.request [TELEMETRY])
              (items_of manifest TELEMETRY))) ++
    [ Emitted {| task := "COMPLETE"; progress := 0;
                 filePath := Some "file:///downloads/archive.zip" |}
        [(TELEMETRY, initialising (items_of manifest TELEMETRY))] ].
Proof.
  destruct (import_completed_log Examples.world_ok (Examples.request [TELEMETRY])
              eq_refl)
    as (text & manifest & Hread & Hparse & _ & _ & Hlog).
  exists text, manifest; split; [exact Hread|]; split; [exact Hparse | exact Hlog].
Defined.

(** X9: an import delivers a [COMPLETE] snapshot exactly when it
    completes, and never before its end: a [COMPLETE] snapshot is the last
    event of the log, it carries the file path of the request and refers
    to the [Map] the call has created, not to one of the [Map]s of the
    [IMPORTING] snapshots.  A failing import, at whatever step it fails,
    has delivered none. *)
Theorem import_complete_iff_completed w (req : Request.t) :
  let final := snd (run_import w req) in
  (Exists (@completes _) (log final) <-> fst (run_import w req) = Completed) /\
  (forall pre ev post,
      log final = pre ++ ev :: post ->
      completes ev ->
      post = [] /\
      ev = Emitted {| task := "COMPLETE"; progress := 0;
                      filePath := Some (Request.filePath req) |} (deref 0 final)).
Proof.
  cbv zeta.
  destruct (Request.objects req) as [|o objs] eqn:Hobjs.
  { rewrite (import_empty w req Hobjs); simpl; split.
    - split; [intros H; inversion H | discriminate].
    - intros [|x pre] ev post Heq; discriminate. }
  assert (Hne : Request.objects req <> []) by congruence.
  clear Hobjs o objs.
  destruct (import_complete_last w req Hne)
    as [(Hc & pre0 & Hlog & Hq) | (e & He & Hq)].
  - split.
    + split; [intros _; exact Hc|].
      intros _; rewrite Hlog; apply Exists_last; reflexivity.
    + intros pre ev post Heq Hev; rewrite Hlog in Heq.
      exact (only_last _ (@completes _) pre0 _ pre ev post Hq Hev (eq_sym Heq)).
  - split.
    + split; [|congruence].
      intros Hex; destruct (Forall_not_Exists _ _ _ Hq Hex).
    + intros pre ev post Heq Hev; exfalso.
      rewrite Heq in Hq; apply Forall_app in Hq; destruct Hq as (_ & Hq).
      inversion Hq; subst; contradiction.
Qed.

(** X10: when the archive cannot be unpacked the import fails with the
    error of the zip service.  By then [createDir] has been called, since
    [import] calls it before the pipeline runs, but nothing else has
    happened: no snapshot is delivered, the manifest is not read, no
    delegate is called. *)
Theorem import_unzip_failure w (req : Request.t) e :
  Request.objects req <> [] ->
  unzip_outcome w (Some (Request.filePath req)) (workspacePath w) = Some e ->
  let u := unzip (Some (Request.filePath req)) (workspacePath w) in
  fst (run_import w req) = Errored e /\
  log (snd (run_import w req)) =
  [ Called (createDir (workspacePath w) false); Called u; Settled u ].
Proof.
  intros Hne Hunzip.
  rewrite ArchiveStages.run_import_steps; unfold import_steps.
  destruct (Request.objects req) as [|o objs]; [congruence|].
  cbv zeta; rewrite Hunzip; split; reflexivity.
Qed.

Lemma import_unzip_failure_witness :
  fst (run_import Failures.world_bad_zip (Examples.request [TELEMETRY])) =
  Errored Failures.bad_zip /\
  log (snd (run_import Failures.world_bad_zip (Examples.request [TELEMETRY]))) =
  [ Called (createDir "file:///cache/4f1c" false);
    Called (unzip (Some "file:///downloads/archive.zip") "file:///cache/4f1c");
    Settled (unzip (Some "file:///downloads/archive.zip") "file:///cache/4f1c") ].
Proof.
  apply (import_unzip_failure Failures.world_bad_zip
           (Examples.request [TELEMETRY]) Failures.bad_zip);
    [discriminate | reflexivity].
Defined.

(** X11: when the manifest cannot be read from the unpacked archive the
    import fails with the error of the file service, after the
    [EXTRACTING] snapshot and before any validation: the [Map] of the call
    is left empty, no [VALIDATING] snapshot is delivered and no delegate
    is called. *)
Theorem import_read_failure w (req : Request.t) e :
  Request.objects req <> [] ->
  unzip_outcome w (Some (Request.filePath req)) (workspacePath w) = None ->
  readAsText_outcome w (workspacePath w) "manifest.json" = Throw e ->
  let r0 := {| task := ""; progress := 0;
               filePath := Some (Request.filePath req) |} in
  let u := unzip (Some (Request.filePath req)) (workspacePath w) in
  let read := readAsText (workspacePath w) "manifest.json" in
  fst (run_import w req) = Errored e /\
  heap (snd (run_import w req)) = [[]] /\
  log (snd (run_import w req)) =
  [ Called (createDir (workspacePath w) false);
    Called u; Settled u; Emitted (retask r0 "EXTRACTING") [];
    Called read; Settled read ].
Proof.
  intros Hne Hunzip Hread.
  rewrite ArchiveStages.run_import_steps; unfold import_steps.
  destruct (Request.objects req) as [|o objs]; [congruence|].
  cbv zeta; rewrite Hunzip, Hread; repeat split; reflexivity.
Qed.

Lemma import_read_failure_witness :
  fst (run_import Failures.world_no_manifest (Examples.request [TELEMETRY])) =
  Errored (CollaboratorError "FileError" "NOT_FOUND_ERR") /\
  heap (snd (run_import Failures.world_no_manifest (Examples.request [TELEMETRY]))) =
  [[]] /\
  log (snd (run_import Failures.world_no_manifest (Examples.request [TELEMETRY]))) =
  [ Called (createDir "file:///cache/4f1c" false);
    Called (unzip (Some "file:///downloads/archive.zip") "file:///cache/4f1c");
    Settled (unzip (Some "file:///downloads/archive.zip") "file:///cache/4f1c");
    Emitted {| task := "EXTRACTING"; progress := 0;
               filePath := Some "file:///downloads/archive.zip" |} [];
    Called (readAsText "file:///cache/4f1c" "manifest.json");
    Settled (readAsText "file:///cache/4f1c" "manifest.json") ].
Proof.
  apply (import_read_failure Failures.world_no_manifest
           (Examples.request [TELEMETRY])
           (CollaboratorError "FileError" "NOT_FOUND_ERR"));
    [discriminate | reflexivity | reflexivity].
Defined.

(** X12: a workspace that cannot be created stops an import only after
    validation.  [import] calls [createDir] first but looks at its answer
    in its third stage, so when [createDir] fails while unpacking and
    validation succeed, the archive has been unpacked and the manifest
    read, the [EXTRACTING] and [VALIDATING] snapshots have been delivered,
    and only then does the import fail with the error of [createDir]; no
    delegate is called. *)
Theorem import_workspace_failure_is_late w (req : Request.t) text manifest e :
  Request.objects req <> [] ->
  unzip_outcome w (Some (Request.filePath req)) (workspacePath w) = None ->
  readAsText_outcome w (workspacePath w) "manifest.json" = Ok text ->
  JSON_parse w text = Some (with_items manifest) ->
  Forall (fun o => items_of manifest (type o) <> []) (Request.objects req) ->
  createDir_outcome w (workspacePath w) false = Throw e ->
  let r0 := {| task := ""; progress := 0;
               filePath := Some (Request.filePath req) |} in
  let mkdir := createDir (workspacePath w) false in
  let u := unzip (Some (Request.filePath req)) (workspacePath w) in
  let read := readAsText (workspacePath w) "manifest.json" in
  let types := List.map type (Request.objects req) in
  fst (run_import w req) = Errored e /\
  log (snd (run_import w req)) =
  [ Called mkdir; Called u; Settled u; Emitted (retask r0 "EXTRACTING") [];
    Called read; Settled read;
    Emitted (retask r0 "VALIDATING") (validated manifest types);
    Settled mkdir ].
Proof.
  intros Hne Hunzip Hread Hparse Hitems Hmk; cbv zeta.
  destruct (import_validated_state w req text manifest Hne Hunzip Hread Hparse
              Hitems) as (s & Hrun & _ & _ & Hlog).
  rewrite Hrun; unfold import_objects_steps; cbv zeta; rewrite Hmk.
  split; [reflexivity|].
  cbn [snd]; unfold record; cbn [log]; rewrite Hlog; reflexivity.
Qed.

Lemma import_workspace_failure_is_late_witness :
  fst (run_import Failures.world_no_workspace (Examples.request [TELEMETRY])) =
  Errored Failures.disk_full /\
  log (snd (run_import Failures.world_no_workspace (Examples.request [TELEMETRY]))) =
  [ Called (createDir "file:///cache/4f1c" false);
    Called (unzip (Some "file:///downloads/archive.zip") "file:///cache/4f1c");
    Settled (unzip (Some "file:///downloads/archive.zip") "file:///cache/4f1c");
    Emitted {| task := "EXTRACTING"; progress := 0;
               filePath := Some "file:///downloads/archive.zip" |} [];
    Called (readAsText "file:///cache/4f1c" "manifest.json");
    Settled (readAsText "file:///cache/4f1c" "manifest.json");
    Emitted {| task := "VALIDATING"; progress := 0;
               filePath := Some "file:///downloads/archive.zip" |}
      [(TELEMETRY, initialising [Examples.item1; Examples.item2])];
    Settled (createDir "file:///cache/4f1c" false) ].
Proof.
  apply (import_workspace_failure_is_late Failures.world_no_workspace
           (Examples.request [TELEMETRY]) "{manifest}" Examples.manifest_ok
           Failures.disk_full);
    [discriminate | reflexivity | reflexivity | reflexivity | | reflexivity].
  repeat constructor; discriminate.
Defined.

(** X13: the snapshots of an import share the [Map] of the call, and
    validation fills it after the first of them was delivered.  In a
    completed import the [EXTRACTING] snapshot was delivered with an
    empty [Map]; at the end of the run the same [Map], which the snapshot
    still refers to, holds the telemetry items of the manifest as
    pending. *)
Theorem import_extracting_map_is_filled_later w (req : Request.t) :
  fst (run_import w req) = Completed ->
  let final := snd (run_import w req) in
  let extracting := {| task := "EXTRACTING"; progress := 0;
                       filePath := Some (Request.filePath req) |} in
  In (Emitted extracting []) (log final) /\
  exists text manifest,
    readAsText_outcome w (workspacePath w) "manifest.json" = Ok text /\
    JSON_parse w text = Some (with_items manifest) /\
    items_of manifest TELEMETRY <> [] /\
    deref (progress extracting) final =
    [(TELEMETRY, initialising (items_of manifest TELEMETRY))].
Proof.
  intros Hdone; cbv zeta.
  destruct (Request.objects req) as [|o objs] eqn:Hobjs.
  { rewrite (import_empty w req Hobjs) in Hdone; discriminate. }
  assert (Hne : Request.objects req <> []) by congruence.
  clear Hobjs o objs.
  destruct (import_trace w req Hne)
    as [(_ & text & manifest & Hread & Hparse & _ & Hsome & Hheap & Hlog)
       | (e & rest & He & _)]; [|congruence].
  split.
  - rewrite Hlog; simpl; auto.
  - exists text, manifest.
    split; [exact Hread|]; split; [exact Hparse|]; split; [exact Hsome|].
    unfold deref; rewrite Hheap; reflexivity.
Qed.

Lemma import_extracting_map_is_filled_later_witness :
  In (Emitted {| task := "EXTRACTING"; progress := 0;
                 filePath := Some "file:///downloads/archive.zip" |} [])
    (log (snd (run_import Examples.world_ok (Examples.request [TELEMETRY])))) /\
  deref 0 (snd (run_import Examples.world_ok (Examples.request [TELEMETRY]))) =
  [(TELEMETRY, initialising [Examples.item1; Examples.item2])].
Proof.
  destruct (import_extracting_map_is_filled_later Examples.world_ok
              (Examples.request [TELEMETRY]) eq_refl)
    as (Hin & _).
  split; [exact Hin | reflexivity].
Defined.

(** X14: validation fills the [Map] of the call type by type and stops at
    the first requested type the manifest has no item for; what it has set
    by then stays set.  So when an import fails with 'Nothing to import',
    the [Map] that the [EXTRACTING] snapshot was delivered with, empty at
    that moment, is left holding an entry for every requested type that
    precedes the missing one. *)
Theorem import_failed_validation_leaves_entries w (req : Request.t) text manifest
  checked o rest :
  Request.objects req = checked ++ o :: rest ->
  unzip_outcome w (Some (Request.filePath req)) (workspacePath w) = None ->
  readAsText_outcome w (workspacePath w) "manifest.json" = Ok text ->
  JSON_parse w text = Some (with_items manifest) ->
  Forall (fun o0 => items_of manifest (type o0) <> []) checked ->
  items_of manifest (type o) = [] ->
  let final := snd (run_import w req) in
  let extracting := {| task := "EXTRACTING"; progress := 0;
                       filePath := Some (Request.filePath req) |} in
  fst (run_import w req) = Errored (InvalidArchiveError "Nothing to import") /\
  In (Emitted extracting []) (log final) /\
  deref (progress extracting) final = validated manifest (List.map type checked).
Proof.
  intros Hobjs Hunzip Hread Hparse Hchecked Hnone; cbv zeta.
  rewrite ArchiveStages.run_import_steps; unfold import_steps.
  rewrite Hobjs.
  destruct (checked ++ o :: rest) as [|o0 objs] eqn:Hsplit;
    [destruct checked; discriminate|].
  cbv zeta; rewrite Hunzip, Hread, Hparse, <- Hsplit, map_app; simpl List.map.
  rewrite (forEach_objectType_stops manifest (List.map type checked) (type o)
             (List.map type rest) _ []);
    [| reflexivity | apply Forall_map; exact Hchecked | exact Hnone].
  split; [reflexivity|]; split.
  - simpl; auto 10.
  - unfold validated; rewrite map_map; reflexivity.
Qed.

Lemma import_failed_validation_leaves_entries_witness :
  fst (run_import Examples.world_ok (Examples.request [TELEMETRY; PROFILE])) =
  Errored (InvalidArchiveError "Nothing to import") /\
  In (Emitted {| task := "EXTRACTING"; progress := 0;
                 filePath := Some "file:///downloads/archive.zip" |} [])
    (log (snd (run_import Examples.world_ok
                 (Examples.request [TELEMETRY; PROFILE])))) /\
  deref 0 (snd (run_import Examples.world_ok
                  (Examples.request [TELEMETRY; PROFILE]))) =
  [(TELEMETRY, initialising [Examples.item1; Examples.item2])].
Proof.
  apply (import_failed_validation_leaves_entries Examples.world_ok
           (Examples.request [TELEMETRY; PROFILE]) "{manifest}"
           Examples.manifest_ok [ {| type := TELEMETRY |} ] {| type := PROFILE |} []);
    [reflexivity | reflexivity | reflexivity | reflexivity | | reflexivity].
  repeat constructor; discriminate.
Defined.

(** X15: the objects of an export request are visited in order, and the
    delegate is called for each telemetry object before the first object
    of an unsupported type is met.  The export then fails with the
    placeholder error; the streams the delegate returned for the earlier
    objects are dropped without being subscribed, and nothing else
    happens. *)
Theorem export_unsupported_type_after_calls w (req : Request.t) :
  createDir_outcome w (workspacePath w) false = Ok tt ->
  (exists o, In o (Request.objects req) /\ type o <> TELEMETRY) ->
  let c := telemetryExport (Request.filePath req) (workspacePath w) in
  let mkdir := createDir (workspacePath w) false in
  exists n o,
    nth_error (Request.objects req) n = Some o /\ type o <> TELEMETRY /\
    Forall (fun o0 => type o0 = TELEMETRY) (firstn n (Request.objects req)) /\
    fst (run_export w req) = Errored (PlainError "To be implemented") /\
    log (snd (run_export w req)) =
      [Called mkdir; Settled mkdir] ++ repeat (Called c) n.
Proof.
  intros Hmk (o1 & Hin1 & Ho1); cbv zeta.
  set (res := run_export w req).
  assert (Hres : res = export_steps w req)
    by apply ArchiveStages.run_export_steps.
  clearbody res; unfold export_steps in Hres.
  destruct (Request.objects req) as [|o0 objs] eqn:Hobjs; [destruct Hin1|].
  cbv beta iota zeta in Hres; rewrite <- Hobjs in *; clear Hobjs o0 objs.
  rewrite Hmk in Hres.
  set (mkdir := createDir (workspacePath w) false) in *.
  set (c := telemetryExport (Request.filePath req) (workspacePath w)).
  set (s0 := answered mkdir (initial ArchiveObjectExportProgress.t)) in *.
  destruct (Array_map_export_cases w req (Request.objects req) s0)
    as (n & s1 & _ & _ & Hlog1
        & [(Hall & _) | ((o & Hnth & Ho) & Hfirst & Heq)]).
  { rewrite Forall_forall in Hall; destruct (Ho1 (Hall o1 Hin1)). }
  fold c in Hlog1; rewrite Heq in Hres.
  exists n, o; rewrite Hres.
  split; [exact Hnth|]; split; [exact Ho|]; split; [exact Hfirst|].
  split; [reflexivity | exact Hlog1].
Qed.

Lemma export_unsupported_type_after_calls_witness :
  exists n o,
    nth_error (Request.objects (Examples.request [TELEMETRY; TELEMETRY; CONTENT]))
      n = Some o /\
    type o <> TELEMETRY /\
    Forall (fun o0 => type o0 = TELEMETRY)
      (firstn n (Request.objects (Examples.request [TELEMETRY; TELEMETRY; CONTENT]))) /\
    fst (run_export Examples.world_ok
           (Examples.request [TELEMETRY; TELEMETRY; CONTENT])) =
    Errored (PlainError "To be implemented") /\
    log (snd (run_export Examples.world_ok
                (Examples.request [TELEMETRY; TELEMETRY; CONTENT]))) =
    [ Called (createDir "file:///cache/4f1c" false);
      Settled (createDir "file:///cache/4f1c" false) ] ++
    repeat (Called (telemetryExport "file:///downloads/archive.zip"
                      "file:///cache/4f1c")) n.
Proof.
  apply (export_unsupported_type_after_calls Examples.world_ok
           (Examples.request [TELEMETRY; TELEMETRY; CONTENT])); [reflexivity|].
  exists {| type := CONTENT |}; split; [simpl; auto | discriminate].
Defined.

(** X16: when the joined streams of the export delegate fail, the export
    fails with their error.  The [BUILDING] snapshots of the joint reports
    that came before the failure have been delivered and stay delivered;
    the producer context is not asked for, no manifest is written and
    nothing is packed. *)
Theorem export_delegate_failure w (req : Request.t) e :
  Request.objects req <> [] ->
  createDir_outcome w (workspacePath w) false = Ok tt ->
  Forall (fun o => type o = TELEMETRY) (Request.objects req) ->
  snd (export_reports w req) = Some e ->
  let n := length (Request.objects req) in
  let c := telemetryExport (Request.filePath req) (workspacePath w) in
  let mkdir := createDir (workspacePath w) false in
  fst (run_export w req) = Errored e /\
  log (snd (run_export w req)) =
    [Called mkdir; Settled mkdir] ++
    repeat (Called c) n ++ repeat (Subscribed c) n ++
    snapshots "BUILDING" 0 (fst (export_reports w req)).
Proof.
  intros Hne Hmk Hall Hfail; cbv zeta.
  set (res := run_export w req).
  assert (Hres : res = export_steps w req)
    by apply ArchiveStages.run_export_steps.
  clearbody res; unfold export_steps in Hres; unfold export_reports in *.
  destruct (Request.objects req) as [|o objs] eqn:Hobjs; [congruence|].
  cbv beta iota zeta in Hres; rewrite <- Hobjs in *; clear Hne Hobjs o objs.
  rewrite Hmk in Hres.
  set (mkdir := createDir (workspacePath w) false) in *.
  set (c := telemetryExport (Request.filePath req) (workspacePath w)).
  set (s0 := answered mkdir (initial ArchiveObjectExportProgress.t)) in *.
  destruct (Array_map_export_cases w req (Request.objects req) s0)
    as (n & s1 & Hh1 & _ & Hlog1 & [(_ & Hn & Heq) | ((o & Hnth & Ho) & _)]).
  2: { apply nth_error_In in Hnth; rewrite Forall_forall in Hall.
       destruct (Ho (Hall o Hnth)). }
  fold c in Hlog1, Heq; rewrite Heq in Hres; clear Heq; subst n.
  rewrite !map_repeat in Hres; cbn [fst snd] in Hres.
  rewrite Hfail in Hres.
  destruct (subscribed_all _ (repeat c (length (Request.objects req))) s1)
    as (Hh1' & _ & Hlog1').
  rewrite map_repeat in Hlog1'.
  match type of Hres with
  | _ = (_, fold_left _ ?arrays ?s) =>
      destruct (aggregate_trace _ "BUILDING" arrays s) as (_ & Hlog2 & _)
  end.
  rewrite Hres; split; [reflexivity|].
  cbn [snd]; rewrite Hlog2, Hlog1', Hlog1, Hh1', Hh1, <- !app_assoc; reflexivity.
Qed.

Lemma export_delegate_failure_witness :
  fst (run_export Failures.world_export_breaks (Examples.request [TELEMETRY])) =
  Errored (CollaboratorError "DbError" "database is locked") /\
  log (snd (run_export Failures.world_export_breaks (Examples.request [TELEMETRY]))) =
  [ Called (createDir "file:///cache/4f1c" false);
    Settled (createDir "file:///cache/4f1c" false);
    Called (telemetryExport "file:///downloads/archive.zip" "file:///cache/4f1c");
    Subscribed (telemetryExport "file:///downloads/archive.zip" "file:///cache/4f1c");
    Emitted {| task := "BUILDING"; progress := 0; filePath := None |}
      [(TELEMETRY,
        {| ArchiveObjectExportProgress.task := "EXPORTING";
           ArchiveObjectExportProgress.completed := [Examples.item1] |})] ].
Proof.
  apply (export_delegate_failure Failures.world_export_breaks
           (Examples.request [TELEMETRY])
           (CollaboratorError "DbError" "database is locked"));
    [discriminate | reflexivity | repeat constructor | reflexivity].
Defined.

(** X17: when the joined streams of the import delegate fail, the import
    fails with their error and delivers no [COMPLETE] snapshot.  The
    [IMPORTING] snapshots of the joint reports that came before the
    failure have been delivered and stay delivered. *)
Theorem import_delegate_failure w (req : Request.t) text manifest e :
  Request.objects req <> [] ->
  unzip_outcome w (Some (Request.filePath req)) (workspacePath w) = None ->
  readAsText_outcome w (workspacePath w) "manifest.json" = Ok text ->
  JSON_parse w text = Some (with_items manifest) ->
  items_of manifest TELEMETRY <> [] ->
  createDir_outcome w (workspacePath w) false = Ok tt ->
  Forall (fun o => type o = TELEMETRY) (Request.objects req) ->
  snd (import_reports w req (items_of manifest TELEMETRY)) = Some e ->
  let r0 := {| task := ""; progress := 0;
               filePath := Some (Request.filePath req) |} in
  let n := length (Request.objects req) in
  let mkdir := createDir (workspacePath w) false in
  let u := unzip (Some (Request.filePath req)) (workspacePath w) in
  let read := readAsText (workspacePath w) "manifest.json" in
  let pending_ := items_of manifest TELEMETRY in
  let c := telemetryImport (Request.filePath req) (workspacePath w) pending_ in
  let view := [(TELEMETRY, initialising pending_)] in
  fst (run_import w req) = Errored e /\
  log (snd (run_import w req)) =
    [ Called mkdir; Called u; Settled u; Emitted (retask r0 "EXTRACTING") [];
      Called read; Settled read; Emitted (retask r0 "VALIDATING") view;
      Settled mkdir ] ++
    repeat (Called c) n ++ repeat (Subscribed c) n ++
    snapshots "IMPORTING" 1 (fst (import_reports w req pending_)).
Proof.
  intros Hne Hunzip Hread Hparse Hsome Hmk Hall Hfail; cbv zeta.
  assert (Hitems : Forall (fun o => items_of manifest (type o) <> [])
                     (Request.objects req))
    by (eapply Forall_impl; [|exact Hall]; intros o Ho; rewrite Ho; exact Hsome).
  destruct (import_validated_state w req text manifest Hne Hunzip Hread Hparse
              Hitems) as (s & Hrun & Hlast & Hheap & Hlog).
  rewrite (validated_telemetry manifest (Request.objects req) Hne Hall)
    in Hheap, Hlog.
  rewrite Hrun; clear Hrun.
  set (r0 := {| task := ""; progress := 0;
                filePath := Some (Request.filePath req) |}) in *.
  set (entry := initialising (items_of manifest TELEMETRY)).
  set (res := import_objects_steps w req r0 s).
  assert (Hres : res = import_objects_steps w req r0 s) by reflexivity.
  clearbody res; unfold import_objects_steps in Hres; unfold import_reports in *.
  cbv beta iota zeta in Hres; rewrite Hmk in Hres.
  set (mkdir := createDir (workspacePath w) false) in *.
  set (c := telemetryImport (Request.filePath req) (workspacePath w)
              (items_of manifest TELEMETRY)).
  set (s3 := record (Settled mkdir) s) in *.
  assert (Hentry : In TELEMETRY (List.map type (Request.objects req)) ->
                   Map_get TELEMETRY (deref (progress r0) s3) = Some entry)
    by (intros _; unfold deref, s3, record; cbn [heap]; rewrite Hheap;
        reflexivity).
  destruct (Array_map_import_cases w req r0 entry (Request.objects req) s3 Hlast
              Hentry)
    as (n & s4 & Hh4 & _ & Hlog4 & [(_ & Hn & Heq) | ((o & Hnth & Ho) & _)]).
  2: { apply nth_error_In in Hnth; rewrite Forall_forall in Hall.
       destruct (Ho (Hall o Hnth)). }
  change (ArchiveObjectImportProgress.pending entry)
    with (items_of manifest TELEMETRY) in Hlog4, Heq.
  fold c in Hlog4, Heq; rewrite Heq in Hres; clear Heq; subst n.
  rewrite !map_repeat in Hres; cbn [fst snd] in Hres.
  rewrite Hfail in Hres.
  destruct (subscribed_all _ (repeat c (length (Request.objects req))) s4)
    as (Hh4' & _ & Hlog4').
  rewrite map_repeat in Hlog4'.
  match type of Hres with
  | _ = (_, fold_left _ ?arrays ?s) =>
      destruct (aggregate_trace _ "IMPORTING" arrays s) as (_ & Hlog5 & _)
  end.
  rewrite Hres; split; [reflexivity|].
  cbn [snd]; rewrite Hlog5, Hlog4', Hlog4, Hh4', Hh4.
  unfold s3, record; cbn [heap log]; rewrite Hheap, Hlog, <- !app_assoc.
  reflexivity.
Qed.

Lemma import_delegate_failure_witness :
  fst (run_import Failures.world_import_breaks (Examples.request [TELEMETRY])) =
  Errored (CollaboratorError "DbError" "database is locked") /\
  log (snd (run_import Failures.world_import_breaks (Examples.request [TELEMETRY]))) =
  [ Called (createDir "file:///cache/4f1c" false);
    Called (unzip (Some "file:///downloads/archive.zip") "file:///cache/4f1c");
    Settled (unzip (Some "file:///downloads/archive.zip") "file:///cache/4f1c");
    Emitted {| task := "EXTRACTING"; progress := 0;
               filePath := Some "file:///downloads/archive.zip" |} [];
    Called (readAsText "file:///cache/4f1c" "manifest.json");
    Settled (readAsText "file:///cache/4f1c" "manifest.json");
    Emitted {| task := "VALIDATING"; progress := 0;
               filePath := Some "file:///downloads/archive.zip" |}
      [(TELEMETRY, initialising [Examples.item1; Examples.item2])];
    Settled (createDir "file:///cache/4f1c" false);
    Called (telemetryImport "file:///downloads/archive.zip" "file:///cache/4f1c"
              [Examples.item1; Examples.item2]);
    Subscribed (telemetryImport "file:///downloads/archive.zip" "file:///cache/4f1c"
                  [Examples.item1; Examples.item2]);
    Emitted {| task := "IMPORTING"; progress := 1; filePath := None |}
      [(TELEMETRY,
        {| ArchiveObjectImportProgress.task := "IMPORTING";
           ArchiveObjectImportProgress.pending :=
             [Examples.item1; Examples.item2] |})] ].
Proof.
  apply (import_delegate_failure Failures.world_import_breaks
           (Examples.request [TELEMETRY]) "{manifest}" Examples.manifest_ok
           (CollaboratorError "DbError" "database is locked"));
    [discriminate | reflexivity | reflexivity | reflexivity | discriminate
    | reflexivity | repeat constructor | reflexivity].
Defined.

(** X18: when the telemetry decorator delivers its producer contexts and
    completes, the manifest is written once for each context, one after
    the other, and the first write that fails ends the export with its
    error.  The contexts before it have had their manifest written and
    their [BUILDING_MANIFEST] snapshot delivered; for the failing write no
    snapshot is delivered, the contexts after it are not written, and
    nothing is packed. *)
Theorem export_manifest_write_failure w (req : Request.t) written c rest e :
  let n := length (Request.objects req) in
  let call := telemetryExport (Request.filePath req) (workspacePath w) in
  let mkdir := createDir (workspacePath w) false in
  let reports := fst (export_reports w req) in
  let sealed := pred (length reports) in
  let view := Map_of (last reports []) [] in
  Request.objects req <> [] ->
  createDir_outcome w (workspacePath w) false = Ok tt ->
  Forall (fun o => type o = TELEMETRY) (Request.objects req) ->
  snd (export_reports w req) = None ->
  reports <> [] ->
  buildContext_stream w = (written ++ c :: rest, None) ->
  Forall (fun c0 =>
            writeFile_outcome w (workspacePath w) "manifest.json"
              (JSON_stringify w (manifest_of w (pdata c0) (flattenedItems view)))
              true = Ok tt) written ->
  writeFile_outcome w (workspacePath w) "manifest.json"
    (JSON_stringify w (manifest_of w (pdata c) (flattenedItems view))) true =
  Throw e ->
  fst (run_export w req) = Errored e /\
  log (snd (run_export w req)) =
    [Called mkdir; Settled mkdir] ++
    repeat (Called call) n ++ repeat (Subscribed call) n ++
    snapshots "BUILDING" 0 reports ++
    [Called buildContext; Subscribed buildContext] ++
    flat_map (manifest_written w sealed view) written ++
    [Called (manifest_write w view c); Settled (manifest_write w view c)].
Proof.
  cbv zeta; intros Hne Hmk Hall Hjoined Hsome Hstream Hwritten Hfails.
  assert (Hcontexts : fst (buildContext_stream w) = written ++ c :: rest)
    by (rewrite Hstream; reflexivity).
  clear Hstream.
  set (res := run_export w req).
  assert (Hres : res = export_steps w req)
    by apply ArchiveStages.run_export_steps.
  clearbody res; unfold export_steps in Hres; unfold export_reports in *.
  destruct (Request.objects req) as [|o objs] eqn:Hobjs; [congruence|].
  cbv beta iota zeta in Hres; rewrite <- Hobjs in *; clear Hne Hobjs o objs.
  rewrite Hmk in Hres.
  set (mkdir := createDir (workspacePath w) false) in *.
  set (call := telemetryExport (Request.filePath req) (workspacePath w)).
  set (s0 := answered mkdir (initial ArchiveObjectExportProgress.t)) in *.
  destruct (Array_map_export_cases w req (Request.objects req) s0)
    as (n & s1 & Hh1 & _ & Hlog1 & [(_ & Hn & Heq) | ((o & Hnth & Ho) & _)]).
  2: { apply nth_error_In in Hnth; rewrite Forall_forall in Hall.
       destruct (Ho (Hall o Hnth)). }
  fold call in Hlog1, Heq; rewrite Heq in Hres; clear Heq; subst n.
  rewrite !map_repeat in Hres; cbn [fst snd] in Hres.
  set (joined := Join.combineLatest (schedule w)
                   (repeat (export_stream w req) (length (Request.objects req))))
    in *.
  clearbody joined; rewrite Hjoined in Hres.
  destruct (subscribed_all _ (repeat call (length (Request.objects req))) s1)
    as (Hh1' & _ & Hlog1').
  rewrite map_repeat in Hlog1'.
  match type of Hres with
  | context [fold_left ?f (fst joined) ?s] =>
      destruct (aggregate_trace _ "BUILDING" (fst joined) s)
        as (Hh2 & Hlog2 & Hlast2);
      set (s2 := fold_left f (fst joined) s) in *
  end.
  rewrite Hh1', Hh1 in Hh2, Hlog2, Hlast2; simpl in Hh2, Hlog2.
  set (r := {| task := "BUILDING"; progress := pred (length (fst joined));
               filePath := None |}).
  assert (Hlast : lastResult s2 = Some r)
    by (rewrite Hlast2; unfold r; destruct (fst joined); [congruence | reflexivity]).
  clearbody s2; rewrite Hlast, Hcontexts in Hres.
  set (view := Map_of (last (fst joined) []) []) in *.
  set (s2' := record (Subscribed buildContext) (record (Called buildContext) s2))
    in *.
  assert (Hview : deref (progress r) s2' = view).
  { unfold deref; change (heap s2') with (heap s2); rewrite Hh2; simpl progress.
    unfold view; rewrite <- nth_pred_last.
    exact (map_nth (fun results => Map_of results []) (fst joined) []
             (pred (length (fst joined)))). }
  destruct (feed_manifest_stops w r view written c rest s2' e Hview Hwritten
              Hfails) as (s3 & Hfeed & Hlog3).
  rewrite Hfeed in Hres; rewrite Hres; split; [reflexivity|].
  cbn [snd]; rewrite Hlog3.
  unfold s2', record; cbn [log]; rewrite Hlog2, Hlog1', Hlog1, <- !app_assoc.
  reflexivity.
Qed.

Lemma export_manifest_write_failure_witness :
  fst (run_export Failures.world_disk_full (Examples.request [TELEMETRY])) =
  Errored Failures.disk_full /\
  log (snd (run_export Failures.world_disk_full (Examples.request [TELEMETRY]))) =
  [ Called (createDir "file:///cache/4f1c" false);
    Settled (createDir "file:///cache/4f1c" false);
    Called (telemetryExport "file:///downloads/archive.zip" "file:///cache/4f1c");
    Subscribed (telemetryExport "file:///downloads/archive.zip" "file:///cache/4f1c");
    Emitted {| task := "BUILDING"; progress := 0; filePath := None |}
      [(TELEMETRY,
        {| ArchiveObjectExportProgress.task := "EXPORTING";
           ArchiveObjectExportProgress.completed := [Examples.item1] |})];
    Emitted {| task := "BUILDING"; progress := 1; filePath := None |}
      [(TELEMETRY,
        {| ArchiveObjectExportProgress.task := "OBJECT_EXPORT_COMPLETE";
           ArchiveObjectExportProgress.completed :=
             [Examples.item1; Examples.item2] |})];
    Called buildContext; Subscribed buildContext;
    Called (writeFile "file:///cache/4f1c" "manifest.json" "{manifest}" true);
    Settled (writeFile "file:///cache/4f1c" "manifest.json" "{manifest}" true) ].
Proof.
  apply (export_manifest_write_failure Failures.world_disk_full
           (Examples.request [TELEMETRY]) [] {| pdata := "prod.sunbird.app" |} []
           Failures.disk_full);
    [discriminate | reflexivity | repeat constructor | reflexivity | discriminate
    | reflexivity | constructor | reflexivity].
Defined.

End ArchiveRuns.
